(** * Workflow runner: a shallow embedding of [workflow_runner.py]

    The development follows the Python source top to bottom:

    - [PyStr]      the [str] methods the runner calls;
    - [value]      JSON-like dynamic values, Python truthiness, equality,
                   [float]/[int] conversions on IEEE binary64 floats;
    - [PyRuntime]  the interpreter services the runner calls but does not
                   define ([eval], [json.loads], [json.dumps], [repr] of
                   floats and strings, [float] of a string, iteration order
                   of a [set]);
    - [M]          a state-and-exception monad over the executor object;
    - [_resolve_val], [execute_node], [run], [WorkflowExecutor.__init__];
    - [handle_request], the HTTP handler of [main.py];
    - the properties of the engine.

    Modelling conventions.  Objects are modelled by value: the objects the
    runner updates in place are the Context, the log and the mapping
    [_loop_states] with its per-node records, and the model follows Python
    as long as a graph binds no other name to the latter (see
    [store_index]).  The graph has
    the shape of the data model: node ids, node types and edge endpoints
    are strings, node [data] is a mapping from strings to arbitrary values.
    The Context is a Python [dict]: insertion ordered, keyed by any
    hashable value (names come from node data unvalidated).  Characters
    are 8-bit [ascii].  [print] to standard output is not modelled.

    Two limits of the model by value.  A result of [run] holds the log
    and the Context as they are when [run] returns; in Python it refers
    to the executor's own list and dictionary, which a later run on the
    same executor goes on writing to.  [py_eval] gives back the Context
    an evaluation leaves; an expression that changes in place an object
    the Context shares with the node data (a list bound by a [variable]
    node, say) changes the graph as well, and is outside the model.  No
    statement below compares the logs or the Contexts of two results, or
    relies on the graph being untouched by such an expression. *)

From Stdlib Require Import ZArith List String Ascii Bool Lia Floats.
From Stdlib Require DecimalString.
Import ListNotations.

Open Scope string_scope.
Open Scope Z_scope.

(* ================================================================== *)
(** ** Python [str] methods *)

Module PyStr.

(** [s.startswith(p)] *)
Definition startswith (p s : string) : bool := String.prefix p s.

(** [s.endswith(p)] *)
Definition endswith (p s : string) : bool :=
  let n := String.length s in
  let m := String.length p in
  (m <=? n)%nat && String.eqb (substring (n - m) m s) p.

(** [s.count(c)] for a one-character [c] *)
Fixpoint count_char (c : ascii) (s : string) : nat :=
  match s with
  | EmptyString => O
  | String a s' => ((if Ascii.eqb a c then 1 else 0) + count_char c s')%nat
  end.

(** [s[1:-1]] *)
Definition slice_inner (s : string) : string :=
  substring 1 (String.length s - 2) s.

(** [s[:n]] *)
Definition take (n : nat) (s : string) : string := substring 0 n s.

(** [sub in s] *)
Fixpoint contains (sub s : string) : bool :=
  String.prefix sub s ||
  match s with
  | EmptyString => false
  | String _ s' => contains sub s'
  end.

(** [s.replace(old, new)]: every non-overlapping occurrence, left to
    right.  [skip] counts the characters of a matched occurrence still to
    be dropped. *)
Fixpoint replace_from (old new : string) (skip : nat) (s : string) : string :=
  match s with
  | EmptyString => EmptyString
  | String c s' =>
      match skip with
      | S k => replace_from old new k s'
      | O =>
          if String.prefix old s
          then new ++ replace_from old new (String.length old - 1) s'
          else String c (replace_from old new O s')
      end
  end.

Fixpoint intersperse (new s : string) : string :=
  match s with
  | EmptyString => EmptyString
  | String c s' => String c (new ++ intersperse new s')
  end.

Definition replace (old new s : string) : string :=
  match old with
  | EmptyString => new ++ intersperse new s
  | _ => replace_from old new O s
  end.

Definition mem_char (c : ascii) (chars : string) : bool :=
  negb (count_char c chars =? 0)%nat.

Fixpoint lstrip (chars s : string) : string :=
  match s with
  | EmptyString => EmptyString
  | String c s' => if mem_char c chars then lstrip chars s' else s
  end.

Fixpoint rev (s : string) : string :=
  match s with
  | EmptyString => EmptyString
  | String c s' => rev s' ++ String c EmptyString
  end.

Definition rstrip (chars s : string) : string := rev (lstrip chars (rev s)).

(** [s.strip(chars)] *)
Definition strip (chars s : string) : string := rstrip chars (lstrip chars s).

(** The ASCII characters [str.strip()] removes. *)
Definition whitespace : string :=
  String (ascii_of_nat 9) (String (ascii_of_nat 10) (String (ascii_of_nat 11)
  (String (ascii_of_nat 12) (String (ascii_of_nat 13) (String (ascii_of_nat 28)
  (String (ascii_of_nat 29) (String (ascii_of_nat 30) (String (ascii_of_nat 31)
  " ")))))))).

(** [s.split(c)] for a one-character separator: the pieces, the last one
    accumulated in [cur]. *)
Fixpoint split_from (sep : ascii) (cur s : string) : list string :=
  match s with
  | EmptyString => [cur]
  | String c s' =>
      if Ascii.eqb c sep
      then cur :: split_from sep EmptyString s'
      else split_from sep (cur ++ String c EmptyString) s'
  end.

Definition split (sep : ascii) (s : string) : list string :=
  split_from sep EmptyString s.

(** [sep.join(parts)] *)
Definition join (sep : string) (parts : list string) : string :=
  String.concat sep parts.

(** [str(n)] for an [int] *)
Definition of_Z (z : Z) : string :=
  DecimalString.NilZero.string_of_int (Z.to_int z).

End PyStr.

(* ================================================================== *)
(** ** Exceptions *)

(** [Exc] is an instance of [Exception]; [BaseExc] is a [BaseException]
    outside [Exception] ([SystemExit], [KeyboardInterrupt], ...), which
    [except Exception] does not catch.  The second field is [str(e)]. *)
Inductive pyexn : Type :=
| Exc (cls msg : string)
| BaseExc (cls msg : string).

Definition exn_str (e : pyexn) : string :=
  match e with Exc _ m | BaseExc _ m => m end.

Definition is_Exception (e : pyexn) : bool :=
  match e with Exc _ _ => true | BaseExc _ _ => false end.

Inductive pyres (A : Type) : Type :=
| Ok (a : A)
| Raise (e : pyexn).
Arguments Ok {A} a.
Arguments Raise {A} e.

Definition pyres_bind {A B} (r : pyres A) (k : A -> pyres B) : pyres B :=
  match r with Ok a => k a | Raise e => Raise e end.

(* ================================================================== *)
(** ** Dynamic values *)

#[warnings="-register-all"]
Inductive value : Type :=
| VNone
| VBool (b : bool)
| VInt (z : Z)
| VFloat (f : float)
| VStr (s : string)
| VList (xs : list value)
| VDict (kvs : list (string * value)).

(** [type(v).__name__] *)
Definition type_name (v : value) : string :=
  match v with
  | VNone => "NoneType"
  | VBool _ => "bool"
  | VInt _ => "int"
  | VFloat _ => "float"
  | VStr _ => "str"
  | VList _ => "list"
  | VDict _ => "dict"
  end.

(** [bool(v)] *)
Definition truthy (v : value) : bool :=
  match v with
  | VNone => false
  | VBool b => b
  | VInt z => negb (z =? 0)
  | VFloat f => negb (PrimFloat.eqb f 0%float)
  | VStr s => negb (String.eqb s "")
  | VList xs => match xs with [] => false | _ => true end
  | VDict kvs => match kvs with [] => false | _ => true end
  end.

Definition is_str (v : value) : bool := match v with VStr _ => true | _ => false end.
Definition is_list (v : value) : bool := match v with VList _ => true | _ => false end.
Definition is_dict (v : value) : bool := match v with VDict _ => true | _ => false end.
Definition is_bool (v : value) : bool := match v with VBool _ => true | _ => false end.

(** [isinstance(v, (int, float))]: [bool] is a subclass of [int]. *)
Definition is_int_or_float (v : value) : bool :=
  match v with VBool _ | VInt _ | VFloat _ => true | _ => false end.

(** [v == s] for a string literal [s] *)
Definition eq_str (v : value) (s : string) : bool :=
  match v with VStr t => String.eqb t s | _ => false end.

(** *** String-keyed dictionaries (JSON objects) *)

Section Dict.
Context {A : Type}.

Fixpoint dict_get (k : string) (d : list (string * A)) : option A :=
  match d with
  | [] => None
  | (k', v) :: d' => if String.eqb k' k then Some v else dict_get k d'
  end.

(** [d[k] = v]: an existing key keeps its place, a new one goes last. *)
Fixpoint dict_set (k : string) (v : A) (d : list (string * A)) : list (string * A) :=
  match d with
  | [] => [(k, v)]
  | (k', v') :: d' =>
      if String.eqb k' k then (k', v) :: d' else (k', v') :: dict_set k v d'
  end.

Definition dict_mem (k : string) (d : list (string * A)) : bool :=
  match dict_get k d with Some _ => true | None => false end.

(** [d.get(k, default)] *)
Definition dict_get_default (k : string) (default : A) (d : list (string * A)) : A :=
  match dict_get k d with Some v => v | None => default end.

End Dict.

(** *** Floats *)

Module PyFloat.

(** [f.is_integer()] *)
Definition is_integer (f : float) : bool :=
  match Prim2SF f with
  | S754_zero _ => true
  | S754_finite _ m e =>
      if 0 <=? e then true else (Z.pos m mod 2 ^ (- e) =? 0)
  | _ => false
  end.

(** [int(f)]: truncation towards zero. *)
Definition to_int (f : float) : pyres Z :=
  match Prim2SF f with
  | S754_zero _ => Ok 0
  | S754_finite s m e =>
      let a := if 0 <=? e then Z.pos m * 2 ^ e else Z.pos m / 2 ^ (- e) in
      Ok (if s then - a else a)
  | S754_infinity _ => Raise (Exc "OverflowError" "cannot convert float infinity to integer")
  | S754_nan => Raise (Exc "ValueError" "cannot convert float NaN to integer")
  end.

(** [float(n)] for an [int]: round to nearest, ties to even. *)
Definition of_int (z : Z) : pyres float :=
  match binary_normalize prec emax z 0 false with
  | S754_infinity _ => Raise (Exc "OverflowError" "int too large to convert to float")
  | sf => Ok (SF2Prim sf)
  end.

(** Exact comparison of a float with an integer, as [f < n] and [f == n]. *)
Definition lt_int (f : float) (n : Z) : bool :=
  match Prim2SF f with
  | S754_zero _ => 0 <? n
  | S754_finite s m e =>
      let sm := if s then Z.neg m else Z.pos m in
      if 0 <=? e then sm * 2 ^ e <? n else sm <? n * 2 ^ (- e)
  | S754_infinity s => s
  | S754_nan => false
  end.

Definition eq_int (f : float) (n : Z) : bool :=
  match Prim2SF f with
  | S754_zero _ => n =? 0
  | S754_finite s m e =>
      let sm := if s then Z.neg m else Z.pos m in
      if 0 <=? e then sm * 2 ^ e =? n else sm =? n * 2 ^ (- e)
  | _ => false
  end.

(** C's [fmod]: the exact remainder, with the sign of [x]. *)
Definition fmod (x y : float) : float :=
  match Prim2SF x, Prim2SF y with
  | S754_nan, _ | _, S754_nan => nan
  | S754_infinity _, _ => nan
  | _, S754_zero _ => nan
  | _, S754_infinity _ => x
  | S754_zero _, _ => x
  | S754_finite sx mx ex, S754_finite _ my ey =>
      let e := Z.min ex ey in
      let r := (Z.pos mx * 2 ^ (ex - e)) mod (Z.pos my * 2 ^ (ey - e)) in
      SF2Prim (binary_normalize prec emax (if sx then - r else r) e sx)
  end.

(** [x % y] on floats: the remainder takes the sign of [y]. *)
Definition mod_ (x y : float) : pyres float :=
  if PrimFloat.eqb y 0%float
  then Raise (Exc "ZeroDivisionError" "float modulo")
  else
    let m := fmod x y in
    if negb (PrimFloat.eqb m 0%float) && negb (PrimFloat.is_nan m)
    then Ok (if Bool.eqb (PrimFloat.ltb y 0%float) (PrimFloat.ltb m 0%float)
             then m else (m + y)%float)
    else if PrimFloat.is_nan m then Ok m
    else Ok (if PrimFloat.get_sign y then (-0)%float else 0%float).

(** [min(fs)] and [max(fs)] of a non-empty list: the first extremum wins. *)
Definition min_ (f : float) (fs : list float) : float :=
  fold_left (fun cur x => if PrimFloat.ltb x cur then x else cur) fs f.

Definition max_ (f : float) (fs : list float) : float :=
  fold_left (fun cur x => if PrimFloat.ltb cur x then x else cur) fs f.

End PyFloat.

(** *** Equality, hashing and comparison *)

Definition Z_of_bool (b : bool) : Z := if b then 1 else 0.

(** [a == b] *)
Fixpoint py_eq (a b : value) {struct a} : bool :=
  match a with
  | VNone => match b with VNone => true | _ => false end
  | VBool x =>
      match b with
      | VBool y => Bool.eqb x y
      | VInt z => Z_of_bool x =? z
      | VFloat g => PyFloat.eq_int g (Z_of_bool x)
      | _ => false
      end
  | VInt x =>
      match b with
      | VBool y => x =? Z_of_bool y
      | VInt z => x =? z
      | VFloat g => PyFloat.eq_int g x
      | _ => false
      end
  | VFloat f =>
      match b with
      | VBool y => PyFloat.eq_int f (Z_of_bool y)
      | VInt z => PyFloat.eq_int f z
      | VFloat g => PrimFloat.eqb f g
      | _ => false
      end
  | VStr s => match b with VStr t => String.eqb s t | _ => false end
  | VList xs =>
      match b with
      | VList ys =>
          (fix all2 (xs ys : list value) : bool :=
             match xs, ys with
             | [], [] => true
             | x :: xs', y :: ys' => py_eq x y && all2 xs' ys'
             | _, _ => false
             end) xs ys
      | _ => false
      end
  | VDict d1 =>
      match b with
      | VDict d2 =>
          (List.length d1 =? List.length d2)%nat &&
          (fix sub (d : list (string * value)) : bool :=
             match d with
             | [] => true
             | (k, v) :: d' =>
                 match dict_get k d2 with
                 | Some w => py_eq v w && sub d'
                 | None => false
                 end
             end) d1
      | _ => false
      end
  end.

(** Lists and dicts are unhashable. *)
Definition hashable (v : value) : bool := negb (is_list v || is_dict v).

Definition unhashable (v : value) : pyexn :=
  Exc "TypeError" ("unhashable type: '" ++ type_name v ++ "'").

(** Key lookup in a [dict]: identity first, then [==] (a NaN key is found
    again through the object that was inserted). *)
Definition key_eqb (a b : value) : bool :=
  match a, b with
  | VFloat f, VFloat g => PrimFloat.eqb f g || (PrimFloat.is_nan f && PrimFloat.is_nan g)
  | _, _ => py_eq a b
  end.

(** The Variable Context: [self.context]. *)
Definition Ctx : Type := list (value * value).

Fixpoint ctx_find (k : value) (c : Ctx) : option value :=
  match c with
  | [] => None
  | (k', v) :: c' => if key_eqb k' k then Some v else ctx_find k c'
  end.

Fixpoint ctx_set (k v : value) (c : Ctx) : Ctx :=
  match c with
  | [] => [(k, v)]
  | (k', v') :: c' =>
      if key_eqb k' k then (k', v) :: c' else (k', v') :: ctx_set k v c'
  end.

Definition ctx_mem (k : value) (c : Ctx) : bool :=
  match ctx_find k c with Some _ => true | None => false end.

(** [self.context.get(k)] for an arbitrary value [k] *)
Definition ctx_get (k : value) (c : Ctx) : pyres value :=
  if hashable k
  then Ok (match ctx_find k c with Some v => v | None => VNone end)
  else Raise (unhashable k).

(** [int(v)] and [v == n], [v < n] against an [int], for numbers *)
Definition to_int (v : value) : pyres Z :=
  match v with
  | VInt z => Ok z
  | VBool b => Ok (Z_of_bool b)
  | VFloat f => PyFloat.to_int f
  | VStr _ => Raise (Exc "ValueError" "invalid literal for int() with base 10")
  | _ => Raise (Exc "TypeError"
           ("int() argument must be a string, a bytes-like object or a real number, not '"
            ++ type_name v ++ "'"))
  end.

Definition lt_int (v : value) (n : Z) : pyres bool :=
  match v with
  | VInt z => Ok (z <? n)
  | VBool b => Ok (Z_of_bool b <? n)
  | VFloat f => Ok (PyFloat.lt_int f n)
  | _ => Raise (Exc "TypeError"
           ("'<' not supported between instances of '" ++ type_name v ++ "' and 'int'"))
  end.

(** [xs[i]] on a list, negative indices counted from the end *)
Definition list_index (xs : list value) (i : Z) : pyres value :=
  let n := Z.of_nat (List.length xs) in
  let j := if i <? 0 then i + n else i in
  if (0 <=? j) && (j <? n)
  then match nth_error xs (Z.to_nat j) with
       | Some x => Ok x
       | None => Raise (Exc "IndexError" "list index out of range")
       end
  else Raise (Exc "IndexError" "list index out of range").

(** [x in container] *)
Definition contains_op (x container : value) : pyres bool :=
  match container with
  | VDict d =>
      match x with
      | VStr s => Ok (dict_mem s d)
      | VList _ | VDict _ => Raise (unhashable x)
      | _ => Ok false
      end
  | VList xs => Ok (existsb (py_eq x) xs)
  | VStr s =>
      match x with
      | VStr t => Ok (PyStr.contains t s)
      | _ => Raise (Exc "TypeError"
               ("'in <string>' requires string as left operand, not " ++ type_name x))
      end
  | _ => Raise (Exc "TypeError"
           ("argument of type '" ++ type_name container ++ "' is not iterable"))
  end.

(** [for x in v]: the elements a value iterates over *)
Fixpoint chars (s : string) : list value :=
  match s with
  | EmptyString => []
  | String c s' => VStr (String c EmptyString) :: chars s'
  end.

Definition iterate (v : value) : pyres (list value) :=
  match v with
  | VList xs => Ok xs
  | VStr s => Ok (chars s)
  | VDict d => Ok (map (fun kv => VStr (fst kv)) d)
  | _ => Raise (Exc "TypeError" ("'" ++ type_name v ++ "' object is not iterable"))
  end.

Definition no_attribute (v : value) (attr : string) : pyexn :=
  Exc "AttributeError" ("'" ++ type_name v ++ "' object has no attribute '" ++ attr ++ "'").

(* ================================================================== *)
(** ** Interpreter services *)

(** What the runner takes from the Python interpreter and its standard
    library without defining it.  [py_eval c ctx] stands for
    [bool(eval(c, {"__builtins__": {}}, ctx))]: the expression may rebind
    names of [ctx] (it is the [locals] mapping), so the Context comes back
    with the outcome.  [float_sum] is [sum] over a non-empty list of floats
    (its rounding differs between interpreter versions) and [set_to_list]
    is [list(set(xs))], whose order is that of the hash table. *)
Class PyRuntime : Type := {
  py_eval : string -> Ctx -> Ctx * pyres bool;
  json_loads : string -> pyres value;
  json_dumps : value -> string;
  float_of_str : string -> pyres float;
  repr_float : float -> string;
  repr_str : string -> string;
  float_sum : list float -> float;
  set_to_list : list string -> list string;
  set_to_list_In : forall xs x, In x (set_to_list xs) <-> In x xs;
  set_to_list_NoDup : forall xs, NoDup (set_to_list xs)
}.

(* ================================================================== *)
(** ** The workflow graph and the executor object *)

Record node : Type := {
  node_id : string;
  node_type : string;
  node_data : list (string * value)
}.

Record edge : Type := {
  source : string;
  target : string;
  sourceHandle : option string
}.

Record workflow_data : Type := {
  wf_nodes : list node;
  wf_edges : list edge
}.

(** The fields [__init__] sets. *)
Record WorkflowExecutor : Type := {
  nodes : list (string * node);
  edges : list edge;
  adjacency : list (string * list (string * option string));
  context : Ctx;
  execution_log : list string
}.

Definition with_context (c : Ctx) (self : WorkflowExecutor) : WorkflowExecutor :=
  {| nodes := nodes self; edges := edges self; adjacency := adjacency self;
     context := c; execution_log := execution_log self |}.

Definition with_log (l : list string) (self : WorkflowExecutor) : WorkflowExecutor :=
  {| nodes := nodes self; edges := edges self; adjacency := adjacency self;
     context := context self; execution_log := l |}.

(** [WorkflowExecutor.__init__] *)
Definition add_edge (adj : list (string * list (string * option string))) (e : edge) :=
  dict_set (source e)
           (dict_get_default (source e) [] adj ++ [(target e, sourceHandle e)])%list adj.

Definition init (workflow : workflow_data) : WorkflowExecutor :=
  {| nodes := fold_left (fun d n => dict_set (node_id n) n d) (wf_nodes workflow) [];
     edges := wf_edges workflow;
     adjacency := fold_left add_edge (wf_edges workflow) [];
     context := [];
     execution_log := [] |}.

(** What [execute_node] returns besides [None]. *)
Inductive outcome : Type :=
| OLogic (result : bool)
| OLoop (result : string)
| OResponse (data : value).

(** The dictionary [run] returns: a field is [None] when the key is
    absent. *)
Record result : Type := {
  res_status : option string;
  res_response : option value;
  res_message : option string;
  res_error : option string;
  res_logs : option (list string);
  res_context : option Ctx
}.

(* ================================================================== *)
(** ** The state-and-exception monad of the executor's methods *)

Definition M (A : Type) : Type := WorkflowExecutor -> WorkflowExecutor * pyres A.

Definition ret {A} (a : A) : M A := fun self => (self, Ok a).

Definition bind {A B} (m : M A) (k : A -> M B) : M B :=
  fun self =>
    match m self with
    | (self', Ok a) => k a self'
    | (self', Raise e) => (self', Raise e)
    end.

Definition lift {A} (r : pyres A) : M A := fun self => (self, r).

Definition raise {A} (e : pyexn) : M A := lift (Raise e).

Declare Scope py_scope.
Delimit Scope py_scope with py.
Notation "x <- m ;; k" := (bind m (fun x => k))
  (at level 61, m at next level, right associativity) : py_scope.
Notation "m ;; k" := (bind m (fun _ => k))
  (at level 61, right associativity) : py_scope.
Open Scope py_scope.

Definition get_context : M Ctx := fun self => (self, Ok (context self)).

(** [self.execution_log.append(line)] *)
Definition append_log (line : string) (self : WorkflowExecutor) : WorkflowExecutor :=
  with_log (execution_log self ++ [line])%list self.

Definition log (line : string) : M unit :=
  fun self => (append_log line self, Ok tt).

(** [self.context[k] = v] *)
Definition context_setitem (k v : value) : M unit :=
  fun self =>
    if hashable k
    then (with_context (ctx_set k v (context self)) self, Ok tt)
    else (self, Raise (unhashable k)).

(** [try: body except Exception as e: handler(e)] *)
Definition try_except {A} (body : M A) (handler : pyexn -> M A) : M A :=
  fun self =>
    match body self with
    | (self', Raise (Exc cls msg)) => handler (Exc cls msg) self'
    | r => r
    end.

(* ================================================================== *)
(** ** The executor's methods *)

Section Runner.
Context {rt : PyRuntime}.

(** *** [str], [repr], subscripting *)

Fixpoint py_repr (v : value) : string :=
  match v with
  | VNone => "None"
  | VBool b => if b then "True" else "False"
  | VInt z => PyStr.of_Z z
  | VFloat f => repr_float f
  | VStr s => repr_str s
  | VList xs => "[" ++ PyStr.join ", " (map py_repr xs) ++ "]"
  | VDict d =>
      "{" ++ PyStr.join ", " (map (fun kv => repr_str (fst kv) ++ ": " ++ py_repr (snd kv)) d)
      ++ "}"
  end.

(** [str(v)], also what an f-string field renders *)
Definition py_str (v : value) : string :=
  match v with
  | VStr s => s
  | _ => py_repr v
  end.

(** [container[key]] *)
Definition getitem (container key : value) : pyres value :=
  match container with
  | VDict d =>
      if hashable key
      then match key with
           | VStr s =>
               match dict_get s d with
               | Some v => Ok v
               | None => Raise (Exc "KeyError" (py_repr key))
               end
           | _ => Raise (Exc "KeyError" (py_repr key))
           end
      else Raise (unhashable key)
  | VList xs =>
      match key with
      | VInt i => list_index xs i
      | VBool b => list_index xs (Z_of_bool b)
      | _ => Raise (Exc "TypeError"
               ("list indices must be integers or slices, not " ++ type_name key))
      end
  | VStr _ =>
      Raise (Exc "TypeError" ("string indices must be integers, not '" ++ type_name key ++ "'"))
  | _ => Raise (Exc "TypeError" ("'" ++ type_name container ++ "' object is not subscriptable"))
  end.

(** [float(v)] *)
Definition to_float (v : value) : pyres float :=
  match v with
  | VFloat f => Ok f
  | VInt z => PyFloat.of_int z
  | VBool b => Ok (if b then 1%float else 0%float)
  | VStr s => float_of_str s
  | _ => Raise (Exc "TypeError"
           ("float() argument must be a string or a real number, not '" ++ type_name v ++ "'"))
  end.

(** *** [_resolve_val] *)

(** [val.startswith('{') and val.endswith('}') and val.count('{') == 1] *)
Definition is_exact_ref (val : string) : bool :=
  PyStr.startswith "{" val && PyStr.endswith "}" val && (PyStr.count_char "{" val =? 1)%nat.

(** [f"{{{k}}}"] *)
Definition placeholder (k : value) : string := "{" ++ py_str k ++ "}".

(** The interpolation loop over [self.context.items()]. *)
Definition interpolate (c : Ctx) (val : string) : string :=
  fold_left
    (fun val kv =>
       if PyStr.contains (placeholder (fst kv)) val
       then PyStr.replace (placeholder (fst kv)) (py_str (snd kv)) val
       else val)
    c val.

Definition _resolve_val (c : Ctx) (val : value) : value :=
  match val with
  | VStr s =>
      if is_exact_ref s
      then match ctx_find (VStr (PyStr.slice_inner s)) c with
           | Some v => v
           | None => val
           end
      else if PyStr.contains "{" s && PyStr.contains "}" s
      then VStr (interpolate c s)
      else val
  | _ => val
  end.

(** *** [execute_node]: the [variable] branch *)

Definition execute_variable (data : list (string * value)) : M (option outcome) :=
  let var_name := dict_get_default "name" VNone data in
  let var_value := dict_get_default "value" VNone data in
  let var_type := dict_get_default "type" (VStr "string") data in
  if truthy var_name then
    c <- get_context ;;
    let var_value :=
      match var_value with
      | VStr s =>
          if is_exact_ref s
          then match ctx_find (VStr (PyStr.slice_inner s)) c with
               | Some v => v
               | None => var_value
               end
          else VStr (interpolate c s)
      | _ => var_value
      end in
    let var_value :=
      match var_value with
      | VStr s =>
          if eq_str var_type "json" || eq_str var_type "array"
          then match json_loads s with Ok v => v | Raise _ => var_value end
          else var_value
      | _ => var_value
      end in
    context_setitem var_name var_value ;;
    log ("Set Variable '" ++ py_str var_name ++ "' = "
         ++ PyStr.take 50 (py_str var_value) ++ "...") ;;
    ret None
  else ret None.

(** *** The [logic] branch *)

(** [eval(condition, {"__builtins__": {}}, self.context)] and [bool] of it *)
Definition eval_condition (condition : string) : M bool :=
  fun self =>
    let (c, r) := py_eval condition (context self) in
    (with_context c self, r).

(** [raw_condition.replace('===', '==').replace('!==', '!=')] *)
Definition normalize (raw_condition : string) : string :=
  PyStr.replace "!==" "!=" (PyStr.replace "===" "==" raw_condition).

Definition execute_logic (data : list (string * value)) : M (option outcome) :=
  match dict_get_default "condition" (VStr "False") data with
  | VStr raw_condition =>
      let condition := normalize raw_condition in
      try_except
        (result <- eval_condition condition ;;
         log ("Logic: '" ++ raw_condition ++ "' -> " ++ py_str (VBool result)) ;;
         ret (Some (OLogic result)))
        (fun e =>
           log ("Logic Error: " ++ exn_str e) ;;
           ret (Some (OLogic false)))
  | v => raise (no_attribute v "replace")
  end.

(** *** The [math] branch *)

Definition num_eq_int (v : value) (n : Z) : bool :=
  match v with
  | VInt z => z =? n
  | VFloat f => PyFloat.eq_int f n
  | _ => false
  end.

(** The operator chain; [res] starts as the integer [0]. *)
Definition math_apply (op : value) (num_a num_b : float) : pyres value :=
  if eq_str op "+" then Ok (VFloat (num_a + num_b))
  else if eq_str op "-" then Ok (VFloat (num_a - num_b))
  else if eq_str op "*" then Ok (VFloat (num_a * num_b))
  else if eq_str op "/" then
    Ok (if PrimFloat.eqb num_b 0%float then VInt 0 else VFloat (num_a / num_b))
  else if eq_str op "%" then
    pyres_bind (PyFloat.mod_ num_a num_b) (fun r => Ok (VFloat r))
  else Ok (VInt 0).

(** The two lines under [if num_a.is_integer() and num_b.is_integer()]. *)
Definition math_clean (res : value) : pyres value :=
  pyres_bind (to_int res) (fun n =>
  let res := if negb (num_eq_int res n) then VInt n else res in
  pyres_bind (to_int res) (fun n' =>
  Ok (if num_eq_int res n' then VInt n' else res))).

Definition execute_math (data : list (string * value)) : M (option outcome) :=
  c <- get_context ;;
  let val_a := _resolve_val c (dict_get_default "valA" VNone data) in
  let val_b := _resolve_val c (dict_get_default "valB" VNone data) in
  let op := dict_get_default "op" (VStr "+") data in
  let result_var := dict_get_default "resultVar" (VStr "result") data in
  try_except
    (num_a <- lift (to_float val_a) ;;
     num_b <- lift (to_float val_b) ;;
     res <- lift (math_apply op num_a num_b) ;;
     res <- (if PyFloat.is_integer num_a && PyFloat.is_integer num_b
             then lift (math_clean res) else ret res) ;;
     context_setitem result_var res ;;
     log ("Math: " ++ py_str (VFloat num_a) ++ " " ++ py_str op ++ " "
          ++ py_str (VFloat num_b) ++ " = " ++ py_str res) ;;
     ret None)
    (fun _ =>
       if eq_str op "+" then
         let res := py_str val_a ++ py_str val_b in
         context_setitem result_var (VStr res) ;;
         log ("Math (Str): " ++ py_str val_a ++ " + " ++ py_str val_b ++ " = " ++ res) ;;
         ret None
       else
         log ("Math Error: Could not process " ++ py_str val_a ++ " " ++ py_str op
              ++ " " ++ py_str val_b) ;;
         ret None).

(** *** The [data_op] branch *)

(** The numbers of a collection: entries [float] rejects are skipped. *)
Fixpoint extract_numbers (collection : list value) : list float :=
  match collection with
  | [] => []
  | x :: rest =>
      match to_float x with
      | Ok f => f :: extract_numbers rest
      | Raise _ => extract_numbers rest
      end
  end.

Definition aggregate (op : value) (collection : list value) (nums : list float)
  : pyres value :=
  if eq_str op "count" then Ok (VInt (Z.of_nat (List.length collection)))
  else if eq_str op "sum" then
    Ok (match nums with [] => VInt 0 | _ => VFloat (float_sum nums) end)
  else if eq_str op "avg" then
    match nums with
    | [] => Ok (VInt 0)
    | _ => pyres_bind (PyFloat.of_int (Z.of_nat (List.length nums)))
                      (fun n => Ok (VFloat (float_sum nums / n)))
    end
  else if eq_str op "min" then
    Ok (match nums with [] => VInt 0 | f :: fs => VFloat (PyFloat.min_ f fs) end)
  else if eq_str op "max" then
    Ok (match nums with [] => VInt 0 | f :: fs => VFloat (PyFloat.max_ f fs) end)
  else Ok (VInt 0).

(** [if isinstance(res, float) and res.is_integer(): res = int(res)] *)
Definition clean_int (res : value) : pyres value :=
  match res with
  | VFloat f =>
      if PyFloat.is_integer f
      then pyres_bind (PyFloat.to_int f) (fun n => Ok (VInt n))
      else Ok res
  | _ => Ok res
  end.

Definition execute_data_op (data : list (string * value)) : M (option outcome) :=
  let collection_source := dict_get_default "collection" (VStr "") data in
  let op := dict_get_default "op" (VStr "sum") data in
  let result_var := dict_get_default "resultVar" (VStr "summary") data in
  c <- get_context ;;
  let collection := _resolve_val c collection_source in
  let collection :=
    match collection with
    | VStr s =>
        match ctx_find collection c with
        | Some v => v
        | None =>
            if String.eqb s "body"
            then match ctx_find (VStr "body") c with Some v => v | None => VList [] end
            else collection
        end
    | _ => collection
    end in
  items <- match collection with
           | VList xs => ret xs
           | _ =>
               log ("DataNode Error: Input is not a list. Value: "
                    ++ PyStr.take 20 (py_str collection)) ;;
               ret []
           end ;;
  let nums := extract_numbers items in
  res <- lift (aggregate op items nums) ;;
  res <- lift (clean_int res) ;;
  context_setitem result_var res ;;
  log ("Data Op: " ++ py_str op ++ "(len=" ++ PyStr.of_Z (Z.of_nat (List.length items))
       ++ ") = " ++ py_str res) ;;
  ret None.

(** *** The [interface] branch *)

(** The [if]/[elif] chain of type checks: the entry for [invalid_types],
    if any. *)
Definition type_check (f_type name val : value) : option string :=
  if eq_str f_type "string" && negb (is_str val)
  then Some (py_str name ++ " (expected string)")
  else if eq_str f_type "number" && negb (is_int_or_float val)
  then Some (py_str name ++ " (expected number)")
  else if eq_str f_type "boolean" && negb (is_bool val)
  then Some (py_str name ++ " (expected boolean)")
  else if eq_str f_type "object" && negb (is_dict val)
  then Some (py_str name ++ " (expected object)")
  else if eq_str f_type "array" && negb (is_list val)
  then Some (py_str name ++ " (expected array)")
  else None.

(** The loop over [fields], with its two accumulators. *)
Fixpoint validate_fields (body : value) (fields : list value)
         (missing : list value) (invalid_types : list string)
  : pyres (list value * list string) :=
  match fields with
  | [] => Ok (missing, invalid_types)
  | field :: rest =>
      match field with
      | VDict fd =>
          let name := dict_get_default "name" VNone fd in
          let required := dict_get_default "required" (VBool false) fd in
          let f_type := dict_get_default "type" (VStr "string") fd in
          if negb (truthy name) then validate_fields body rest missing invalid_types
          else
            pyres_bind
              (if truthy required
               then pyres_bind (contains_op name body) (fun b => Ok (negb b))
               else Ok false)
              (fun absent =>
                 if absent
                 then validate_fields body rest (missing ++ [name])%list invalid_types
                 else
                   pyres_bind (contains_op name body) (fun present =>
                     if present
                     then pyres_bind (getitem body name) (fun val =>
                            match type_check f_type name val with
                            | Some entry =>
                                validate_fields body rest missing
                                                (invalid_types ++ [entry])%list
                            | None => validate_fields body rest missing invalid_types
                            end)
                     else validate_fields body rest missing invalid_types))
      | _ => Raise (no_attribute field "get")
      end
  end.

(** [', '.join(xs)]: every item must be a [str]. *)
Fixpoint str_items (i : nat) (xs : list value) : pyres (list string) :=
  match xs with
  | [] => Ok []
  | VStr s :: rest => pyres_bind (str_items (S i) rest) (fun l => Ok (s :: l))
  | v :: _ =>
      Raise (Exc "TypeError"
               ("sequence item " ++ PyStr.of_Z (Z.of_nat i) ++ ": expected str instance, "
                ++ type_name v ++ " found"))
  end.

Definition validation_message (missing : list value) (invalid_types : list string)
  : pyres string :=
  pyres_bind
    (match missing with
     | [] => Ok "Validation Error: "
     | _ => pyres_bind (str_items 0 missing) (fun names =>
              Ok ("Validation Error: " ++ "Missing fields: " ++ PyStr.join ", " names ++ ". "))
     end)
    (fun error_msg =>
       Ok (match invalid_types with
           | [] => error_msg
           | _ => error_msg ++ "Invalid types: " ++ PyStr.join ", " invalid_types ++ "."
           end)).

Definition execute_interface (data : list (string * value)) : M (option outcome) :=
  let fields := dict_get_default "fields" (VList []) data in
  c <- get_context ;;
  let body := match ctx_find (VStr "body") c with Some v => v | None => VDict [] end in
  fs <- lift (iterate fields) ;;
  lists <- lift (validate_fields body fs [] []) ;;
  let (missing, invalid_types) := (lists : list value * list string) in
  match missing, invalid_types with
  | [], [] =>
      log "Interface Validation Passed" ;;
      ret None
  | _, _ =>
      error_msg <- lift (validation_message missing invalid_types) ;;
      log ("Interface Validation Failed: " ++ error_msg) ;;
      ret (Some (OResponse
        (VDict [("error", VStr "Bad Request");
                ("message", VStr (PyStr.strip PyStr.whitespace error_msg));
                ("details", VDict [("missing", VList missing);
                                   ("invalid", VList (map VStr invalid_types))])])))
  end.

(** *** The [loop] branch *)

(** The walk along a dotted path [body.<field>...]. *)
Fixpoint walk_path (curr : value) (parts : list string) : value :=
  match parts with
  | [] => curr
  | part :: rest =>
      match curr with
      | VDict d => walk_path (dict_get_default part VNone d) rest
      | _ => VList []
      end
  end.

(** Passes 1 and 2 of the collection lookup. *)
Definition loop_collection (c : Ctx) (collection_source : value) : value :=
  let collection := _resolve_val c collection_source in
  match collection with
  | VStr s =>
      if PyStr.startswith "body." s
      then walk_path (match ctx_find (VStr "body") c with Some v => v | None => VDict [] end)
                     (tl (PyStr.split "." s))
      else if String.eqb s "body"
      then match ctx_find (VStr "body") c with Some v => v | None => VList [] end
      else match ctx_find collection c with Some v => v | None => collection end
  | _ => collection
  end.

(** [idx + 1] *)
Definition succ_index (idx : value) : pyres value :=
  match idx with
  | VInt i => Ok (VInt (i + 1))
  | VBool b => Ok (VInt (Z_of_bool b + 1))
  | VFloat f => Ok (VFloat (f + 1))
  | _ => Raise (Exc "TypeError"
           ("unsupported operand type(s) for +: '" ++ type_name idx ++ "' and 'int'"))
  end.

(** [idx = state['index']]: the state record and its index. *)
Definition read_index (state : value) : pyres (list (string * value) * value) :=
  match state with
  | VDict st =>
      match dict_get "index" st with
      | Some idx => Ok (st, idx)
      | None => Raise (Exc "KeyError" (py_repr (VStr "index")))
      end
  | _ => pyres_bind (getitem state (VStr "index")) (fun idx => Ok ([], idx))
  end.

(** [state['index'] = i; loop_states[node_id] = state].  Both dictionaries
    are updated in place: the Context sees the update exactly when its
    entry [_loop_states] is still the object [setdefault] returned, that
    is unless the loop variable is itself named [_loop_states] and has
    just been rebound. *)
Definition store_index (rebound : bool) (id : string)
           (loop_states state : list (string * value)) (i : value) : M unit :=
  if rebound then ret tt
  else
    fun self =>
      (with_context
         (ctx_set (VStr "_loop_states")
                  (VDict (dict_set id (VDict (dict_set "index" i state)) loop_states))
                  (context self)) self, Ok tt).

Definition execute_loop (nd : node) : M (option outcome) :=
  let data := node_data nd in
  let collection_source := dict_get_default "collection" (VStr "") data in
  let item_var := dict_get_default "variable" (VStr "item") data in
  c <- get_context ;;
  let collection := loop_collection c collection_source in
  items <- match collection with
           | VList xs => ret xs
           | _ =>
               log ("Loop Error: Collection '" ++ py_str collection_source
                    ++ "' resolved to <class '" ++ type_name collection
                    ++ "'>, expected list. Defaulting to empty.") ;;
               ret []
           end ;;
  (* loop_states = self.context.setdefault('_loop_states', {}) *)
  loop_states <- match ctx_find (VStr "_loop_states") c with
                 | Some v => ret v
                 | None => context_setitem (VStr "_loop_states") (VDict []) ;; ret (VDict [])
                 end ;;
  match loop_states with
  | VDict ls =>
      let state := dict_get_default (node_id nd) (VDict [("index", VInt 0)]) ls in
      entry <- lift (read_index state) ;;
      let (st, idx) := (entry : list (string * value) * value) in
      in_bounds <- lift (lt_int idx (Z.of_nat (List.length items))) ;;
      if in_bounds then
        item <- lift (getitem (VList items) idx) ;;
        (if truthy item_var then context_setitem item_var item else ret tt) ;;
        log ("Loop " ++ node_id nd ++ ": Item " ++ py_str idx ++ " = "
             ++ PyStr.take 20 (py_str item)) ;;
        next <- lift (succ_index idx) ;;
        store_index (truthy item_var && key_eqb item_var (VStr "_loop_states"))
                    (node_id nd) ls st next ;;
        ret (Some (OLoop "do"))
      else
        log ("Loop " ++ node_id nd ++ ": Done") ;;
        store_index false (node_id nd) ls st (VInt 0) ;;
        ret (Some (OLoop "done"))
  | v => raise (no_attribute v "get")
  end.

(** *** The [function] branch *)

Definition execute_function (data : list (string * value)) : M (option outcome) :=
  log ("Ran function " ++ py_str (dict_get_default "name" (VStr "func") data)) ;;
  ret None.

(** *** The [response] branch *)

(** The text a placeholder is replaced by in the JSON skeleton. *)
Definition render (val : value) : string :=
  match val with
  | VBool b => if b then "true" else "false"
  | VList _ | VDict _ => json_dumps val
  | _ => py_str val
  end.

(** The substitution loop over [self.context.items()]. *)
Fixpoint substitute_body (c : Ctx) (final_body : value) : pyres value :=
  match c with
  | [] => Ok final_body
  | (key, val) :: c' =>
      pyres_bind (contains_op (VStr (placeholder key)) final_body) (fun found =>
        if found
        then match final_body with
             | VStr s =>
                 substitute_body c' (VStr (PyStr.replace (placeholder key) (render val) s))
             | _ => Raise (no_attribute final_body "replace")
             end
        else substitute_body c' final_body)
  end.

(** [json.loads(final_body)] *)
Definition loads (final_body : value) : pyres value :=
  match final_body with
  | VStr s => json_loads s
  | _ => Raise (Exc "TypeError"
           ("the JSON object must be str, bytes or bytearray, not " ++ type_name final_body))
  end.

Definition execute_response (data : list (string * value)) : M (option outcome) :=
  let resp_type := dict_get_default "responseType" (VStr "json") data in
  let body_def := dict_get_default "body" (VStr "{}") data in
  c <- get_context ;;
  if eq_str resp_type "variable" then
    val <- lift (ctx_get body_def c) ;;
    match body_def with
    | VStr var_name =>
        if negb (truthy val) && PyStr.startswith "{" var_name && PyStr.endswith "}" var_name
        then val <- lift (ctx_get (VStr (PyStr.strip "{}" var_name)) c) ;;
             ret (Some (OResponse val))
        else ret (Some (OResponse val))
    | _ => ret (Some (OResponse val))
    end
  else
    try_except
      (final_body <- lift (substitute_body c body_def) ;;
       parsed <- lift (loads final_body) ;;
       ret (Some (OResponse parsed)))
      (fun e =>
         log ("Error parsing response body: " ++ exn_str e) ;;
         ret (Some (OResponse (VDict [("raw", body_def);
                                      ("error", VStr "JSON parse error")])))).

(** *** [execute_node] *)

Definition execute_node (nd : node) : M (option outcome) :=
  let data := node_data nd in
  if String.eqb (node_type nd) "api" then ret None
  else if String.eqb (node_type nd) "variable" then execute_variable data
  else if String.eqb (node_type nd) "logic" then execute_logic data
  else if String.eqb (node_type nd) "math" then execute_math data
  else if String.eqb (node_type nd) "data_op" then execute_data_op data
  else if String.eqb (node_type nd) "interface" then execute_interface data
  else if String.eqb (node_type nd) "loop" then execute_loop nd
  else if String.eqb (node_type nd) "function" then execute_function data
  else if String.eqb (node_type nd) "response" then execute_response data
  else ret None.

(** *** [run] *)

Definition get_self : M WorkflowExecutor := fun self => (self, Ok self).

Definition no_entry_result : result :=
  {| res_status := None; res_response := None; res_message := None;
     res_error := Some "No API Entry Point found";
     res_logs := None; res_context := None |}.

Definition response_result (self : WorkflowExecutor) (response : value) : result :=
  {| res_status := Some "success"; res_response := Some response; res_message := None;
     res_error := None;
     res_logs := Some (execution_log self); res_context := Some (context self) |}.

Definition error_result (self : WorkflowExecutor) (msg : string) : result :=
  {| res_status := Some "error"; res_response := None; res_message := None;
     res_error := Some msg;
     res_logs := Some (execution_log self); res_context := None |}.

Definition completed_result (self : WorkflowExecutor) : result :=
  {| res_status := Some "success"; res_response := None;
     res_message := Some "Workflow completed without specific response";
     res_error := None;
     res_logs := Some (execution_log self); res_context := Some (context self) |}.

Definition handle_is (handle : option string) (s : string) : bool :=
  match handle with Some h => String.eqb h s | None => false end.

(** The routing rule for one outgoing edge of an executed node. *)
Definition routed (type : string) (res : option outcome) (handle : option string) : bool :=
  if String.eqb type "logic" then
    match res with
    | Some (OLogic true) => handle_is handle "true"
    | Some (OLogic false) => handle_is handle "false"
    | _ => false
    end
  else if String.eqb type "loop" then
    match res with
    | Some (OLoop r) =>
        (String.eqb r "do" && handle_is handle "do")
        || (String.eqb r "done" && handle_is handle "done")
    | _ => false
    end
  else true.

Definition downstream (self : WorkflowExecutor) (id type : string) (res : option outcome)
  : list string :=
  map fst (filter (fun e => routed type res (snd e))
                  (dict_get_default id [] (adjacency self))).

(** How the [for] loop over a wave ends: it falls through with the next
    layer, or [run] returns from inside it. *)
Inductive wave_end : Type :=
| Continue (next_layer : list string)
| Return (r : result).

(** The [try] block around one node: the node's outcome, or the result
    [run] returns at once. *)
Definition guarded_execute (id : string) (nd : node) : M (option outcome + result) :=
  try_except
    (res <- execute_node nd ;;
     match res with
     | Some (OResponse response) =>
         self <- get_self ;;
         ret (inr (response_result self response))
     | _ => ret (inl res)
     end)
    (fun e =>
       log ("Error executing node " ++ id ++ ": " ++ exn_str e) ;;
       self <- get_self ;;
       ret (inr (error_result self (exn_str e)))).

Fixpoint run_wave (current_nodes next_layer : list string) : M wave_end :=
  match current_nodes with
  | [] => ret (Continue next_layer)
  | id :: rest =>
      self <- get_self ;;
      match dict_get id (nodes self) with
      | None => raise (Exc "KeyError" (py_repr (VStr id)))
      | Some nd =>
          log ("Executing Node: " ++ node_type nd ++ " (" ++ id ++ ")") ;;
          step <- guarded_execute id nd ;;
          match step with
          | inr r => ret (Return r)
          | inl res => run_wave rest (next_layer ++ downstream self id (node_type nd) res)%list
          end
      end
  end.

(** The [while] loop; [remaining] is [1000 - entry_count].  The number
    returned with the result counts the waves that were run. *)
Fixpoint while_loop (remaining : nat) (current_nodes : list string) : M (nat * result) :=
  match remaining, current_nodes with
  | S remaining', _ :: _ =>
      w <- run_wave current_nodes [] ;;
      match w with
      | Return r => ret (1%nat, r)
      | Continue next_layer =>
          out <- while_loop remaining' (set_to_list next_layer) ;;
          ret (S (fst out), snd out)
      end
  | _, _ =>
      self <- get_self ;;
      ret (O, completed_result self)
  end.

(** Step 1 of [run]: every [variable] node is executed, in the order of
    [self.nodes]. *)
Fixpoint init_variables (ns : list (string * node)) : M unit :=
  match ns with
  | [] => ret tt
  | (_, nd) :: rest =>
      (if String.eqb (node_type nd) "variable"
       then execute_node nd ;; ret tt
       else ret tt) ;;
      init_variables rest
  end.

Definition find_api (ns : list (string * node)) : option node :=
  option_map snd (find (fun kv => String.eqb (node_type (snd kv)) "api") ns).

(** The convenience aliases [body], [query], [params]. *)
Definition seed_context (input_data : list (string * value)) : M unit :=
  context_setitem (VStr "request") (VDict input_data) ;;
  (let body := dict_get_default "body" VNone input_data in
   if is_dict body then context_setitem (VStr "body") body else ret tt) ;;
  (let query := dict_get_default "query" VNone input_data in
   if truthy query then context_setitem (VStr "query") query else ret tt) ;;
  (let params := dict_get_default "params" VNone input_data in
   if truthy params then context_setitem (VStr "params") params else ret tt).

Definition max_waves : nat := 1000.

(** [run], together with the number of waves it ran. *)
Definition run_counted (input_data : list (string * value)) : M (nat * result) :=
  self <- get_self ;;
  init_variables (nodes self) ;;
  match find_api (nodes self) with
  | None => ret (O, no_entry_result)
  | Some start_node =>
      log ("Started execution at "
           ++ py_str (dict_get_default "label" (VStr "API Entry") (node_data start_node))) ;;
      seed_context input_data ;;
      while_loop max_waves [node_id start_node]
  end.

Definition run (input_data : list (string * value)) : M result :=
  out <- run_counted input_data ;;
  ret (snd out).

End Runner.

(* ================================================================== *)
(** ** A reference interpreter

    A small instance of [PyRuntime], enough to run the examples below.  It
    agrees with CPython on the inputs it accepts: comparisons of integer
    literals and Context names, integer-valued floats, strings without
    quotes or escapes. Everything else is rejected with the exception
    CPython would raise for malformed input. *)

Module Reference.

Definition digit_of (c : ascii) : option Z :=
  let n := Z.of_nat (nat_of_ascii c) in
  if (48 <=? n) && (n <=? 57) then Some (n - 48) else None.

Fixpoint parse_digits (acc : Z) (s : string) : option Z :=
  match s with
  | EmptyString => Some acc
  | String c s' =>
      match digit_of c with
      | Some d => parse_digits (10 * acc + d) s'
      | None => None
      end
  end.

(** A decimal integer literal with an optional sign. *)
Definition parse_int (s : string) : option Z :=
  match s with
  | EmptyString => None
  | String "-" (String c s') => option_map Z.opp (parse_digits 0 (String c s'))
  | _ => parse_digits 0 s
  end.

Definition is_name_char (c : ascii) : bool :=
  let n := nat_of_ascii c in
  ((97 <=? n) && (n <=? 122) || (65 <=? n) && (n <=? 90) || (n =? 95)
   || (48 <=? n) && (n <=? 57))%nat.

Fixpoint is_name (s : string) : bool :=
  match s with
  | EmptyString => true
  | String c s' => is_name_char c && is_name s'
  end.

(** An operand: an integer literal, [True], [False], or a name of the
    Context. *)
Definition atom (c : Ctx) (s : string) : pyres value :=
  match parse_int s with
  | Some z => Ok (VInt z)
  | None =>
      if String.eqb s "True" then Ok (VBool true)
      else if String.eqb s "False" then Ok (VBool false)
      else if negb (String.eqb s "") && is_name s then
        match ctx_find (VStr s) c with
        | Some v => Ok v
        | None => Raise (Exc "NameError" ("name '" ++ s ++ "' is not defined"))
        end
      else Raise (Exc "SyntaxError" "invalid syntax")
  end.

Definition compare_values (op : string) (a b : value) : pyres bool :=
  match a, b with
  | VInt x, VInt y =>
      if String.eqb op "==" then Ok (x =? y)
      else if String.eqb op "!=" then Ok (negb (x =? y))
      else if String.eqb op "<" then Ok (x <? y)
      else if String.eqb op ">" then Ok (y <? x)
      else if String.eqb op "<=" then Ok (x <=? y)
      else if String.eqb op ">=" then Ok (y <=? x)
      else Raise (Exc "SyntaxError" "invalid syntax")
  | _, _ =>
      if String.eqb op "==" then Ok (py_eq a b)
      else if String.eqb op "!=" then Ok (negb (py_eq a b))
      else Raise (Exc "TypeError"
             ("'" ++ op ++ "' not supported between instances of '" ++ type_name a
              ++ "' and '" ++ type_name b ++ "'"))
  end.

Definition eval (condition : string) (c : Ctx) : Ctx * pyres bool :=
  (c,
   match PyStr.split " " condition with
   | [a] => pyres_bind (atom c a) (fun v => Ok (truthy v))
   | [a; op; b] =>
       pyres_bind (atom c a) (fun x =>
       pyres_bind (atom c b) (fun y => compare_values op x y))
   | _ => Raise (Exc "SyntaxError" "invalid syntax")
   end).

Definition loads (s : string) : pyres value :=
  match parse_int s with
  | Some z => Ok (VInt z)
  | None =>
      if String.eqb s "null" then Ok VNone
      else if String.eqb s "true" then Ok (VBool true)
      else if String.eqb s "false" then Ok (VBool false)
      else if String.eqb s "{}" then Ok (VDict [])
      else if String.eqb s "[]" then Ok (VList [])
      else Raise (Exc "JSONDecodeError" "Expecting value: line 1 column 1 (char 0)")
  end.

(** The decimal digits of [r / d], for [0 <= r < d]. *)
Fixpoint fraction_digits (fuel : nat) (r d : Z) : string :=
  match fuel with
  | O => EmptyString
  | S fuel' =>
      if r =? 0 then EmptyString
      else PyStr.of_Z (10 * r / d) ++ fraction_digits fuel' (10 * r mod d) d
  end.

(** [repr] of a float: exact decimal expansion (CPython prints the
    shortest digits that round-trip, the same when the expansion is
    short). *)
Definition float_repr (f : float) : string :=
  match PyFloat.to_int f with
  | Ok n =>
      if PyFloat.is_integer f then PyStr.of_Z n ++ ".0"
      else match Prim2SF f with
           | S754_finite s m e =>
               (if s then "-" else "") ++ PyStr.of_Z (Z.abs n) ++ "."
               ++ fraction_digits (Z.to_nat (- e)) (Z.pos m mod 2 ^ (- e)) (2 ^ (- e))
           | _ => "nan"
           end
  | Raise _ => if PrimFloat.is_nan f then "nan"
               else if PrimFloat.ltb f 0%float then "-inf" else "inf"
  end.

Definition str_repr (s : string) : string := "'" ++ s ++ "'".

Fixpoint dumps (v : value) : string :=
  match v with
  | VNone => "null"
  | VBool b => if b then "true" else "false"
  | VInt z => PyStr.of_Z z
  | VFloat f => float_repr f
  | VStr s => String.concat "" [String (ascii_of_nat 34) s; String (ascii_of_nat 34) ""]
  | VList xs => "[" ++ PyStr.join ", " (map dumps xs) ++ "]"
  | VDict d =>
      "{" ++ PyStr.join ", "
               (map (fun kv => String (ascii_of_nat 34) (fst kv)
                               ++ String (ascii_of_nat 34) ": " ++ dumps (snd kv)) d)
      ++ "}"
  end.

Definition float_parse (s : string) : pyres float :=
  match parse_int s with
  | Some z => PyFloat.of_int z
  | None => Raise (Exc "ValueError" ("could not convert string to float: " ++ str_repr s))
  end.

Definition sum_floats (fs : list float) : float :=
  fold_left PrimFloat.add fs 0%float.

Definition dedup (xs : list string) : list string := nodup string_dec xs.

#[export] Instance runtime : PyRuntime := {|
  py_eval := eval;
  json_loads := loads;
  json_dumps := dumps;
  float_of_str := float_parse;
  repr_float := float_repr;
  repr_str := str_repr;
  float_sum := sum_floats;
  set_to_list := dedup;
  set_to_list_In := nodup_In string_dec;
  set_to_list_NoDup := NoDup_nodup string_dec
|}.

End Reference.

(* ================================================================== *)
(** ** The vocabulary of the properties *)

(** *** What the methods leave alone: the graph, and the log so far *)

Definition same_graph (s s' : WorkflowExecutor) : Prop :=
  nodes s' = nodes s /\ edges s' = edges s /\ adjacency s' = adjacency s.

Definition log_extends (s s' : WorkflowExecutor) : Prop :=
  exists suffix, execution_log s' = (execution_log s ++ suffix)%list.

Definition stable (s s' : WorkflowExecutor) : Prop :=
  same_graph s s' /\ log_extends s s'.

Definition Stable {A} (m : M A) : Prop := forall s, stable s (fst (m s)).

(** *** Math nodes *)

(** The fields of a [math] node, and the coercion of its two resolved
    operands. *)
Definition math_op (nd : node) : value :=
  dict_get_default "op" (VStr "+") (node_data nd).

Definition math_result_var (nd : node) : value :=
  dict_get_default "resultVar" (VStr "result") (node_data nd).

Definition math_operands {rt : PyRuntime} (c : Ctx) (nd : node) : pyres (float * float) :=
  pyres_bind (to_float (_resolve_val c (dict_get_default "valA" VNone (node_data nd))))
    (fun num_a =>
  pyres_bind (to_float (_resolve_val c (dict_get_default "valB" VNone (node_data nd))))
    (fun num_b => Ok (num_a, num_b))).

(** [op] is one of [+ - * / %]. *)
Definition known_op (op : value) : bool :=
  eq_str op "+" || eq_str op "-" || eq_str op "*" || eq_str op "/" || eq_str op "%".


(** The value a math node leaves under its [resultVar]. *)
Definition math_stored {rt : PyRuntime} (nd : node) (self : WorkflowExecutor) : option value :=
  ctx_find (math_result_var nd) (context (fst (execute_node nd self))).

(** *** Loop nodes *)

Definition loop_source (nd : node) : value :=
  dict_get_default "collection" (VStr "") (node_data nd).

Definition loop_variable (nd : node) : value :=
  dict_get_default "variable" (VStr "item") (node_data nd).

(** The iteration index the reserved sub-mapping [_loop_states] holds for
    a node. *)
Definition loop_index (c : Ctx) (id : string) : option value :=
  match ctx_find (VStr "_loop_states") c with
  | Some (VDict ls) =>
      match dict_get id ls with
      | Some (VDict st) => dict_get "index" st
      | _ => None
      end
  | _ => None
  end.

(** The node is about to run iteration [k]: its index is [k], or, for
    [k = 0], it has no state yet (no sub-mapping, or no entry in it). *)
Definition at_index (c : Ctx) (id : string) (k : nat) : Prop :=
  match ctx_find (VStr "_loop_states") c with
  | None => k = O
  | Some (VDict ls) =>
      match dict_get id ls with
      | None => k = O
      | Some (VDict st) => dict_get "index" st = Some (VInt (Z.of_nat k))
      | Some _ => False
      end
  | Some _ => False
  end.

(** The loop variable names a variable of its own: it is a non-empty
    hashable name other than the reserved key. *)
Definition names_variable (v : value) : Prop :=
  truthy v = true /\ hashable v = true /\ key_eqb v (VStr "_loop_states") = false.

(** [n] successive executions of a node. *)
Fixpoint execute_times {rt : PyRuntime} (n : nat) (nd : node) (self : WorkflowExecutor) : WorkflowExecutor :=
  match n with
  | O => self
  | S k => fst (execute_node nd (execute_times k nd self))
  end.

(** *** Variable nodes *)

Definition variable_name (nd : node) : value :=
  dict_get_default "name" VNone (node_data nd).

(** Every key bound in the first Context is bound in the second. *)
Definition keys_kept (s s' : WorkflowExecutor) : Prop :=
  forall k, ctx_mem k (context s) = true -> ctx_mem k (context s') = true.

(** *** Graphs and traversals *)

(** The ids of a graph are unique, and exactly one node is of type [api]. *)
Definition unique_ids (g : workflow_data) : Prop := NoDup (map node_id (wf_nodes g)).

Definition is_api (nd : node) : bool := String.eqb (node_type nd) "api".

Definition exactly_one_api (g : workflow_data) : Prop :=
  List.length (filter is_api (wf_nodes g)) = 1%nat.

(** How a result that [run] returns from its traversal comes about: a
    node of the graph yielded a response, a node of the graph raised an
    [Exception], or the traversal ran out of nodes or of waves. *)
Inductive traversal_result {rt : PyRuntime} (N : list (string * node)) (s' : WorkflowExecutor)
  : result -> Prop :=
| by_response id nd s payload :
    dict_get id N = Some nd ->
    execute_node nd s = (s', Ok (Some (OResponse payload))) ->
    traversal_result N s' (response_result s' payload)
| by_error id nd s e :
    dict_get id N = Some nd ->
    snd (execute_node nd s) = Raise e ->
    is_Exception e = true ->
    traversal_result N s' (error_result s' (exn_str e))
| by_completion :
    traversal_result N s' (completed_result s').

(** Why the traversal itself can raise: a wave names an id that is no
    node (the lookup is outside the [try] block), or a node raised
    something that is not an [Exception]. *)
Inductive traversal_raise {rt : PyRuntime} (N : list (string * node)) (P : string -> Prop)
  : pyexn -> Prop :=
| by_missing_node id :
    P id ->
    dict_get id N = None ->
    traversal_raise N P (Exc "KeyError" (py_repr (VStr id)))
| by_node_raise id nd s e :
    dict_get id N = Some nd ->
    snd (execute_node nd s) = Raise e ->
    traversal_raise N P e.


(** *** The tables of [__init__] *)

(** The outgoing edges of a node, as the adjacency index lists them. *)
Definition edges_from (src : string) (es : list edge) : list (string * option string) :=
  map (fun e => (target e, sourceHandle e))
      (filter (fun e => String.eqb (source e) src) es).

(** *** Nodes, branch by branch *)

(** The value a [variable] node assigns: its configured value after the
    substitution and parsing steps. *)
Definition variable_value {rt : PyRuntime} (c : Ctx) (data : list (string * value)) : value :=
  let substituted :=
    match dict_get_default "value" VNone data with
    | VStr s =>
        if is_exact_ref s
        then match ctx_find (VStr (PyStr.slice_inner s)) c with
             | Some v => v
             | None => VStr s
             end
        else VStr (interpolate c s)
    | v => v
    end in
  match substituted with
  | VStr s =>
      if eq_str (dict_get_default "type" (VStr "string") data) "json"
         || eq_str (dict_get_default "type" (VStr "string") data) "array"
      then match json_loads s with Ok v => v | Raise _ => substituted end
      else substituted
  | _ => substituted
  end.

(** The body of the [try] block up to the assignment: the two numbers
    and the value to store. *)
Definition math_value {rt : PyRuntime} (c : Ctx) (nd : node) : pyres (float * float * value) :=
  pyres_bind (math_operands c nd) (fun ab =>
  pyres_bind (math_apply (math_op nd) (fst ab) (snd ab)) (fun res =>
  pyres_bind (if PyFloat.is_integer (fst ab) && PyFloat.is_integer (snd ab)
              then math_clean res else Ok res) (fun stored =>
  Ok (fst ab, snd ab, stored)))).

(** The [except] branch of a math node, run from [self]. *)
Definition math_fallback {rt : PyRuntime} (nd : node) (self : WorkflowExecutor)
  : WorkflowExecutor * pyres (option outcome) :=
  let val_a := _resolve_val (context self) (dict_get_default "valA" VNone (node_data nd)) in
  let val_b := _resolve_val (context self) (dict_get_default "valB" VNone (node_data nd)) in
  if eq_str (math_op nd) "+" then
    if hashable (math_result_var nd)
    then (append_log ("Math (Str): " ++ py_str val_a ++ " + " ++ py_str val_b ++ " = "
                      ++ py_str val_a ++ py_str val_b)
                     (with_context (ctx_set (math_result_var nd)
                                            (VStr (py_str val_a ++ py_str val_b))
                                            (context self)) self),
          Ok None)
    else (self, Raise (unhashable (math_result_var nd)))
  else (append_log ("Math Error: Could not process " ++ py_str val_a ++ " "
                    ++ py_str (math_op nd) ++ " " ++ py_str val_b) self,
        Ok None).

(** The collection a [data_op] node aggregates, after both lookups. *)
Definition data_op_collection {rt : PyRuntime} (c : Ctx) (data : list (string * value))
  : value :=
  let collection := _resolve_val c (dict_get_default "collection" (VStr "") data) in
  match collection with
  | VStr s =>
      match ctx_find collection c with
      | Some v => v
      | None =>
          if String.eqb s "body"
          then match ctx_find (VStr "body") c with Some v => v | None => VList [] end
          else collection
      end
  | _ => collection
  end.

(** The fields of a [data_op] node. *)
Definition data_op_result_var (nd : node) : value :=
  dict_get_default "resultVar" (VStr "summary") (node_data nd).

Definition data_op_op (nd : node) : value :=
  dict_get_default "op" (VStr "sum") (node_data nd).

(** What a [data_op] node leaves in its result variable. *)
Definition data_op_stored {rt : PyRuntime} (nd : node) (self : WorkflowExecutor)
  : option value :=
  ctx_find (data_op_result_var nd) (context (fst (execute_node nd self))).

(** A method that leaves the Context as it found it. *)
Definition KeepsContext {A} (m : M A) : Prop :=
  forall s, context (fst (m s)) = context s.

(** The node types whose branch of [execute_node] assigns to the Context
    or evaluates an expression over it. *)
Definition writes_context (type : string) : bool :=
  existsb (String.eqb type) ["variable"; "logic"; "math"; "data_op"; "loop"].

(** *** The log of a traversal *)

(** The line the traversal logs before it executes a node. *)
Definition executing_line (nd : node) : string :=
  "Executing Node: " ++ node_type nd ++ " (" ++ node_id nd ++ ")".

(** The line [run] logs when it has found its entry point. *)
Definition started_line {rt : PyRuntime} (start_node : node) : string :=
  "Started execution at "
  ++ py_str (dict_get_default "label" (VStr "API Entry") (node_data start_node)).

(** The log after [n] more waves on the same node. *)
Definition after_waves (n : nat) (nd : node) (self : WorkflowExecutor) : WorkflowExecutor :=
  with_log (execution_log self ++ repeat (executing_line nd) n)%list self.

(** *** The course of a traversal *)

(** The state in which [run] starts its traversal: the executor after
    step 1, with the start line logged and the request in the Context. *)
Definition entry_state {rt : PyRuntime} (input_data : list (string * value))
           (start_node : node) (s1 : WorkflowExecutor) : WorkflowExecutor :=
  fst (seed_context input_data (append_log (started_line start_node) s1)).

(** [reaches s wave k s' wave']: started on the wave [wave] in the state
    [s], the [while] loop runs [k] waves to their end, none of them
    returning or raising, and is then about to run the wave [wave'] in
    the state [s']. *)
Inductive reaches {rt : PyRuntime}
  : WorkflowExecutor -> list string -> nat -> WorkflowExecutor -> list string -> Prop :=
| reaches_here s wave : reaches s wave 0 s wave
| reaches_step s wave s1 next_layer k s' wave' :
    wave <> [] ->
    run_wave wave [] s = (s1, Ok (Continue next_layer)) ->
    reaches s1 (set_to_list next_layer) k s' wave' ->
    reaches s wave (S k) s' wave'.

(** Where a run stands when it is about to execute a node: after step
    1 and [k] complete waves, with the nodes of the current wave before
    this one executed. *)
Definition about_to_execute {rt : PyRuntime} (input_data : list (string * value)) (self : WorkflowExecutor)
           (k : nat) (id : string) (s3 : WorkflowExecutor) : Prop :=
  exists start s1 s2 p rest next_layer,
    find_api (nodes self) = Some start
    /\ init_variables (nodes self) self = (s1, Ok tt)
    /\ reaches (entry_state input_data start s1) [node_id start] k s2 (p ++ id :: rest)
    /\ (k < max_waves)%nat
    /\ run_wave p [] s2 = (s3, Ok (Continue next_layer)).

(* ================================================================== *)
(** ** The HTTP entry point ([main.py]) *)

(** What [handle_request] reads from the request: [json] is the outcome
    of [await request.json()]; [query_params], [path_params] and
    [headers] are the items of the dictionaries [dict(...)] makes of
    them. *)
Record Request : Type := {
  method : string;
  url_path : string;
  query_params : list (string * string);
  path_params : list (string * value);
  json : pyres value;
  headers : list (string * string)
}.

(** What the handler hands to the framework: a value to serialise with
    status 200, or a [JSONResponse] with its status code. *)
Inductive reply : Type :=
| Returned (content : value)
| JSONResponse (status_code : Z) (content : result).

(** The embedded workflow: one [api] node, no edges.  The executor reads
    the [id], [type] and [data] of a node only. *)
Definition WORKFLOW_DATA : workflow_data :=
  {| wf_nodes := [ {| node_id := "api-1768636097809";
                      node_type := "api";
                      node_data := [("label", VStr "New api")] |} ];
     wf_edges := [] |}.

(** [dict(...)] of a mapping of strings. *)
Definition str_dict (items : list (string * string)) : value :=
  VDict (map (fun kv => (fst kv, VStr (snd kv))) items).

(** [input_data]; the bare [except] turns any failure to read the body
    into [None]. *)
Definition input_data_of (request : Request) : list (string * value) :=
  let body := match json request with Ok v => v | Raise _ => VNone end in
  [("method", VStr (method request));
   ("path", VStr (url_path request));
   ("query", str_dict (query_params request));
   ("params", VDict (path_params request));
   ("body", body);
   ("headers", str_dict (headers request))].

(** [handle_request], with the workflow the module embeds as a parameter.
    What [run] raises leaves the handler as it is. *)
Definition handle_request_on {rt : PyRuntime} (workflow : workflow_data) (request : Request)
  : pyres reply :=
  let executor := init workflow in
  match snd (run (input_data_of request) executor) with
  | Ok result =>
      if match res_status result with Some s => String.eqb s "success" | None => false end
      then Ok (Returned (match res_response result with Some v => v | None => VNone end))
      else Ok (JSONResponse 500 result)
  | Raise e => Raise e
  end.

(** [handle_request] *)
Definition handle_request {rt : PyRuntime} (request : Request) : pyres reply :=
  handle_request_on WORKFLOW_DATA request.


(* ================================================================== *)
(** ** Example graphs and nodes *)

Module Examples.

Definition mk (id type : string) (data : list (string * value)) : node :=
  {| node_id := id; node_type := type; node_data := data |}.

Definition arrow (s t : string) (handle : option string) : edge :=
  {| source := s; target := t; sourceHandle := handle |}.

(** The input record the transport builds for a bare [GET /]. *)
Definition minimal_input : list (string * value) :=
  [("method", VStr "GET"); ("path", VStr "/"); ("query", VDict []);
   ("params", VDict []); ("body", VNone); ("headers", VDict [])].

Definition api_node : node := mk "api-1" "api" [("label", VStr "New api")].

(** An edge into nowhere. *)
Definition dangling_graph : workflow_data :=
  {| wf_nodes := [api_node]; wf_edges := [arrow "api-1" "ghost" None] |}.

(** A logic node whose condition is a number. *)
Definition raising_graph : workflow_data :=
  {| wf_nodes := [api_node; mk "check" "logic" [("condition", VInt 1)]];
     wf_edges := [arrow "api-1" "check" None] |}.

(** A variable, then a response that returns it. *)
Definition greeting_graph : workflow_data :=
  {| wf_nodes := [api_node;
                  mk "v" "variable" [("name", VStr "greeting"); ("value", VStr "hello")];
                  mk "out" "response" [("responseType", VStr "variable");
                                       ("body", VStr "greeting")]];
     wf_edges := [arrow "api-1" "out" None] |}.

(** A loop whose body answers at once. *)
Definition numbers_loop : node :=
  mk "each" "loop" [("collection", VStr "xs"); ("variable", VStr "item")].

Definition loop_graph : workflow_data :=
  {| wf_nodes := [api_node;
                  mk "v" "variable" [("name", VStr "xs");
                                     ("value", VList [VInt 1; VInt 2; VInt 3])];
                  numbers_loop;
                  mk "out" "response" [("responseType", VStr "variable");
                                       ("body", VStr "item")]];
     wf_edges := [arrow "api-1" "each" None; arrow "each" "out" (Some "do")] |}.

Definition variables_only : workflow_data :=
  {| wf_nodes := [mk "v1" "variable" [("name", VStr "a"); ("value", VInt 1)];
                  mk "v2" "variable" [("name", VStr "b"); ("value", VStr "{a}")]];
     wf_edges := [] |}.

Definition with_numbers : WorkflowExecutor :=
  with_context [(VStr "xs", VList [VInt 1; VInt 2; VInt 3])] (init loop_graph).



Definition power_node : node :=
  mk "pow" "math" [("valA", VInt 2); ("valB", VInt 5); ("op", VStr "^");
                   ("resultVar", VStr "total")].

Definition number_field : node :=
  mk "schema" "interface"
     [("fields", VList [VDict [("name", VStr "age"); ("required", VBool true);
                               ("type", VStr "number")]])].

Definition with_boolean_age : WorkflowExecutor :=
  with_context [(VStr "body", VDict [("age", VBool true)])] (init dangling_graph).

Definition with_text_age : WorkflowExecutor :=
  with_context [(VStr "body", VDict [("age", VStr "old")])] (init dangling_graph).

(** A variable that refers to another one. *)
Definition copy_data : list (string * value) :=
  [("name", VStr "copy"); ("value", VStr "{xs}")].

(** Seven by nothing, divided and as a remainder; seven by two. *)
Definition divide_node : node :=
  mk "div" "math" [("valA", VInt 7); ("valB", VInt 0); ("op", VStr "/");
                   ("resultVar", VStr "q")].

Definition modulo_node : node :=
  mk "mod" "math" [("valA", VInt 7); ("valB", VInt 0); ("op", VStr "%");
                   ("resultVar", VStr "r")].

Definition half_node : node :=
  mk "half" "math" [("valA", VInt 7); ("valB", VInt 2); ("op", VStr "/");
                    ("resultVar", VStr "q")].

(** Two words to add. *)
Definition words_node : node :=
  mk "join" "math" [("valA", VStr "abc"); ("valB", VStr "def"); ("op", VStr "+");
                    ("resultVar", VStr "word")].

Definition function_node : node := mk "f" "function" [("name", VStr "audit")].

Definition list_response : list (string * value) :=
  [("responseType", VStr "variable"); ("body", VStr "xs")].

Definition braced_response : list (string * value) :=
  [("responseType", VStr "variable"); ("body", VStr "{xs}")].

(** Aggregations over a name that is not bound, and over [xs]. *)
Definition count_nothing : node :=
  mk "agg" "data_op" [("collection", VStr "nothing"); ("op", VStr "count");
                      ("resultVar", VStr "n")].

Definition count_numbers : node :=
  mk "agg" "data_op" [("collection", VStr "xs"); ("op", VStr "count");
                      ("resultVar", VStr "n")].

Definition age_field : list (string * value) :=
  [("name", VStr "age"); ("required", VBool true); ("type", VStr "number")].

Definition with_name_only : WorkflowExecutor :=
  with_context [(VStr "body", VDict [("name", VStr "Ada")])] (init dangling_graph).

Definition loop_over_nothing : node :=
  mk "each" "loop" [("collection", VStr "nothing"); ("variable", VStr "item")].

(** An entry point that leads back to itself. *)
Definition cycle_graph : workflow_data :=
  {| wf_nodes := [api_node]; wf_edges := [arrow "api-1" "api-1" None] |}.

(** A request body with a list in it, and an aggregation over that path. *)
Definition with_items : WorkflowExecutor :=
  with_context [(VStr "body", VDict [("items", VList [VInt 1; VInt 2])])]
               (init dangling_graph).

Definition sum_items : node :=
  mk "agg" "data_op" [("collection", VStr "body.items"); ("op", VStr "sum");
                      ("resultVar", VStr "n")].



(** Two whole numbers whose sum is too large for a float. *)
Definition huge_node : node :=
  mk "sum" "math" [("valA", VInt (2 ^ 1023)); ("valB", VInt (2 ^ 1023)); ("op", VStr "+");
                   ("resultVar", VStr "total")].

End Examples.

(* ================================================================== *)
(** * Properties *)

(** ** Keys and the Context *)

Lemma key_eqb_refl (k : value) : hashable k = true -> key_eqb k k = true.
Proof.
  destruct k as [ | b | z | f | s | xs | d ]; simpl; try discriminate; intros _.
  - reflexivity.
  - apply Bool.eqb_reflx.
  - apply Z.eqb_refl.
  - unfold PrimFloat.is_nan. destruct (PrimFloat.eqb f f); reflexivity.
  - apply String.eqb_refl.
Qed.

Lemma key_eqb_str_r (k : value) (s : string) :
  key_eqb k (VStr s) = true -> k = VStr s.
Proof.
  destruct k; simpl; try discriminate.
  intros H. apply String.eqb_eq in H. now subst.
Qed.


Lemma key_eqb_str_sym (k : value) (s : string) :
  key_eqb (VStr s) k = key_eqb k (VStr s).
Proof.
  destruct k; simpl; try reflexivity. apply String.eqb_sym.
Qed.

Lemma ctx_find_set_same (k v : value) (c : Ctx) :
  hashable k = true -> ctx_find k (ctx_set k v c) = Some v.
Proof.
  intros Hk. induction c as [ | [k' v'] c IH ]; cbn [ctx_find ctx_set].
  - now rewrite key_eqb_refl.
  - destruct (key_eqb k' k) eqn:E; cbn [ctx_find ctx_set]; rewrite E; auto.
Qed.

(** Writing under a string key leaves every other key alone. *)
Lemma ctx_find_set_str (k : value) (s : string) (v : value) (c : Ctx) :
  key_eqb k (VStr s) = false ->
  ctx_find k (ctx_set (VStr s) v c) = ctx_find k c.
Proof.
  intros Hk. induction c as [ | [k' v'] c IH ]; cbn [ctx_find ctx_set].
  - now rewrite key_eqb_str_sym, Hk.
  - destruct (key_eqb k' (VStr s)) eqn:E; cbn [ctx_find ctx_set].
    + apply key_eqb_str_r in E. subst k'.
      now rewrite key_eqb_str_sym, Hk.
    + destruct (key_eqb k' k); auto.
Qed.


(** A key, once bound, stays bound. *)
Lemma ctx_mem_set (k k2 v : value) (c : Ctx) :
  ctx_mem k c = true -> ctx_mem k (ctx_set k2 v c) = true.
Proof.
  unfold ctx_mem. induction c as [ | [k' v'] c IH ]; cbn [ctx_find ctx_set]; [discriminate | ].
  destruct (key_eqb k' k2) eqn:E2; cbn [ctx_find ctx_set]; destruct (key_eqb k' k); auto.
Qed.

Lemma ctx_mem_set_same (k v : value) (c : Ctx) :
  hashable k = true -> ctx_mem k (ctx_set k v c) = true.
Proof.
  intros Hk. unfold ctx_mem. now rewrite ctx_find_set_same.
Qed.

Lemma dict_get_set_same {A} (k : string) (v : A) (d : list (string * A)) :
  dict_get k (dict_set k v d) = Some v.
Proof.
  induction d as [ | [k' v'] d IH ]; simpl.
  - now rewrite String.eqb_refl.
  - destruct (String.eqb k' k) eqn:E; simpl; rewrite E; auto.
Qed.

(** ** What the methods leave alone

    No method touches the graph ([nodes], [edges], [adjacency]), and the
    log only grows. *)

Lemma stable_refl (s : WorkflowExecutor) : stable s s.
Proof.
  repeat split. exists []. now rewrite app_nil_r.
Qed.

Lemma stable_trans (s1 s2 s3 : WorkflowExecutor) :
  stable s1 s2 -> stable s2 s3 -> stable s1 s3.
Proof.
  intros [(N1 & E1 & A1) [l1 L1]] [(N2 & E2 & A2) [l2 L2]].
  repeat split; try congruence.
  exists (l1 ++ l2)%list. now rewrite L2, L1, app_assoc.
Qed.

Lemma stable_with_context (c : Ctx) (s : WorkflowExecutor) : stable s (with_context c s).
Proof.
  repeat split. exists []. simpl. now rewrite app_nil_r.
Qed.

Lemma stable_with_log (l : list string) (s : WorkflowExecutor) :
  stable s (with_log (execution_log s ++ l)%list s).
Proof.
  repeat split. now exists l.
Qed.

Section Frame.
Context {rt : PyRuntime}.

Lemma Stable_ret {A} (a : A) : Stable (ret a).
Proof. intros s. apply stable_refl. Qed.

Lemma Stable_lift {A} (r : pyres A) : Stable (lift r).
Proof. intros s. apply stable_refl. Qed.

Lemma Stable_raise {A} (e : pyexn) : Stable (@raise A e).
Proof. intros s. apply stable_refl. Qed.

Lemma Stable_get_context : Stable get_context.
Proof. intros s. apply stable_refl. Qed.

Lemma Stable_get_self : Stable get_self.
Proof. intros s. apply stable_refl. Qed.

Lemma Stable_log (line : string) : Stable (log line).
Proof. intros s. apply stable_with_log. Qed.

Lemma Stable_context_setitem (k v : value) : Stable (context_setitem k v).
Proof.
  intros s. unfold context_setitem.
  destruct (hashable k); [apply stable_with_context | apply stable_refl].
Qed.

Lemma Stable_bind {A B} (m : M A) (k : A -> M B) :
  Stable m -> (forall a, Stable (k a)) -> Stable (bind m k).
Proof.
  intros Hm Hk s. unfold bind. specialize (Hm s).
  destruct (m s) as [s' [a | e]]; simpl in *; auto.
  eapply stable_trans; [exact Hm | apply Hk].
Qed.

Lemma Stable_try_except {A} (body : M A) (handler : pyexn -> M A) :
  Stable body -> (forall e, Stable (handler e)) -> Stable (try_except body handler).
Proof.
  intros Hb Hh s. unfold try_except. specialize (Hb s).
  destruct (body s) as [s' [a | [cls msg | cls msg]]]; simpl in *; auto.
  eapply stable_trans; [exact Hb | apply Hh].
Qed.

Lemma Stable_eval_condition (condition : string) : Stable (eval_condition condition).
Proof.
  intros s. unfold eval_condition.
  destruct (py_eval condition (context s)) as [c r]. apply stable_with_context.
Qed.

Lemma Stable_store_index rebound id ls st i : Stable (store_index rebound id ls st i).
Proof.
  unfold store_index. destruct rebound; [apply Stable_ret | ].
  intros s. apply stable_with_context.
Qed.

Create HintDb stable.

#[local] Hint Resolve Stable_ret Stable_lift Stable_raise Stable_get_context
  Stable_get_self Stable_log Stable_context_setitem Stable_eval_condition
  Stable_store_index : stable.

(** Peels binds and case distinctions off a method body. *)
Ltac stable_step :=
  match goal with
  | |- Stable (bind _ _) => apply Stable_bind; [ | intros ? ]
  | |- Stable (try_except _ _) => apply Stable_try_except; [ | intros ? ]
  | |- Stable (if ?b then _ else _) => destruct b
  | |- Stable (match ?x with _ => _ end) => destruct x
  | |- Stable (let (_, _) := ?x in _) => destruct x
  | |- Stable _ => solve [ auto with stable ]
  end.

Ltac stable_auto := repeat stable_step.

Lemma Stable_execute_variable data : Stable (execute_variable data).
Proof. unfold execute_variable. stable_auto. Qed.

Lemma Stable_execute_logic data : Stable (execute_logic data).
Proof. unfold execute_logic. stable_auto. Qed.

Lemma Stable_execute_math data : Stable (execute_math data).
Proof. unfold execute_math. stable_auto. Qed.

Lemma Stable_execute_data_op data : Stable (execute_data_op data).
Proof. unfold execute_data_op. stable_auto. Qed.

Lemma Stable_execute_interface data : Stable (execute_interface data).
Proof. unfold execute_interface. stable_auto. Qed.

Lemma Stable_execute_loop nd : Stable (execute_loop nd).
Proof. unfold execute_loop. stable_auto. Qed.

Lemma Stable_execute_function data : Stable (execute_function data).
Proof. unfold execute_function. stable_auto. Qed.

Lemma Stable_execute_response data : Stable (execute_response data).
Proof. unfold execute_response. stable_auto. Qed.

Lemma Stable_execute_node nd : Stable (execute_node nd).
Proof.
  unfold execute_node.
  repeat match goal with |- Stable (if ?b then _ else _) => destruct b end;
    auto using Stable_ret, Stable_execute_variable, Stable_execute_logic,
      Stable_execute_math, Stable_execute_data_op, Stable_execute_interface,
      Stable_execute_loop, Stable_execute_function, Stable_execute_response.
Qed.

End Frame.

Section RunFrame.
Context {rt : PyRuntime}.

Lemma Stable_guarded_execute id nd : Stable (guarded_execute id nd).
Proof.
  unfold guarded_execute.
  apply Stable_try_except.
  - apply Stable_bind; [apply Stable_execute_node | ].
    intros [[b | r | d] | ]; try apply Stable_ret.
    apply Stable_bind; [apply Stable_get_self | intros; apply Stable_ret].
  - intros e. apply Stable_bind; [apply Stable_log | intros _ ].
    apply Stable_bind; [apply Stable_get_self | intros; apply Stable_ret].
Qed.

Lemma Stable_run_wave current_nodes : forall next_layer, Stable (run_wave current_nodes next_layer).
Proof.
  induction current_nodes as [ | id rest IH ]; intros next_layer; simpl.
  - apply Stable_ret.
  - apply Stable_bind; [apply Stable_get_self | intros self ].
    destruct (dict_get id (nodes self)) as [nd | ]; [ | apply Stable_raise].
    apply Stable_bind; [apply Stable_log | intros _ ].
    apply Stable_bind; [apply Stable_guarded_execute | intros [res | r] ].
    + apply IH.
    + apply Stable_ret.
Qed.

Lemma Stable_while_loop remaining : forall current_nodes, Stable (while_loop remaining current_nodes).
Proof.
  induction remaining as [ | remaining IH ]; intros current_nodes; simpl.
  - apply Stable_bind; [apply Stable_get_self | intros; apply Stable_ret].
  - destruct current_nodes as [ | id rest ].
    + apply Stable_bind; [apply Stable_get_self | intros; apply Stable_ret].
    + apply Stable_bind; [apply Stable_run_wave | intros [next_layer | r] ].
      * apply Stable_bind; [apply IH | intros; apply Stable_ret].
      * apply Stable_ret.
Qed.

Lemma Stable_init_variables ns : Stable (init_variables ns).
Proof.
  induction ns as [ | [id nd] ns IH ]; simpl.
  - apply Stable_ret.
  - apply Stable_bind; [ | intros _; exact IH ].
    destruct (String.eqb (node_type nd) "variable"); [ | apply Stable_ret ].
    apply Stable_bind; [apply Stable_execute_node | intros; apply Stable_ret].
Qed.

Lemma Stable_seed_context input_data : Stable (seed_context input_data).
Proof.
  unfold seed_context.
  repeat (apply Stable_bind; [ | intros _ ]);
    repeat match goal with |- Stable (if ?b then _ else _) => destruct b end;
    auto using Stable_context_setitem, Stable_ret.
Qed.

Lemma Stable_run_counted input_data : Stable (run_counted input_data).
Proof.
  unfold run_counted.
  apply Stable_bind; [apply Stable_get_self | intros self ].
  apply Stable_bind; [apply Stable_init_variables | intros _ ].
  destruct (find_api (nodes self)) as [start_node | ]; [ | apply Stable_ret ].
  apply Stable_bind; [apply Stable_log | intros _ ].
  apply Stable_bind; [apply Stable_seed_context | intros _ ].
  apply Stable_while_loop.
Qed.

Lemma Stable_run input_data : Stable (run input_data).
Proof.
  unfold run. apply Stable_bind; [apply Stable_run_counted | intros; apply Stable_ret].
Qed.

End RunFrame.

(** ** The Value Resolver *)

Lemma substring_all (s t : string) :
  substring 0 (String.length s) (s ++ t) = s.
Proof.
  induction s as [ | a s IH ]; simpl.
  - now destruct t.
  - now rewrite IH.
Qed.

Lemma last_char (c : ascii) (s : string) :
  s <> "" ->
  String.eqb (substring (String.length s - 1) 1 s) (String c "") = true ->
  exists t, s = t ++ String c "".
Proof.
  induction s as [ | a s IH ]; [congruence | intros _ H ].
  destruct s as [ | b s ].
  - cbn [String.length Nat.sub substring] in H.
    apply String.eqb_eq in H. injection H as ->. now exists "".
  - cbn [String.length Nat.sub substring] in H.
    destruct IH as [t Ht].
    + discriminate.
    + cbn [String.length Nat.sub]. now rewrite Nat.sub_0_r.
    + exists (String a t). simpl. now rewrite <- Ht.
Qed.

Lemma endswith_char (c : ascii) (s : string) :
  PyStr.endswith (String c "") s = true -> exists t, s = t ++ String c "".
Proof.
  unfold PyStr.endswith. intros H. apply andb_prop in H. destruct H as [Hl H].
  apply last_char; [ | exact H ].
  intros ->. discriminate.
Qed.

Lemma startswith_char (c : ascii) (s : string) :
  PyStr.startswith (String c "") s = true -> exists t, s = String c t.
Proof.
  unfold PyStr.startswith. destruct s as [ | a s ]; simpl; [discriminate | ].
  destruct (ascii_dec c a) as [-> | ]; [ | discriminate ].
  intros _. now exists s.
Qed.

Lemma length_app (s t : string) :
  String.length (s ++ t) = (String.length s + String.length t)%nat.
Proof.
  induction s as [ | a s IH ]; simpl; [reflexivity | now rewrite IH].
Qed.

Lemma slice_inner_braces (key : string) :
  PyStr.slice_inner ("{" ++ key ++ "}") = key.
Proof.
  unfold PyStr.slice_inner.
  replace (String.length ("{" ++ key ++ "}") - 2)%nat with (String.length key).
  - simpl. apply substring_all.
  - simpl. rewrite length_app. simpl. lia.
Qed.

Lemma count_char_app (c : ascii) (s t : string) :
  PyStr.count_char c (s ++ t) = (PyStr.count_char c s + PyStr.count_char c t)%nat.
Proof.
  induction s as [ | a s IH ]; simpl; [reflexivity | ]. rewrite IH. lia.
Qed.

(** The three tests of [_resolve_val] single out the templates [{key}]
    whose key holds no opening brace. *)
Lemma is_exact_ref_inv (s : string) :
  is_exact_ref s = true ->
  exists key, s = "{" ++ key ++ "}" /\ PyStr.count_char "{" key = 0%nat.
Proof.
  unfold is_exact_ref. intros H.
  apply andb_prop in H. destruct H as [H Hc].
  apply andb_prop in H. destruct H as [Hs He].
  apply Nat.eqb_eq in Hc.
  apply startswith_char in Hs. destruct Hs as [t ->].
  apply endswith_char in He. destruct He as [u Hu].
  destruct u as [ | a u ]; simpl in Hu.
  - discriminate Hu.
  - injection Hu as <- ->. exists u. split; [reflexivity | ].
    simpl in Hc. rewrite count_char_app in Hc. simpl in Hc. lia.
Qed.

(** C6. A template that is exactly one reference (it begins with an
    opening brace, ends with a closing brace and holds no other opening
    brace) is looked up by its exact key, the text between the braces:
    when the key is bound, the stored value itself is returned, whatever
    its type; when it is not, the template comes back unchanged. *)
Theorem resolve_exact_reference {rt : PyRuntime} (c : Ctx) (s : string) :
  PyStr.startswith "{" s = true ->
  PyStr.endswith "}" s = true ->
  PyStr.count_char "{" s = 1%nat ->
  exists key,
    s = "{" ++ key ++ "}" /\
    PyStr.count_char "{" key = 0%nat /\
    _resolve_val c (VStr s) =
      match ctx_find (VStr key) c with
      | Some stored => stored
      | None => VStr s
      end.
Proof.
  intros Hs He Hc.
  assert (Href : is_exact_ref s = true).
  { unfold is_exact_ref. now rewrite Hs, He, Hc. }
  destruct (is_exact_ref_inv s Href) as [key [-> Hk]].
  exists key. repeat split; [exact Hk | ].
  unfold _resolve_val. rewrite Href. now rewrite slice_inner_braces.
Qed.

(** ** Dispatch *)

Section Dispatch.
Context {rt : PyRuntime}.

Lemma execute_node_logic (nd : node) :
  node_type nd = "logic" -> execute_node nd = execute_logic (node_data nd).
Proof. intros H. unfold execute_node. now rewrite H. Qed.

Lemma execute_node_math (nd : node) :
  node_type nd = "math" -> execute_node nd = execute_math (node_data nd).
Proof. intros H. unfold execute_node. now rewrite H. Qed.

Lemma execute_node_loop (nd : node) :
  node_type nd = "loop" -> execute_node nd = execute_loop nd.
Proof. intros H. unfold execute_node. now rewrite H. Qed.

Lemma execute_node_variable (nd : node) :
  node_type nd = "variable" -> execute_node nd = execute_variable (node_data nd).
Proof. intros H. unfold execute_node. now rewrite H. Qed.

Lemma execute_node_interface (nd : node) :
  node_type nd = "interface" -> execute_node nd = execute_interface (node_data nd).
Proof. intros H. unfold execute_node. now rewrite H. Qed.

End Dispatch.

(** ** Logic nodes *)

Section Logic.
Context {rt : PyRuntime}.

(** What a [logic] node does with the outcome of the evaluation. *)
Lemma execute_logic_eval (data : list (string * value)) (raw : string)
      (self : WorkflowExecutor) :
  dict_get_default "condition" (VStr "False") data = VStr raw ->
  execute_logic data self =
    match py_eval (normalize raw) (context self) with
    | (c', Ok result) =>
        (append_log ("Logic: '" ++ raw ++ "' -> " ++ py_str (VBool result))
                     (with_context c' self),
         Ok (Some (OLogic result)))
    | (c', Raise (Exc cls msg)) =>
        (append_log ("Logic Error: " ++ msg) (with_context c' self),
         Ok (Some (OLogic false)))
    | (c', Raise (BaseExc cls msg)) => (with_context c' self, Raise (BaseExc cls msg))
    end.
Proof.
  intros Hc. unfold execute_logic. rewrite Hc.
  unfold try_except, bind, eval_condition.
  destruct (py_eval (normalize raw) (context self)) as [c' [result | [cls msg | cls msg]]];
    reflexivity.
Qed.

(** C7. Whatever [Exception] the evaluation of a logic node's condition
    raises (bad syntax, unknown name, type error), the node catches it:
    the outcome is logic(false), one entry is added to the log, and
    nothing is raised to [run].  With the condition [1 === 1], normalised
    to [1 == 1], the outcome is logic(true); with [x > 10] and no [x] in
    the Context, the interpreter's [NameError] gives logic(false). *)
Theorem logic_errors_are_caught (nd : node) (self : WorkflowExecutor) :
  node_type nd = "logic" ->
  (forall raw c' e,
      dict_get_default "condition" (VStr "False") (node_data nd) = VStr raw ->
      py_eval (normalize raw) (context self) = (c', Raise e) ->
      is_Exception e = true ->
      execute_node nd self =
        (append_log ("Logic Error: " ++ exn_str e) (with_context c' self),
         Ok (Some (OLogic false))))
  /\ (dict_get_default "condition" (VStr "False") (node_data nd) = VStr "1 === 1" ->
      (forall c, exists c', py_eval "1 == 1" c = (c', Ok true)) ->
      snd (execute_node nd self) = Ok (Some (OLogic true)))
  /\ (dict_get_default "condition" (VStr "False") (node_data nd) = VStr "x > 10" ->
      ctx_find (VStr "x") (context self) = None ->
      (forall c, ctx_find (VStr "x") c = None ->
                 exists c' msg, py_eval "x > 10" c = (c', Raise (Exc "NameError" msg))) ->
      snd (execute_node nd self) = Ok (Some (OLogic false))).
Proof.
  intros Ht. rewrite (execute_node_logic nd Ht). repeat split.
  - intros raw c' e Hc He Hexc.
    rewrite (execute_logic_eval _ raw self Hc), He.
    destruct e as [cls msg | cls msg]; [reflexivity | discriminate].
  - intros Hc Heval.
    rewrite (execute_logic_eval _ _ self Hc).
    change (normalize "1 === 1") with "1 == 1".
    destruct (Heval (context self)) as [c' ->]. reflexivity.
  - intros Hc Hx Heval.
    rewrite (execute_logic_eval _ _ self Hc).
    change (normalize "x > 10") with "x > 10".
    destruct (Heval (context self) Hx) as [c' [msg ->]]. reflexivity.
Qed.

End Logic.

(** ** Math nodes *)



Section Math.
Context {rt : PyRuntime}.

(** The successful path of the [try] block. *)
Lemma execute_math_ok (nd : node) (self : WorkflowExecutor)
      (num_a num_b : float) (res stored : value) :
  math_operands (context self) nd = Ok (num_a, num_b) ->
  math_apply (math_op nd) num_a num_b = Ok res ->
  (if PyFloat.is_integer num_a && PyFloat.is_integer num_b
   then math_clean res else Ok res) = Ok stored ->
  hashable (math_result_var nd) = true ->
  execute_math (node_data nd) self =
    (append_log ("Math: " ++ py_str (VFloat num_a) ++ " " ++ py_str (math_op nd) ++ " "
                 ++ py_str (VFloat num_b) ++ " = " ++ py_str stored)
                (with_context (ctx_set (math_result_var nd) stored (context self)) self),
     Ok None).
Proof.
  unfold math_operands, math_op, math_result_var, execute_math.
  intros Hab Hres Hclean Hh.
  unfold bind at 1. unfold get_context at 1. cbv beta iota.
  destruct (to_float (_resolve_val (context self) (dict_get_default "valA" VNone (node_data nd))))
    as [a | ] eqn:Ha; [ | discriminate ].
  destruct (to_float (_resolve_val (context self) (dict_get_default "valB" VNone (node_data nd))))
    as [b | ] eqn:Hb; [ | discriminate ].
  simpl in Hab. injection Hab as -> ->.
  unfold try_except, bind, lift, ret. rewrite Hres.
  destruct (PyFloat.is_integer num_a && PyFloat.is_integer num_b).
  - unfold lift. rewrite Hclean. unfold context_setitem, log. now rewrite Hh.
  - injection Hclean as ->. unfold context_setitem, log. now rewrite Hh.
Qed.

(** C10. A math node whose operands both coerce to numbers and whose
    operator is none of [+ - * / %] stores the integer 0 under its
    [resultVar]: nothing is raised, and the only log entry is the
    ordinary [Math:] line. *)
Theorem math_unknown_operator (nd : node) (self : WorkflowExecutor) (num_a num_b : float) :
  node_type nd = "math" ->
  math_operands (context self) nd = Ok (num_a, num_b) ->
  known_op (math_op nd) = false ->
  hashable (math_result_var nd) = true ->
  execute_node nd self =
    (append_log ("Math: " ++ py_str (VFloat num_a) ++ " " ++ py_str (math_op nd) ++ " "
                 ++ py_str (VFloat num_b) ++ " = 0")
                (with_context (ctx_set (math_result_var nd) (VInt 0) (context self)) self),
     Ok None)
  /\ math_stored nd self = Some (VInt 0).
Proof.
  intros Ht Hab Hop Hh.
  assert (Hres : math_apply (math_op nd) num_a num_b = Ok (VInt 0)).
  { unfold known_op in Hop. unfold math_apply.
    destruct (eq_str (math_op nd) "+"); [discriminate | ].
    destruct (eq_str (math_op nd) "-"); [discriminate | ].
    destruct (eq_str (math_op nd) "*"); [discriminate | ].
    destruct (eq_str (math_op nd) "/"); [discriminate | ].
    destruct (eq_str (math_op nd) "%"); [discriminate | reflexivity ]. }
  assert (Hclean : (if PyFloat.is_integer num_a && PyFloat.is_integer num_b
                    then math_clean (VInt 0) else Ok (VInt 0)) = Ok (VInt 0)).
  { now destruct (PyFloat.is_integer num_a && PyFloat.is_integer num_b). }
  assert (Hrun := execute_math_ok nd self num_a num_b _ _ Hab Hres Hclean Hh).
  unfold math_stored. rewrite (execute_node_math nd Ht), Hrun. split.
  - reflexivity.
  - simpl. now apply ctx_find_set_same.
Qed.


End Math.

(** ** Loop nodes *)

Section Loop.
Context {rt : PyRuntime}.

Lemma list_index_nth (items : list value) (k : nat) (item : value) :
  nth_error items k = Some item ->
  lt_int (VInt (Z.of_nat k)) (Z.of_nat (List.length items)) = Ok true
  /\ getitem (VList items) (VInt (Z.of_nat k)) = Ok item.
Proof.
  intros Hn.
  assert (Hk : (k < List.length items)%nat).
  { apply nth_error_Some. congruence. }
  split.
  - simpl. f_equal. apply Z.ltb_lt. lia.
  - simpl. unfold list_index.
    replace (Z.of_nat k <? 0) with false by (symmetry; apply Z.ltb_ge; lia).
    replace (0 <=? Z.of_nat k) with true by (symmetry; apply Z.leb_le; lia).
    replace (Z.of_nat k <? Z.of_nat (List.length items)) with true
      by (symmetry; apply Z.ltb_lt; lia).
    simpl. now rewrite Nat2Z.id, Hn.
Qed.

(** One iteration within bounds: the outcome and the Context it leaves. *)
Lemma execute_loop_do (nd : node) (self : WorkflowExecutor)
      (items : list value) (k : nat) (item : value) :
  names_variable (loop_variable nd) ->
  loop_collection (context self) (loop_source nd) = VList items ->
  at_index (context self) (node_id nd) k ->
  nth_error items k = Some item ->
  exists self' c ls st,
    execute_loop nd self = (self', Ok (Some (OLoop "do")))
    /\ context self' =
         ctx_set (VStr "_loop_states")
                 (VDict (dict_set (node_id nd)
                                  (VDict (dict_set "index" (VInt (Z.of_nat (S k))) st)) ls))
                 (ctx_set (loop_variable nd) item c).
Proof.
  intros (Hv1 & Hv2 & Hv3) Hcoll Hat Hn.
  destruct (list_index_nth items k item Hn) as [Hlt Hget].
  assert (Hk : Z.of_nat k + 1 = Z.of_nat (S k)) by lia.
  unfold at_index in Hat.
  unfold execute_loop. fold (loop_source nd). fold (loop_variable nd).
  unfold bind, get_context, ret, lift, log, raise, context_setitem, store_index.
  cbv beta iota. rewrite Hcoll.
  destruct (ctx_find (VStr "_loop_states") (context self)) as [[ | | | | | | ls] | ] eqn:Hls;
    try contradiction.
  - unfold dict_get_default.
    destruct (dict_get (node_id nd) ls) as [[ | | | | | | st] | ] eqn:Hst; try contradiction.
    + unfold read_index. rewrite Hat. cbv beta iota.
      rewrite Hlt, Hget, Hv1, Hv2. cbn [succ_index andb]. rewrite Hv3, Hk.
      do 4 eexists. split; reflexivity.
    + subst k. unfold read_index. cbn [dict_get String.eqb Ascii.eqb Bool.eqb].
      change (Z.of_nat 0) with 0 in Hlt, Hget.
      rewrite Hlt, Hget, Hv1, Hv2. cbn [succ_index andb]. rewrite Hv3.
      do 4 eexists. split; reflexivity.
  - subst k. unfold read_index.
    cbn [hashable is_list is_dict orb negb dict_get_default dict_get
         String.eqb Ascii.eqb Bool.eqb].
    change (Z.of_nat 0) with 0 in Hlt, Hget.
    rewrite Hlt, Hget, Hv1. cbn [context with_context]. rewrite Hv2.
    cbn [succ_index andb]. rewrite Hv3.
    do 4 eexists. split; reflexivity.
Qed.

Lemma loop_step_do (nd : node) (self : WorkflowExecutor)
      (items : list value) (k : nat) (item : value) :
  node_type nd = "loop" ->
  names_variable (loop_variable nd) ->
  loop_collection (context self) (loop_source nd) = VList items ->
  at_index (context self) (node_id nd) k ->
  nth_error items k = Some item ->
  snd (execute_node nd self) = Ok (Some (OLoop "do"))
  /\ ctx_find (loop_variable nd) (context (fst (execute_node nd self))) = Some item
  /\ at_index (context (fst (execute_node nd self))) (node_id nd) (S k).
Proof.
  intros Ht Hv Hcoll Hat Hn.
  destruct (execute_loop_do nd self items k item Hv Hcoll Hat Hn)
    as (self' & c & ls & st & Hrun & Hctx).
  destruct Hv as (Hv1 & Hv2 & Hv3).
  rewrite (execute_node_loop nd Ht), Hrun. cbn [fst snd]. rewrite Hctx.
  repeat split.
  - rewrite ctx_find_set_str by exact Hv3. now apply ctx_find_set_same.
  - unfold at_index. rewrite ctx_find_set_same by reflexivity.
    now rewrite !dict_get_set_same.
Qed.

(** The execution past the end of the collection. *)
Lemma loop_step_done (nd : node) (self : WorkflowExecutor)
      (items : list value) (k : nat) :
  node_type nd = "loop" ->
  loop_collection (context self) (loop_source nd) = VList items ->
  at_index (context self) (node_id nd) k ->
  (List.length items <= k)%nat ->
  snd (execute_node nd self) = Ok (Some (OLoop "done"))
  /\ loop_index (context (fst (execute_node nd self))) (node_id nd) = Some (VInt 0).
Proof.
  intros Ht Hcoll Hat Hk.
  assert (Hlt : lt_int (VInt (Z.of_nat k)) (Z.of_nat (List.length items)) = Ok false).
  { simpl. f_equal. apply Z.ltb_ge. lia. }
  assert (exists self' c ls st,
             execute_loop nd self = (self', Ok (Some (OLoop "done")))
             /\ context self' =
                  ctx_set (VStr "_loop_states")
                          (VDict (dict_set (node_id nd)
                                           (VDict (dict_set "index" (VInt 0) st)) ls)) c)
    as (self' & c & ls & st & Hrun & Hctx).
  { unfold at_index in Hat.
    unfold execute_loop. fold (loop_source nd). fold (loop_variable nd).
    unfold bind, get_context, ret, lift, log, raise, context_setitem, store_index.
    cbv beta iota. rewrite Hcoll.
    destruct (ctx_find (VStr "_loop_states") (context self)) as [[ | | | | | | ls] | ] eqn:Hls;
      try contradiction.
    - unfold dict_get_default.
      destruct (dict_get (node_id nd) ls) as [[ | | | | | | st] | ] eqn:Hst; try contradiction.
      + unfold read_index. rewrite Hat. cbv beta iota. rewrite Hlt.
        do 4 eexists. split; reflexivity.
      + subst k. unfold read_index. cbn [dict_get String.eqb Ascii.eqb Bool.eqb].
        change (Z.of_nat 0) with 0 in Hlt. rewrite Hlt.
        do 4 eexists. split; reflexivity.
    - subst k. unfold read_index.
      cbn [hashable is_list is_dict orb negb dict_get_default dict_get
           String.eqb Ascii.eqb Bool.eqb].
      change (Z.of_nat 0) with 0 in Hlt. rewrite Hlt.
      do 4 eexists. split; reflexivity. }
  rewrite (execute_node_loop nd Ht), Hrun. cbn [fst snd]. rewrite Hctx.
  split; [reflexivity | ].
  unfold loop_index. rewrite ctx_find_set_same by reflexivity.
  now rewrite !dict_get_set_same.
Qed.

(** C4. A loop node whose collection resolves to [1, 2, 3] at each of
    its executions, started with no iteration state of its own (or with
    index 0), yields loop("do") three times in a row, binding its
    variable to 1, then 2, then 3, and then loop("done"); after that its
    index in the reserved sub-mapping is 0 again. *)
Theorem loop_over_three_items (nd : node) (self : WorkflowExecutor) :
  node_type nd = "loop" ->
  names_variable (loop_variable nd) ->
  at_index (context self) (node_id nd) 0 ->
  (forall k, (k < 4)%nat ->
     loop_collection (context (execute_times k nd self)) (loop_source nd)
     = VList [VInt 1; VInt 2; VInt 3]) ->
  snd (execute_node nd self) = Ok (Some (OLoop "do"))
  /\ ctx_find (loop_variable nd) (context (execute_times 1 nd self)) = Some (VInt 1)
  /\ snd (execute_node nd (execute_times 1 nd self)) = Ok (Some (OLoop "do"))
  /\ ctx_find (loop_variable nd) (context (execute_times 2 nd self)) = Some (VInt 2)
  /\ snd (execute_node nd (execute_times 2 nd self)) = Ok (Some (OLoop "do"))
  /\ ctx_find (loop_variable nd) (context (execute_times 3 nd self)) = Some (VInt 3)
  /\ snd (execute_node nd (execute_times 3 nd self)) = Ok (Some (OLoop "done"))
  /\ loop_index (context (execute_times 4 nd self)) (node_id nd) = Some (VInt 0).
Proof.
  intros Ht Hv H0 Hcoll.
  destruct (loop_step_do nd (execute_times 0 nd self) _ 0 (VInt 1) Ht Hv
              (Hcoll 0%nat ltac:(lia)) H0 eq_refl) as (O1 & B1 & H1).
  destruct (loop_step_do nd (execute_times 1 nd self) _ 1 (VInt 2) Ht Hv
              (Hcoll 1%nat ltac:(lia)) H1 eq_refl) as (O2 & B2 & H2).
  destruct (loop_step_do nd (execute_times 2 nd self) _ 2 (VInt 3) Ht Hv
              (Hcoll 2%nat ltac:(lia)) H2 eq_refl) as (O3 & B3 & H3).
  destruct (loop_step_done nd (execute_times 3 nd self) _ 3 Ht
              (Hcoll 3%nat ltac:(lia)) H3 ltac:(simpl; lia)) as (O4 & I4).
  repeat split; assumption.
Qed.

End Loop.

(** ** Graphs without an entry point *)

Lemma log_extends_In (s s' : WorkflowExecutor) (line : string) :
  log_extends s s' -> In line (execution_log s) -> In line (execution_log s').
Proof.
  intros [suffix ->] H. apply in_or_app. now left.
Qed.

Section NoEntry.
Context {rt : PyRuntime}.

(** A [variable] node that returns has bound its name and logged it. *)
Lemma execute_variable_binds (nd : node) (s s1 : WorkflowExecutor) (r : option outcome) :
  execute_variable (node_data nd) s = (s1, Ok r) ->
  keys_kept s s1
  /\ (truthy (variable_name nd) = true ->
      ctx_mem (variable_name nd) (context s1) = true
      /\ exists tail,
           In ("Set Variable '" ++ py_str (variable_name nd) ++ "' = " ++ tail)
              (execution_log s1)).
Proof.
  unfold execute_variable. fold (variable_name nd).
  destruct (truthy (variable_name nd)) eqn:Hn.
  - unfold bind, get_context, context_setitem, log, ret. cbv beta iota.
    destruct (hashable (variable_name nd)) eqn:Hh; [ | discriminate ].
    intros H. injection H as <- _. split.
    + intros k Hk. simpl. now apply ctx_mem_set.
    + intros _. split.
      * simpl. now apply ctx_mem_set_same.
      * eexists. simpl. apply in_or_app. right. left. reflexivity.
  - unfold ret. intros H. injection H as <- _. split.
    + intros k Hk. exact Hk.
    + discriminate.
Qed.

(** Step 1 of [run] binds the name of every named [variable] node. *)
Lemma init_variables_binds (ns : list (string * node)) :
  forall s s',
    init_variables ns s = (s', Ok tt) ->
    keys_kept s s'
    /\ forall id nd,
         In (id, nd) ns ->
         node_type nd = "variable" ->
         truthy (variable_name nd) = true ->
         ctx_mem (variable_name nd) (context s') = true
         /\ exists tail,
              In ("Set Variable '" ++ py_str (variable_name nd) ++ "' = " ++ tail)
                 (execution_log s').
Proof.
  induction ns as [ | [id0 nd0] ns IH ]; intros s s' Hrun.
  - simpl in Hrun. injection Hrun as <-. split; [intros k Hk; exact Hk | intros ? ? [] ].
  - simpl in Hrun. unfold bind at 1 in Hrun.
    destruct (String.eqb (node_type nd0) "variable") eqn:Ht.
    + apply String.eqb_eq in Ht.
      unfold bind at 1 in Hrun. rewrite (execute_node_variable nd0 Ht) in Hrun.
      destruct (execute_variable (node_data nd0) s) as [s1 [r | e]] eqn:Hv;
        [ | discriminate ].
      unfold ret at 1 in Hrun.
      destruct (execute_variable_binds nd0 s s1 r Hv) as [Hk1 Hb1].
      destruct (IH s1 s' Hrun) as [Hk2 Hb2].
      assert (Hst : stable s1 s').
      { pose proof (Stable_init_variables ns s1) as H. now rewrite Hrun in H. }
      split.
      * intros k Hk. auto.
      * intros id nd [Heq | Hin] Htype Hname.
        -- injection Heq as -> ->. destruct (Hb1 Hname) as [Hmem [tail Hlog]]. split.
           ++ auto.
           ++ exists tail. eapply log_extends_In; [apply Hst | exact Hlog].
        -- now apply (Hb2 id nd).
    + unfold ret at 1 in Hrun.
      destruct (IH s s' Hrun) as [Hk2 Hb2]. split; [exact Hk2 | ].
      intros id nd [Heq | Hin] Htype Hname.
      * injection Heq as -> ->. rewrite Htype in Ht. discriminate.
      * now apply (Hb2 id nd).
Qed.

Lemma find_api_none (ns : list (string * node)) :
  (forall id nd, In (id, nd) ns -> node_type nd <> "api") -> find_api ns = None.
Proof.
  intros H. unfold find_api.
  destruct (find (fun kv => String.eqb (node_type (snd kv)) "api") ns) as [[id nd] | ] eqn:Hf;
    [ | reflexivity ].
  apply find_some in Hf. destruct Hf as [Hin Heq]. simpl in Heq.
  apply String.eqb_eq in Heq. now destruct (H id nd Hin).
Qed.

(** C9. On a graph without an [api] node, [run] still executes every
    [variable] node first: when that step completes, the state [run]
    leaves is the state after it (each named variable is bound in the
    Context and has its entry in the log), and the value returned is the
    structural failure, which carries the error text and neither a status
    nor logs. *)
Theorem run_without_api (input_data : list (string * value)) (self self' : WorkflowExecutor) :
  (forall id nd, In (id, nd) (nodes self) -> node_type nd <> "api") ->
  init_variables (nodes self) self = (self', Ok tt) ->
  run input_data self = (self', Ok no_entry_result)
  /\ res_error no_entry_result = Some "No API Entry Point found"
  /\ res_status no_entry_result = None
  /\ res_logs no_entry_result = None
  /\ forall id nd,
       In (id, nd) (nodes self) ->
       node_type nd = "variable" ->
       truthy (variable_name nd) = true ->
       ctx_mem (variable_name nd) (context self') = true
       /\ exists tail,
            In ("Set Variable '" ++ py_str (variable_name nd) ++ "' = " ++ tail)
               (execution_log self').
Proof.
  intros Hapi Hinit. repeat split.
  - unfold run, run_counted, bind, get_self. cbv beta iota.
    rewrite Hinit. now rewrite (find_api_none _ Hapi).
  - now apply (proj2 (init_variables_binds _ _ _ Hinit) id nd).
  - now apply (proj2 (init_variables_binds _ _ _ Hinit) id nd).
Qed.

End NoEntry.

(** ** The traversal *)

Section Traversal.
Context {rt : PyRuntime}.

(** The [try] block around one node. *)
Lemma guarded_execute_cases (id : string) (nd : node) (self : WorkflowExecutor) :
  match guarded_execute id nd self with
  | (s', Ok (inl res)) =>
      execute_node nd self = (s', Ok res)
      /\ (forall payload, res <> Some (OResponse payload))
  | (s', Ok (inr r)) =>
      (exists payload,
          execute_node nd self = (s', Ok (Some (OResponse payload)))
          /\ r = response_result s' payload)
      \/ (exists s1 cls msg,
             execute_node nd self = (s1, Raise (Exc cls msg))
             /\ s' = append_log ("Error executing node " ++ id ++ ": " ++ msg) s1
             /\ r = error_result s' msg)
  | (s', Raise e) =>
      execute_node nd self = (s', Raise e) /\ is_Exception e = false
  end.
Proof.
  unfold guarded_execute, try_except, bind, ret, get_self, log.
  destruct (execute_node nd self) as [s1 [[[b | l | payload] | ] | [cls msg | cls msg]]];
    cbv beta iota.
  - split; [reflexivity | intros payload; discriminate].
  - split; [reflexivity | intros payload; discriminate].
  - left. exists payload. split; reflexivity.
  - split; [reflexivity | intros payload; discriminate].
  - right. exists s1, cls, msg. repeat split; reflexivity.
  - split; reflexivity.
Qed.

Variable N : list (string * node).
Variable A : list (string * list (string * option string)).

(** A property of node ids that every edge target has. *)
Variable P : string -> Prop.
Hypothesis P_targets :
  forall src targets t h, dict_get src A = Some targets -> In (t, h) targets -> P t.

Lemma downstream_P (self : WorkflowExecutor) (id type : string) (res : option outcome) :
  adjacency self = A -> forall t, In t (downstream self id type res) -> P t.
Proof.
  intros HA t Ht. unfold downstream in Ht. rewrite HA in Ht.
  apply in_map_iff in Ht. destruct Ht as [[t' h] [<- Hin]].
  apply filter_In in Hin. destruct Hin as [Hin _].
  unfold dict_get_default in Hin.
  destruct (dict_get id A) as [targets | ] eqn:Hd; [ | destruct Hin ].
  simpl. eapply P_targets; eauto.
Qed.

Lemma run_wave_cases (current_nodes : list string) :
  forall next_layer self,
    nodes self = N -> adjacency self = A ->
    (forall id, In id current_nodes -> P id) ->
    (forall id, In id next_layer -> P id) ->
    match run_wave current_nodes next_layer self with
    | (s', Ok (Continue next_layer')) => forall id, In id next_layer' -> P id
    | (s', Ok (Return r)) =>
        traversal_result N s' r /\ r <> completed_result s'
    | (s', Raise e) => traversal_raise N P e
    end.
Proof.
  induction current_nodes as [ | id rest IH ]; intros next_layer self HN HA Hcur Hnext.
  - cbn [run_wave]. exact Hnext.
  - cbn [run_wave]. unfold bind at 1. unfold get_self at 1. cbv beta iota. rewrite HN.
    destruct (dict_get id N) as [nd | ] eqn:Hnd.
    + unfold bind at 1. unfold log at 1. cbv beta iota.
      unfold bind at 1.
      set (s0 := append_log ("Executing Node: " ++ node_type nd ++ " (" ++ id ++ ")") self).
      pose proof (guarded_execute_cases id nd s0) as Hg.
      pose proof (Stable_guarded_execute id nd s0) as Hs.
      destruct (guarded_execute id nd s0) as [s1 [[res | r] | e]]; cbn [fst] in Hs.
      * destruct Hs as [(HN1 & _ & HA1) _]. cbn in HN1, HA1.
        apply IH; try congruence.
        -- intros i Hi. apply Hcur. now right.
        -- intros i Hi. apply in_app_or in Hi. destruct Hi as [Hi | Hi]; [now apply Hnext | ].
           eapply downstream_P; eauto.
      * unfold ret. destruct Hg as [[payload [Hex ->]] | (sx & cls & msg & Hex & -> & ->)].
        -- split; [ | discriminate ].
           eapply by_response; eauto.
        -- split; [ | discriminate ].
           apply (by_error N _ id nd s0 (Exc cls msg)); auto.
           now rewrite Hex.
      * destruct Hg as [Hex _].
        eapply by_node_raise; eauto. now rewrite Hex.
    + unfold raise, lift. apply by_missing_node; auto. apply Hcur. now left.
Qed.

Lemma while_loop_cases (remaining : nat) :
  forall current_nodes self,
    nodes self = N -> adjacency self = A ->
    (forall id, In id current_nodes -> P id) ->
    match while_loop remaining current_nodes self with
    | (s', Ok (waves, r)) => (waves <= remaining)%nat /\ traversal_result N s' r
    | (s', Raise e) => traversal_raise N P e
    end.
Proof.
  induction remaining as [ | remaining IH ]; intros current_nodes self HN HA Hcur.
  - cbn [while_loop]. unfold bind, get_self, ret. split; [lia | apply by_completion].
  - cbn [while_loop]. destruct current_nodes as [ | id rest ].
    + unfold bind, get_self, ret. split; [lia | apply by_completion].
    + unfold bind at 1.
      pose proof (run_wave_cases (id :: rest) [] self HN HA Hcur ltac:(intros ? [])) as Hw.
      pose proof (Stable_run_wave (id :: rest) [] self) as Hs.
      destruct (run_wave (id :: rest) [] self) as [s1 [[next_layer | r] | e]]; cbn [fst] in Hs.
      * destruct Hs as [(HN1 & _ & HA1) _].
        unfold bind.
        assert (Hnext : forall i, In i (set_to_list next_layer) -> P i).
        { intros i Hi. apply Hw. now apply set_to_list_In. }
        specialize (IH (set_to_list next_layer) s1 ltac:(congruence) ltac:(congruence) Hnext).
        destruct (while_loop remaining (set_to_list next_layer) s1) as [s2 [[waves r] | e]].
        -- unfold ret. cbn [fst snd]. destruct IH as [Hle Hr]. split; [lia | exact Hr].
        -- exact IH.
      * unfold ret. split; [lia | apply Hw].
      * exact Hw.
Qed.

End Traversal.

(** ** The executor of a graph *)

Lemma dict_get_set {A} (k k' : string) (v : A) (d : list (string * A)) :
  dict_get k (dict_set k' v d) = if String.eqb k' k then Some v else dict_get k d.
Proof.
  induction d as [ | [k0 v0] d IH ]; cbn [dict_set dict_get].
  - reflexivity.
  - destruct (String.eqb k0 k') eqn:E0; cbn [dict_get].
    + apply String.eqb_eq in E0. subst k0. now destruct (String.eqb k' k).
    + destruct (String.eqb k0 k) eqn:E1; [ | exact IH ].
      apply String.eqb_eq in E1. subst k0. now rewrite String.eqb_sym, E0.
Qed.

Lemma dict_get_In {A} (k : string) (v : A) (d : list (string * A)) :
  dict_get k d = Some v -> In (k, v) d.
Proof.
  induction d as [ | [k0 v0] d IH ]; cbn [dict_get]; [discriminate | ].
  destruct (String.eqb k0 k) eqn:E.
  - apply String.eqb_eq in E. intros H. injection H as ->. subst. now left.
  - intros H. right. auto.
Qed.

(** The node table [__init__] builds holds nodes of the graph under
    their own ids, and one for every id of the graph. *)
Lemma init_nodes_from (ns : list node) :
  forall acc id nd,
    dict_get id (fold_left (fun d n => dict_set (node_id n) n d) ns acc) = Some nd ->
    dict_get id acc = Some nd \/ (In nd ns /\ node_id nd = id).
Proof.
  induction ns as [ | n ns IH ]; intros acc id nd H; cbn [fold_left] in H.
  - now left.
  - apply IH in H. destruct H as [H | [H1 H2]].
    + rewrite dict_get_set in H. destruct (String.eqb (node_id n) id) eqn:E.
      * injection H as <-. apply String.eqb_eq in E. right. split; [now left | exact E].
      * now left.
    + right. split; [now right | exact H2].
Qed.

Lemma init_nodes_total (ns : list node) :
  forall acc id,
    dict_get id (fold_left (fun d n => dict_set (node_id n) n d) ns acc) = None ->
    dict_get id acc = None /\ forall n, In n ns -> node_id n <> id.
Proof.
  induction ns as [ | n ns IH ]; intros acc id H; cbn [fold_left] in H.
  - split; [exact H | intros ? [] ].
  - apply IH in H. destruct H as [H1 H2].
    rewrite dict_get_set in H1. destruct (String.eqb (node_id n) id) eqn:E; [discriminate | ].
    apply String.eqb_neq in E. split; [exact H1 | ].
    intros m [<- | Hm]; auto.
Qed.

(** Every target the adjacency index lists is the target of an edge. *)
Lemma init_adjacency_targets (es : list edge) (Q : string -> Prop) :
  (forall e, In e es -> Q (target e)) ->
  forall acc,
    (forall src targets t h, dict_get src acc = Some targets -> In (t, h) targets -> Q t) ->
    forall src targets t h,
      dict_get src (fold_left add_edge es acc) = Some targets -> In (t, h) targets -> Q t.
Proof.
  induction es as [ | e es IH ]; intros Hes acc Hacc; cbn [fold_left].
  - exact Hacc.
  - apply IH; [intros e' He'; apply Hes; now right | ].
    intros src targets t h Hget Hin. unfold add_edge in Hget.
    rewrite dict_get_set in Hget. destruct (String.eqb (source e) src) eqn:E.
    + injection Hget as <-. apply in_app_or in Hin. destruct Hin as [Hin | [Hin | []]].
      * unfold dict_get_default in Hin.
        destruct (dict_get (source e) acc) as [old | ] eqn:Hold; [ | destruct Hin ].
        eapply Hacc; eauto.
      * injection Hin as <- _. apply Hes. now left.
    + eapply Hacc; eauto.
Qed.

(** With unique ids the node table lists the nodes in order. *)
Lemma init_nodes_unique (ns : list node) :
  forall acc,
    NoDup (map fst acc ++ map node_id ns) ->
    fold_left (fun d n => dict_set (node_id n) n d) ns acc
    = (acc ++ map (fun n => (node_id n, n)) ns)%list.
Proof.
  assert (Hfresh : forall (k : string) (v : node) (d : list (string * node)),
             ~ In k (map fst d) -> dict_set k v d = (d ++ [(k, v)])%list).
  { intros k v d. induction d as [ | [k0 v0] d IHd ]; cbn [dict_set map fst In app].
    - reflexivity.
    - intros Hn. destruct (String.eqb k0 k) eqn:E.
      + apply String.eqb_eq in E. exfalso. apply Hn. now left.
      + rewrite IHd; [reflexivity | ]. intros Hin. apply Hn. now right. }
  induction ns as [ | n ns IH ]; intros acc Hnd; cbn [fold_left map].
  - now rewrite app_nil_r.
  - cbn [map] in Hnd. rewrite Hfresh.
    + rewrite IH.
      * now rewrite <- app_assoc.
      * rewrite map_app. cbn [map fst]. rewrite <- app_assoc. exact Hnd.
    + apply NoDup_remove_2 in Hnd. intros Hin. apply Hnd. apply in_or_app. now left.
Qed.

Lemma find_api_exists (g : workflow_data) :
  unique_ids g -> exactly_one_api g ->
  exists start, find_api (nodes (init g)) = Some start
                /\ dict_get (node_id start) (nodes (init g)) <> None.
Proof.
  intros Hu Hone. unfold init. cbn [nodes].
  rewrite (init_nodes_unique (wf_nodes g) []) by exact Hu. cbn [app].
  unfold find_api.
  destruct (find (fun kv => String.eqb (node_type (snd kv)) "api")
                 (map (fun n => (node_id n, n)) (wf_nodes g))) as [[k nd] | ] eqn:Hf.
  - exists nd. split; [reflexivity | ].
    apply find_some in Hf. destruct Hf as [Hin _].
    apply in_map_iff in Hin. destruct Hin as [n [Heq Hn]]. injection Heq as <- <-.
    clear Hone Hu. induction (wf_nodes g) as [ | m ms IHm ]; [destruct Hn | ].
    cbn [map dict_get]. destruct (String.eqb (node_id m) (node_id n)) eqn:E; [discriminate | ].
    destruct Hn as [-> | Hn]; [now rewrite String.eqb_refl in E | auto].
  - exfalso. unfold exactly_one_api in Hone.
    assert (Hnone : filter is_api (wf_nodes g) = []).
    { clear Hone Hu. induction (wf_nodes g) as [ | m ms IHm ]; [reflexivity | ].
      cbn [map find snd] in Hf. cbn [filter]. unfold is_api at 1.
      destruct (String.eqb (node_type m) "api"); [discriminate | auto]. }
    rewrite Hnone in Hone. discriminate.
Qed.

Section Seed.
Context {rt : PyRuntime}.

Lemma seed_context_returns (input_data : list (string * value)) (s : WorkflowExecutor) :
  exists s1, seed_context input_data s = (s1, Ok tt).
Proof.
  unfold seed_context, bind, context_setitem, ret.
  cbn [hashable is_list is_dict orb negb].
  destruct (is_dict (dict_get_default "body" VNone input_data));
    destruct (truthy (dict_get_default "query" VNone input_data));
    destruct (truthy (dict_get_default "params" VNone input_data));
    eexists; reflexivity.
Qed.

(** Step 1 of [run] raises only what a node raised. *)
Lemma init_variables_raise (ns : list (string * node)) :
  forall s s' e,
    init_variables ns s = (s', Raise e) ->
    exists id nd s0, In (id, nd) ns /\ snd (execute_node nd s0) = Raise e.
Proof.
  induction ns as [ | [id0 nd0] ns IH ]; intros s s' e H; cbn [init_variables] in H.
  - discriminate.
  - unfold bind at 1 in H.
    destruct (String.eqb (node_type nd0) "variable").
    + unfold bind at 1 in H.
      destruct (execute_node nd0 s) as [s1 [r | e1]] eqn:Hex.
      * unfold ret at 1 in H. apply IH in H. destruct H as (id & nd & s0 & Hin & Hr).
        exists id, nd, s0. split; [now right | exact Hr].
      * injection H as _ ->. exists id0, nd0, s. split; [now left | now rewrite Hex].
    + unfold ret at 1 in H. apply IH in H. destruct H as (id & nd & s0 & Hin & Hr).
      exists id, nd, s0. split; [now right | exact Hr].
Qed.

End Seed.

(** ** The traversal, step by step *)

Section Steps.
Context {rt : PyRuntime}.

(** The first node of a wave: the four ways in which it ends the wave. *)
Lemma run_wave_missing (id : string) (rest next_layer : list string)
      (self : WorkflowExecutor) :
  dict_get id (nodes self) = None ->
  run_wave (id :: rest) next_layer self
  = (self, Raise (Exc "KeyError" (py_repr (VStr id)))).
Proof.
  intros Hd. cbn [run_wave]. unfold bind at 1. unfold get_self at 1. cbv beta iota.
  now rewrite Hd.
Qed.

Lemma run_wave_response (id : string) (rest next_layer : list string)
      (self : WorkflowExecutor) (nd : node) (s' : WorkflowExecutor) (payload : value) :
  dict_get id (nodes self) = Some nd ->
  execute_node nd (append_log ("Executing Node: " ++ node_type nd ++ " (" ++ id ++ ")") self)
  = (s', Ok (Some (OResponse payload))) ->
  run_wave (id :: rest) next_layer self = (s', Ok (Return (response_result s' payload))).
Proof.
  intros Hd Hex.
  cbn [run_wave]. unfold bind at 1. unfold get_self at 1. cbv beta iota. rewrite Hd.
  unfold bind at 1. unfold log at 1. cbv beta iota.
  unfold bind at 1. unfold guarded_execute, try_except. unfold bind at 1.
  rewrite Hex. reflexivity.
Qed.

Lemma run_wave_error (id : string) (rest next_layer : list string)
      (self : WorkflowExecutor) (nd : node) (s' : WorkflowExecutor) (cls msg : string) :
  dict_get id (nodes self) = Some nd ->
  execute_node nd (append_log ("Executing Node: " ++ node_type nd ++ " (" ++ id ++ ")") self)
  = (s', Raise (Exc cls msg)) ->
  run_wave (id :: rest) next_layer self
  = (append_log ("Error executing node " ++ id ++ ": " ++ msg) s',
     Ok (Return (error_result
                   (append_log ("Error executing node " ++ id ++ ": " ++ msg) s') msg))).
Proof.
  intros Hd Hex.
  cbn [run_wave]. unfold bind at 1. unfold get_self at 1. cbv beta iota. rewrite Hd.
  unfold bind at 1. unfold log at 1. cbv beta iota.
  unfold bind at 1. unfold guarded_execute, try_except. unfold bind at 1.
  rewrite Hex. reflexivity.
Qed.

Lemma run_wave_escapes (id : string) (rest next_layer : list string)
      (self : WorkflowExecutor) (nd : node) (s' : WorkflowExecutor) (cls msg : string) :
  dict_get id (nodes self) = Some nd ->
  execute_node nd (append_log ("Executing Node: " ++ node_type nd ++ " (" ++ id ++ ")") self)
  = (s', Raise (BaseExc cls msg)) ->
  run_wave (id :: rest) next_layer self = (s', Raise (BaseExc cls msg)).
Proof.
  intros Hd Hex.
  cbn [run_wave]. unfold bind at 1. unfold get_self at 1. cbv beta iota. rewrite Hd.
  unfold bind at 1. unfold log at 1. cbv beta iota.
  unfold bind at 1. unfold guarded_execute, try_except. unfold bind at 1.
  rewrite Hex. reflexivity.
Qed.

(** A wave is run from left to right: its second part starts where the
    first part ends, unless that returned or raised. *)
Lemma run_wave_app (p : list string) :
  forall q next_layer self,
    run_wave (p ++ q) next_layer self =
      match run_wave p next_layer self with
      | (s1, Ok (Continue n1)) => run_wave q n1 s1
      | (s1, Ok (Return r)) => (s1, Ok (Return r))
      | (s1, Raise e) => (s1, Raise e)
      end.
Proof.
  induction p as [ | id p IH ]; intros q next_layer self; [reflexivity | ].
  cbn [app run_wave]. unfold bind, get_self, log, raise, ret. cbv beta iota.
  destruct (dict_get id (nodes self)) as [nd | ]; [ | reflexivity ].
  destruct (guarded_execute id nd _) as [s1 [[res | r] | e]]; [ | reflexivity | reflexivity ].
  apply IH.
Qed.

(** The loop after [k] complete waves. *)
Lemma while_loop_reaches (s : WorkflowExecutor) (wave : list string) (k : nat)
      (s' : WorkflowExecutor) (wave' : list string) :
  reaches s wave k s' wave' ->
  forall m,
    while_loop (k + m) wave s =
      (fst (while_loop m wave' s'),
       match snd (while_loop m wave' s') with
       | Ok (waves, r) => Ok ((k + waves)%nat, r)
       | Raise e => Raise e
       end).
Proof.
  induction 1 as [ s wave | s wave s1 next_layer k s' wave' Hne Hwave _ IH ]; intros m.
  - cbn [Nat.add]. destruct (while_loop m wave s) as [s0 [[waves r] | e]]; reflexivity.
  - cbn [Nat.add while_loop]. destruct wave as [ | id rest ]; [now elim Hne | ].
    unfold bind at 1. rewrite Hwave. unfold bind. rewrite IH.
    destruct (while_loop m wave' s') as [s0 [[waves r] | e]]; reflexivity.
Qed.

Lemma while_loop_nil (m : nat) (s : WorkflowExecutor) :
  while_loop m [] s = (s, Ok (O, completed_result s)).
Proof. destruct m; reflexivity. Qed.

Lemma while_loop_return (m : nat) (wave : list string) (s s' : WorkflowExecutor)
      (r : result) :
  run_wave wave [] s = (s', Ok (Return r)) ->
  while_loop (S m) wave s = (s', Ok (1%nat, r)).
Proof.
  intros H. destruct wave as [ | id rest ]; [discriminate H | ].
  cbn [while_loop]. unfold bind at 1. now rewrite H.
Qed.

Lemma while_loop_raise (m : nat) (wave : list string) (s s' : WorkflowExecutor)
      (e : pyexn) :
  run_wave wave [] s = (s', Raise e) ->
  while_loop (S m) wave s = (s', Raise e).
Proof.
  intros H. destruct wave as [ | id rest ]; [discriminate H | ].
  cbn [while_loop]. unfold bind at 1. now rewrite H.
Qed.

(** [run] up to its [while] loop. *)
Lemma run_counted_entry (input_data : list (string * value)) (self : WorkflowExecutor)
      (start : node) (s1 : WorkflowExecutor) :
  find_api (nodes self) = Some start ->
  init_variables (nodes self) self = (s1, Ok tt) ->
  run_counted input_data self
  = while_loop max_waves [node_id start] (entry_state input_data start s1).
Proof.
  intros Hfind Hinit. unfold run_counted. unfold bind at 1. unfold get_self at 1.
  cbv beta iota. unfold bind at 1. rewrite Hinit, Hfind.
  unfold bind at 1. unfold log at 1. cbv beta iota.
  unfold bind at 1. unfold entry_state, started_line.
  destruct (seed_context_returns input_data
              (append_log ("Started execution at "
                           ++ py_str (dict_get_default "label" (VStr "API Entry")
                                                       (node_data start))) s1))
    as [s3 Hseed].
  rewrite Hseed. reflexivity.
Qed.

Lemma run_counted_step1 (input_data : list (string * value)) (self s1 : WorkflowExecutor)
      (e : pyexn) :
  init_variables (nodes self) self = (s1, Raise e) ->
  run_counted input_data self = (s1, Raise e).
Proof.
  intros Hinit. unfold run_counted. unfold bind at 1. unfold get_self at 1.
  cbv beta iota. unfold bind at 1. now rewrite Hinit.
Qed.

(** The node table is the same all along. *)
Lemma reaches_nodes (s : WorkflowExecutor) (wave : list string) (k : nat)
      (s' : WorkflowExecutor) (wave' : list string) :
  reaches s wave k s' wave' -> nodes s' = nodes s.
Proof.
  induction 1 as [ s wave | s wave s1 next_layer k s' wave' Hne Hwave _ IH ];
    [reflexivity | ].
  pose proof (Stable_run_wave wave [] s) as Hs. rewrite Hwave in Hs. cbn [fst] in Hs.
  destruct Hs as [(HN & _) _]. congruence.
Qed.

Lemma entry_state_nodes (input_data : list (string * value)) (self : WorkflowExecutor)
      (start : node) (s1 : WorkflowExecutor) (r : pyres unit) :
  init_variables (nodes self) self = (s1, r) ->
  nodes (entry_state input_data start s1) = nodes self.
Proof.
  intros Hinit. unfold entry_state.
  pose proof (Stable_init_variables (nodes self) self) as H1.
  rewrite Hinit in H1. cbn [fst] in H1. destruct H1 as [(HN1 & _) _].
  pose proof (Stable_seed_context input_data (append_log (started_line start) s1)) as H3.
  destruct H3 as [(HN3 & _) _]. rewrite HN3. cbn. exact HN1.
Qed.

Lemma about_to_execute_nodes input_data self k id s3 :
  about_to_execute input_data self k id s3 -> nodes s3 = nodes self.
Proof.
  intros (start & s1 & s2 & p & rest & nl & Hfind & Hinit & Hreach & Hk & Hp).
  pose proof (Stable_run_wave p [] s2) as Hs. rewrite Hp in Hs. cbn [fst] in Hs.
  destruct Hs as [(HN & _) _]. rewrite HN, (reaches_nodes _ _ _ _ _ Hreach).
  now apply (entry_state_nodes input_data self start s1 (Ok tt)).
Qed.

(** The wave a run is in ends with the run when it returns or raises. *)
Lemma run_counted_ends (input_data : list (string * value)) (self : WorkflowExecutor)
      (k : nat) (id : string) (s3 : WorkflowExecutor) :
  about_to_execute input_data self k id s3 ->
  (forall s' r,
      (forall rest next_layer,
          run_wave (id :: rest) next_layer s3 = (s', Ok (Return r))) ->
      run_counted input_data self = (s', Ok (S k, r)))
  /\ (forall s' e,
         (forall rest next_layer, run_wave (id :: rest) next_layer s3 = (s', Raise e)) ->
         run_counted input_data self = (s', Raise e)).
Proof.
  intros (start & s1 & s2 & p & rest & nl & Hfind & Hinit & Hreach & Hk & Hp).
  rewrite (run_counted_entry input_data self start s1 Hfind Hinit).
  replace max_waves with (k + S (max_waves - S k))%nat by lia.
  rewrite (while_loop_reaches _ _ _ _ _ Hreach).
  assert (Hwave : run_wave (p ++ id :: rest) [] s2 = run_wave (id :: rest) nl s3).
  { now rewrite run_wave_app, Hp. }
  split.
  - intros s' r H. specialize (H rest nl). rewrite <- Hwave in H.
    rewrite (while_loop_return _ _ _ _ _ H). cbn [fst snd]. now rewrite Nat.add_1_r.
  - intros s' e H. specialize (H rest nl). rewrite <- Hwave in H.
    now rewrite (while_loop_raise _ _ _ _ _ H).
Qed.

(** A run that is about to look up an id that is no node raises
    [KeyError]. *)
Lemma run_counted_missing (input_data : list (string * value)) (self : WorkflowExecutor)
      (k : nat) (id : string) (s3 : WorkflowExecutor) :
  about_to_execute input_data self k id s3 ->
  dict_get id (nodes self) = None ->
  run_counted input_data self = (s3, Raise (Exc "KeyError" (py_repr (VStr id)))).
Proof.
  intros Hat Hd. apply (proj2 (run_counted_ends _ _ _ _ _ Hat)).
  intros rest next_layer. apply run_wave_missing.
  now rewrite (about_to_execute_nodes _ _ _ _ _ Hat).
Qed.

(** A run whose next node yields a response returns it, with the state
    of that moment. *)
Lemma run_counted_response (input_data : list (string * value)) (self : WorkflowExecutor)
      (k : nat) (id : string) (s3 : WorkflowExecutor) (nd : node) (s4 : WorkflowExecutor)
      (payload : value) :
  about_to_execute input_data self k id s3 ->
  dict_get id (nodes self) = Some nd ->
  execute_node nd (append_log ("Executing Node: " ++ node_type nd ++ " (" ++ id ++ ")") s3)
  = (s4, Ok (Some (OResponse payload))) ->
  run_counted input_data self = (s4, Ok (S k, response_result s4 payload)).
Proof.
  intros Hat Hd Hex. apply (proj1 (run_counted_ends _ _ _ _ _ Hat)).
  intros rest next_layer. apply (run_wave_response id rest next_layer s3 nd); [ | exact Hex ].
  now rewrite (about_to_execute_nodes _ _ _ _ _ Hat).
Qed.

(** A run whose next node raises an [Exception] returns the error
    result. *)
Lemma run_counted_error (input_data : list (string * value)) (self : WorkflowExecutor)
      (k : nat) (id : string) (s3 : WorkflowExecutor) (nd : node) (s4 : WorkflowExecutor)
      (cls msg : string) :
  about_to_execute input_data self k id s3 ->
  dict_get id (nodes self) = Some nd ->
  execute_node nd (append_log ("Executing Node: " ++ node_type nd ++ " (" ++ id ++ ")") s3)
  = (s4, Raise (Exc cls msg)) ->
  run_counted input_data self
  = (append_log ("Error executing node " ++ id ++ ": " ++ msg) s4,
     Ok (S k, error_result (append_log ("Error executing node " ++ id ++ ": " ++ msg) s4)
                           msg)).
Proof.
  intros Hat Hd Hex. apply (proj1 (run_counted_ends _ _ _ _ _ Hat)).
  intros rest next_layer. apply (run_wave_error id rest next_layer s3 nd _ cls); [ | exact Hex ].
  now rewrite (about_to_execute_nodes _ _ _ _ _ Hat).
Qed.

(** What is not an [Exception] leaves [run]. *)
Lemma run_counted_escapes (input_data : list (string * value)) (self : WorkflowExecutor)
      (k : nat) (id : string) (s3 : WorkflowExecutor) (nd : node) (s4 : WorkflowExecutor)
      (cls msg : string) :
  about_to_execute input_data self k id s3 ->
  dict_get id (nodes self) = Some nd ->
  execute_node nd (append_log ("Executing Node: " ++ node_type nd ++ " (" ++ id ++ ")") s3)
  = (s4, Raise (BaseExc cls msg)) ->
  run_counted input_data self = (s4, Raise (BaseExc cls msg)).
Proof.
  intros Hat Hd Hex. apply (proj2 (run_counted_ends _ _ _ _ _ Hat)).
  intros rest next_layer. apply (run_wave_escapes id rest next_layer s3 nd); [ | exact Hex ].
  now rewrite (about_to_execute_nodes _ _ _ _ _ Hat).
Qed.

(** A run whose waves run dry, or whose budget of waves is used up,
    returns the completion result. *)
Lemma run_counted_completes (input_data : list (string * value)) (self : WorkflowExecutor)
      (start : node) (s1 : WorkflowExecutor) (k : nat) (s2 : WorkflowExecutor)
      (wave : list string) :
  find_api (nodes self) = Some start ->
  init_variables (nodes self) self = (s1, Ok tt) ->
  reaches (entry_state input_data start s1) [node_id start] k s2 wave ->
  (k <= max_waves)%nat ->
  wave = [] \/ k = max_waves ->
  run_counted input_data self = (s2, Ok (k, completed_result s2)).
Proof.
  intros Hfind Hinit Hreach Hk Hend.
  rewrite (run_counted_entry input_data self start s1 Hfind Hinit).
  replace max_waves with (k + (max_waves - k))%nat by lia.
  rewrite (while_loop_reaches _ _ _ _ _ Hreach).
  destruct Hend as [-> | ->].
  - rewrite while_loop_nil. cbn [fst snd]. now rewrite Nat.add_0_r.
  - rewrite Nat.sub_diag. cbn [while_loop]. unfold bind, get_self, ret.
    cbn [fst snd]. now rewrite Nat.add_0_r.
Qed.

(** [run] is [run_counted] without the count. *)
Lemma run_of_counted (input_data : list (string * value)) (self s' : WorkflowExecutor)
      (waves : nat) (r : result) :
  run_counted input_data self = (s', Ok (waves, r)) -> run input_data self = (s', Ok r).
Proof. intros H. unfold run, bind. now rewrite H. Qed.

Lemma run_of_counted_raise (input_data : list (string * value)) (self s' : WorkflowExecutor)
      (e : pyexn) :
  run_counted input_data self = (s', Raise e) -> run input_data self = (s', Raise e).
Proof. intros H. unfold run, bind. now rewrite H. Qed.

End Steps.

(** ** Runs on an executor that has run before *)

Section Reuse.
Context {rt : PyRuntime}.




End Reuse.

(** ** Runs *)

Section Runs.
Context {rt : PyRuntime}.

(** The outcomes of [run] on a graph with unique ids and exactly one
    [api] node: it ends within 1000 waves; a result is a success result
    or the error result of a node that raised an [Exception]; what leaves
    [run] was raised by a node or is the [KeyError] of an edge target
    that is no node. *)
Lemma run_one_api_cases (g : workflow_data) (input_data : list (string * value)) :
  unique_ids g ->
  exactly_one_api g ->
  match snd (run_counted input_data (init g)) with
  | Ok (waves, r) =>
      (waves <= 1000)%nat
      /\ (res_status r = Some "success"
          \/ (res_status r = Some "error"
              /\ exists nd s e,
                   In nd (wf_nodes g)
                   /\ snd (execute_node nd s) = Raise e
                   /\ is_Exception e = true
                   /\ res_error r = Some (exn_str e)))
  | Raise e =>
      (exists nd s, In nd (wf_nodes g) /\ snd (execute_node nd s) = Raise e)
      \/ (exists ed,
             In ed (wf_edges g)
             /\ (forall nd, In nd (wf_nodes g) -> node_id nd <> target ed)
             /\ e = Exc "KeyError" (py_repr (VStr (target ed))))
  end.
Proof.
  intros Hu Hone.
  destruct (find_api_exists g Hu Hone) as [start [Hstart Hkey]].
  assert (Hnode : forall id nd, dict_get id (nodes (init g)) = Some nd -> In nd (wf_nodes g)).
  { intros id nd H. unfold init in H. cbn [nodes] in H.
    apply init_nodes_from in H. destruct H as [H | [H _]]; [discriminate | exact H]. }
  set (P := fun id : string =>
              dict_get id (nodes (init g)) <> None
              \/ exists ed, In ed (wf_edges g) /\ target ed = id).
  assert (HP : forall src targets t h,
             dict_get src (adjacency (init g)) = Some targets -> In (t, h) targets -> P t).
  { unfold init. cbn [adjacency].
    apply (init_adjacency_targets (wf_edges g) P).
    - intros e He. right. now exists e.
    - intros src targets t h H. discriminate. }
  unfold run_counted. unfold bind at 1. unfold get_self at 1. cbv beta iota.
  unfold bind at 1.
  pose proof (Stable_init_variables (nodes (init g)) (init g)) as Hs1.
  destruct (init_variables (nodes (init g)) (init g)) as [s1 [[] | e]] eqn:Hinit;
    cbn [fst] in Hs1.
  - rewrite Hstart.
    unfold bind at 1. unfold log at 1. cbv beta iota.
    set (s2 := append_log _ s1).
    unfold bind at 1.
    destruct (seed_context_returns input_data s2) as [s3 Hseed].
    pose proof (Stable_seed_context input_data s2) as Hs3.
    rewrite Hseed in *. cbn [fst] in Hs3.
    destruct Hs1 as [(HN1 & _ & HA1) _]. destruct Hs3 as [(HN3 & _ & HA3) _].
    cbn in HN3, HA3.
    assert (Hwave : forall id, In id [node_id start] -> P id).
    { intros id [<- | []]. now left. }
    pose proof (while_loop_cases (nodes (init g)) (adjacency (init g)) P HP max_waves
                  [node_id start] s3 ltac:(congruence) ltac:(congruence) Hwave) as Hw.
    destruct (while_loop max_waves [node_id start] s3) as [s4 [[waves r] | e]]; cbn [snd].
    + destruct Hw as [Hle Hr].
      split; [exact Hle | ].
      destruct Hr as [id nd s payload Hd Hex | id nd s e Hd Hex He | ].
      * now left.
      * right. split; [reflexivity | ].
        exists nd, s, e. repeat split; eauto.
      * now left.
    + destruct Hw as [id Hid Hnone | id nd s e0 Hd Hex].
      * right. destruct Hid as [Hin | [ed [Hed <-]]]; [contradiction | ].
        exists ed. split; [exact Hed | split; [ | reflexivity ] ].
        unfold init in Hnone. cbn [nodes] in Hnone.
        apply init_nodes_total in Hnone. apply Hnone.
      * left. exists nd, s. split; eauto.
  - cbn [snd]. left.
    apply init_variables_raise in Hinit. destruct Hinit as (id & nd & s0 & Hin & Hr).
    exists nd, s0. split; [ | exact Hr ].
    apply (Hnode id). unfold init in *. cbn [nodes] in *.
    rewrite (init_nodes_unique (wf_nodes g) []) in * by exact Hu. cbn [app] in *.
    apply in_map_iff in Hin. destruct Hin as [n [Heq Hn]]. injection Heq as <- <-.
    clear -Hn Hu. unfold unique_ids in Hu.
    induction (wf_nodes g) as [ | m ms IHm ]; [destruct Hn | ].
    cbn [map dict_get]. cbn [map] in Hu. apply NoDup_cons_iff in Hu. destruct Hu as [Hm Hu].
    destruct Hn as [-> | Hn].
    + now rewrite String.eqb_refl.
    + destruct (String.eqb (node_id m) (node_id n)) eqn:E; [ | auto ].
      apply String.eqb_eq in E. exfalso. apply Hm. rewrite E. now apply in_map.
Qed.

(** What [run] returns, on any executor: the structural failure, or a
    result of the traversal built from the state [run] leaves. *)
Lemma run_cases (input_data : list (string * value)) (self : WorkflowExecutor) :
  match run input_data self with
  | (s', Ok r) => r = no_entry_result \/ traversal_result (nodes self) s' r
  | (s', Raise e) => True
  end.
Proof.
  unfold run. unfold bind at 1.
  unfold run_counted. unfold bind at 1. unfold get_self at 1. cbv beta iota.
  unfold bind at 1.
  pose proof (Stable_init_variables (nodes self) self) as Hs1.
  destruct (init_variables (nodes self) self) as [s1 [[] | e]]; cbn [fst] in Hs1;
    [ | exact I ].
  destruct (find_api (nodes self)) as [start | ].
  - unfold bind at 1. unfold log at 1. cbv beta iota.
    set (s2 := append_log _ s1).
    unfold bind at 1.
    destruct (seed_context_returns input_data s2) as [s3 Hseed].
    pose proof (Stable_seed_context input_data s2) as Hs3.
    rewrite Hseed in *. cbn [fst] in Hs3.
    destruct Hs1 as [(HN1 & _ & HA1) _]. destruct Hs3 as [(HN3 & _ & HA3) _].
    cbn in HN3, HA3.
    pose proof (while_loop_cases (nodes self) (adjacency self) (fun _ => True)
                  (fun _ _ _ _ _ _ => I) max_waves [node_id start] s3
                  ltac:(congruence) ltac:(congruence) (fun _ _ => I)) as Hw.
    destruct (while_loop max_waves [node_id start] s3) as [s4 [[waves r] | e]].
    + unfold ret. cbn [snd]. right. apply Hw.
    + exact I.
  - unfold ret. cbn [snd]. now left.
Qed.

(** C1, as the code has it. On a graph with unique ids and exactly one
    [api] node, [run] always comes to an end, after at most 1000 waves,
    and it does not always return a success result.  What a node raises
    in step 1 leaves [run].  In the traversal, wherever the run stands:
    an id that is no node makes [run] raise [KeyError] (the lookup is
    outside the [try] block); a node that raises an [Exception] makes
    [run] return at once the error result (status "error") with the
    message, the error being logged; what is not an [Exception] leaves
    [run].  When the waves run dry or the limit of 1000 waves is reached,
    [run] returns the completion result.  Conversely every result of
    [run] is a success result or the error result of a node that raised,
    and whatever leaves [run] was raised by a node or is the [KeyError]
    of an edge target that is no node. *)
Theorem run_one_api (g : workflow_data) (input_data : list (string * value)) :
  unique_ids g ->
  exactly_one_api g ->
  match snd (run_counted input_data (init g)) with
  | Ok (waves, r) =>
      (waves <= 1000)%nat
      /\ (res_status r = Some "success"
          \/ (res_status r = Some "error"
              /\ exists nd s e,
                   In nd (wf_nodes g)
                   /\ snd (execute_node nd s) = Raise e
                   /\ is_Exception e = true
                   /\ res_error r = Some (exn_str e)))
  | Raise e =>
      (exists nd s, In nd (wf_nodes g) /\ snd (execute_node nd s) = Raise e)
      \/ (exists ed,
             In ed (wf_edges g)
             /\ (forall nd, In nd (wf_nodes g) -> node_id nd <> target ed)
             /\ e = Exc "KeyError" (py_repr (VStr (target ed))))
  end
  /\ (exists start, find_api (nodes (init g)) = Some start)
  /\ (forall s1 e,
         init_variables (nodes (init g)) (init g) = (s1, Raise e) ->
         run_counted input_data (init g) = (s1, Raise e))
  /\ (forall k id s3,
         about_to_execute input_data (init g) k id s3 ->
         (dict_get id (nodes (init g)) = None ->
          run_counted input_data (init g)
          = (s3, Raise (Exc "KeyError" (py_repr (VStr id)))))
         /\ (forall nd s4 cls msg,
                dict_get id (nodes (init g)) = Some nd ->
                execute_node nd
                  (append_log ("Executing Node: " ++ node_type nd ++ " (" ++ id ++ ")") s3)
                = (s4, Raise (Exc cls msg)) ->
                run_counted input_data (init g)
                = (append_log ("Error executing node " ++ id ++ ": " ++ msg) s4,
                   Ok (S k,
                       {| res_status := Some "error";
                          res_response := None;
                          res_message := None;
                          res_error := Some msg;
                          res_logs :=
                            Some (execution_log
                                    (append_log
                                       ("Error executing node " ++ id ++ ": " ++ msg) s4));
                          res_context := None |})))
         /\ (forall nd s4 cls msg,
                dict_get id (nodes (init g)) = Some nd ->
                execute_node nd
                  (append_log ("Executing Node: " ++ node_type nd ++ " (" ++ id ++ ")") s3)
                = (s4, Raise (BaseExc cls msg)) ->
                run_counted input_data (init g) = (s4, Raise (BaseExc cls msg))))
  /\ (forall start s1 k s2 wave,
         find_api (nodes (init g)) = Some start ->
         init_variables (nodes (init g)) (init g) = (s1, Ok tt) ->
         reaches (entry_state input_data start s1) [node_id start] k s2 wave ->
         (k <= 1000)%nat ->
         wave = [] \/ k = 1000%nat ->
         run_counted input_data (init g) = (s2, Ok (k, completed_result s2))).
Proof.
  intros Hu Hone.
  split; [ exact (run_one_api_cases g input_data Hu Hone) | ].
  split; [ destruct (find_api_exists g Hu Hone) as [start [Hstart _]]; now exists start | ].
  split; [ intros s1 e; apply run_counted_step1 | ].
  split.
  - intros k id s3 Hat. split; [ | split ].
    + exact (run_counted_missing input_data (init g) k id s3 Hat).
    + intros nd s4 cls msg Hd Hex.
      now rewrite (run_counted_error input_data (init g) k id s3 nd s4 cls msg Hat Hd Hex).
    + intros nd s4 cls msg Hd Hex.
      exact (run_counted_escapes input_data (init g) k id s3 nd s4 cls msg Hat Hd Hex).
  - intros start s1 k s2 wave Hfind Hinit Hreach Hk Hend.
    exact (run_counted_completes input_data (init g) start s1 k s2 wave Hfind Hinit Hreach
             Hk Hend).
Qed.

(** C2, as the code has it. When the node a run executes yields a
    response, [run] returns at once: its result is the success result
    holding that payload, the log and the Context, and the state it
    leaves is the state right after that node, so that no other node is
    executed and nothing more is logged.  Every success result of [run],
    from a response as well as from falling through or reaching the wave
    limit, carries the log and the Context, and no other result carries a
    Context. *)
Theorem response_ends_run :
  (forall input_data self k id s3 nd s4 payload,
      about_to_execute input_data self k id s3 ->
      dict_get id (nodes self) = Some nd ->
      execute_node nd
        (append_log ("Executing Node: " ++ node_type nd ++ " (" ++ id ++ ")") s3)
      = (s4, Ok (Some (OResponse payload))) ->
      run input_data self =
        (s4, Ok {| res_status := Some "success";
                   res_response := Some payload;
                   res_message := None;
                   res_error := None;
                   res_logs := Some (execution_log s4);
                   res_context := Some (context s4) |}))
  /\ (forall id rest next_layer self nd s' payload,
      dict_get id (nodes self) = Some nd ->
      execute_node nd
        (append_log ("Executing Node: " ++ node_type nd ++ " (" ++ id ++ ")") self)
      = (s', Ok (Some (OResponse payload))) ->
      run_wave (id :: rest) next_layer self =
        (s', Ok (Return {| res_status := Some "success";
                           res_response := Some payload;
                           res_message := None;
                           res_error := None;
                           res_logs := Some (execution_log s');
                           res_context := Some (context s') |})))
  /\ (forall input_data self s' r,
        run input_data self = (s', Ok r) ->
        res_status r = Some "success" ->
        res_logs r = Some (execution_log s') /\ res_context r = Some (context s'))
  /\ (forall input_data self s' r,
        run input_data self = (s', Ok r) ->
        res_status r <> Some "success" ->
        res_context r = None).
Proof.
  split; [ | split; [ | split ] ].
  - intros input_data self k id s3 nd s4 payload Hat Hd Hex.
    exact (run_of_counted _ _ _ _ _
             (run_counted_response input_data self k id s3 nd s4 payload Hat Hd Hex)).
  - intros id rest next_layer self nd s' payload Hd Hex.
    exact (run_wave_response id rest next_layer self nd s' payload Hd Hex).
  - intros input_data self s' r Hrun Hok.
    pose proof (run_cases input_data self) as H. rewrite Hrun in H.
    clear Hrun. revert Hok.
    destruct H as [-> | [id nd s payload Hd Hex | id nd s e Hd Hex He | ]];
      cbn; intros Hok; try discriminate; split; reflexivity.
  - intros input_data self s' r Hrun Hno.
    pose proof (run_cases input_data self) as H. rewrite Hrun in H.
    clear Hrun. revert Hno.
    destruct H as [-> | [id nd s payload Hd Hex | id nd s e Hd Hex He | ]];
      cbn; intros Hno; try reflexivity; now destruct Hno.
Qed.

(** The log after a run is the log before it and at least one more
    entry, when the graph has an entry point. *)
Lemma run_log_grows (input_data : list (string * value)) (self s' : WorkflowExecutor)
      (r : result) :
  run input_data self = (s', Ok r) ->
  r <> no_entry_result ->
  exists suffix, suffix <> [] /\ execution_log s' = (execution_log self ++ suffix)%list.
Proof.
  unfold run. unfold bind at 1.
  unfold run_counted. unfold bind at 1. unfold get_self at 1. cbv beta iota.
  unfold bind at 1.
  pose proof (Stable_init_variables (nodes self) self) as Hs1.
  destruct (init_variables (nodes self) self) as [s1 [[] | e]]; cbn [fst] in Hs1;
    [ | discriminate ].
  destruct (find_api (nodes self)) as [start | ].
  - unfold bind at 1. unfold log at 1. cbv beta iota.
    set (line := "Started execution at " ++ _).
    unfold bind at 1.
    pose proof (Stable_seed_context input_data (append_log line s1)) as Hs3.
    destruct (seed_context input_data (append_log line s1)) as [s3 [[] | e]];
      cbn [fst] in Hs3; [ | discriminate ].
    pose proof (Stable_while_loop max_waves [node_id start] s3) as Hs4.
    destruct (while_loop max_waves [node_id start] s3) as [s4 [[waves r'] | e]];
      cbn [fst] in Hs4; [ | discriminate ].
    unfold ret. cbn [snd]. intros H _. injection H as <- _.
    destruct Hs1 as [_ [l1 L1]]. destruct Hs3 as [_ [l3 L3]]. destruct Hs4 as [_ [l4 L4]].
    cbn in L3.
    exists (l1 ++ [line] ++ l3 ++ l4)%list. split.
    + intros Hnil. apply app_eq_nil in Hnil. destruct Hnil as [_ Hnil]. discriminate.
    + rewrite L4, L3, L1. now rewrite <- !app_assoc.
  - unfold ret. cbn [snd]. intros H Hne. injection H as _ <-. now destruct Hne.
Qed.


End Runs.

(* ================================================================== *)
(** * The properties at work

    Each statement below is one of the theorems above, or a run of the
    engine, at a concrete graph under the reference interpreter. *)

Section AtWork.
Import Examples.
#[local] Existing Instance Reference.runtime.

Lemma unique_ids_dangling : unique_ids dangling_graph.
Proof. repeat constructor; simpl; intuition discriminate. Defined.

Lemma unique_ids_raising : unique_ids raising_graph.
Proof. repeat constructor; simpl; intuition discriminate. Defined.

Lemma unique_ids_greeting : unique_ids greeting_graph.
Proof. repeat constructor; simpl; intuition discriminate. Defined.

(** Two graphs with exactly one [api] node on which [run] does not
    return a success result: an edge into a missing node makes [run]
    raise [KeyError], a node that raises makes it return status "error". *)
Lemma run_one_api_counterexample :
  (unique_ids dangling_graph /\ exactly_one_api dangling_graph /\
   snd (run minimal_input (init dangling_graph)) = Raise (Exc "KeyError" "'ghost'"))
  /\
  (unique_ids raising_graph /\ exactly_one_api raising_graph /\
   snd (run minimal_input (init raising_graph)) =
     Ok {| res_status := Some "error";
           res_response := None;
           res_message := None;
           res_error := Some "'int' object has no attribute 'replace'";
           res_logs := Some ["Started execution at New api";
                             "Executing Node: api (api-1)";
                             "Executing Node: logic (check)";
                             "Error executing node check: 'int' object has no attribute 'replace'"];
           res_context := None |}).
Proof.
  split; (split; [ | split; reflexivity ]).
  - exact unique_ids_dangling.
  - exact unique_ids_raising.
Qed.

(** The run on [raising_graph] when it is about to execute the logic
    node: one wave done, the [api] node executed. *)
Lemma about_to_execute_check :
  about_to_execute minimal_input (init raising_graph) 1 "check"
    (append_log "Executing Node: api (api-1)"
                (entry_state minimal_input api_node (init raising_graph))).
Proof.
  exists api_node, (init raising_graph),
    (append_log "Executing Node: api (api-1)"
                (entry_state minimal_input api_node (init raising_graph))),
    [], [], [].
  split; [reflexivity | ]. split; [reflexivity | ].
  split; [ | split; [ unfold max_waves; lia | reflexivity ] ].
  eapply reaches_step; [discriminate | reflexivity | apply reaches_here ].
Defined.

(** A node that raises makes [run] return the error result in its
    second wave. *)
Lemma run_one_api_witness :
  exists s',
    run_counted minimal_input (init raising_graph)
    = (s', Ok (2%nat, {| res_status := Some "error";
                         res_response := None;
                         res_message := None;
                         res_error := Some "'int' object has no attribute 'replace'";
                         res_logs := Some (execution_log s');
                         res_context := None |})).
Proof.
  eexists.
  eapply (proj1 (proj2 (proj1 (proj2 (proj2 (proj2 (run_one_api raising_graph
                                                     minimal_input unique_ids_raising
                                                     eq_refl))))
                         1%nat "check" _ about_to_execute_check))
           (mk "check" "logic" [("condition", VInt 1)]) _ "AttributeError"
           "'int' object has no attribute 'replace'");
    reflexivity.
Defined.

(** A run that ends in a response returns the Context too. *)
Lemma response_ends_run_counterexample :
  snd (run minimal_input (init greeting_graph)) =
    Ok {| res_status := Some "success";
          res_response := Some (VStr "hello");
          res_message := None;
          res_error := None;
          res_logs := Some ["Set Variable 'greeting' = hello...";
                            "Started execution at New api";
                            "Executing Node: api (api-1)";
                            "Executing Node: response (out)"];
          res_context := Some [(VStr "greeting", VStr "hello");
                               (VStr "request", VDict minimal_input)] |}.
Proof. reflexivity. Qed.

(** The run on [greeting_graph] when it is about to execute the
    response node. *)
Lemma about_to_execute_out :
  about_to_execute minimal_input (init greeting_graph) 1 "out"
    (append_log "Executing Node: api (api-1)"
       (entry_state minimal_input api_node
          (fst (init_variables (nodes (init greeting_graph)) (init greeting_graph))))).
Proof.
  exists api_node,
    (fst (init_variables (nodes (init greeting_graph)) (init greeting_graph))),
    (append_log "Executing Node: api (api-1)"
       (entry_state minimal_input api_node
          (fst (init_variables (nodes (init greeting_graph)) (init greeting_graph))))),
    [], [], [].
  split; [reflexivity | ]. split; [reflexivity | ].
  split; [ | split; [ unfold max_waves; lia | reflexivity ] ].
  eapply reaches_step; [discriminate | reflexivity | apply reaches_here ].
Defined.

Lemma response_ends_run_witness :
  exists s',
    run minimal_input (init greeting_graph)
    = (s', Ok {| res_status := Some "success";
                 res_response := Some (VStr "hello");
                 res_message := None;
                 res_error := None;
                 res_logs := Some (execution_log s');
                 res_context := Some (context s') |}).
Proof.
  eexists.
  eapply (proj1 response_ends_run minimal_input (init greeting_graph) 1%nat "out" _
           (mk "out" "response" [("responseType", VStr "variable"); ("body", VStr "greeting")])
           _ (VStr "hello") about_to_execute_out);
    reflexivity.
Defined.

Lemma loop_over_three_items_witness :
  snd (execute_node numbers_loop with_numbers) = Ok (Some (OLoop "do"))
  /\ ctx_find (VStr "item") (context (execute_times 1 numbers_loop with_numbers))
     = Some (VInt 1)
  /\ snd (execute_node numbers_loop (execute_times 1 numbers_loop with_numbers))
     = Ok (Some (OLoop "do"))
  /\ ctx_find (VStr "item") (context (execute_times 2 numbers_loop with_numbers))
     = Some (VInt 2)
  /\ snd (execute_node numbers_loop (execute_times 2 numbers_loop with_numbers))
     = Ok (Some (OLoop "do"))
  /\ ctx_find (VStr "item") (context (execute_times 3 numbers_loop with_numbers))
     = Some (VInt 3)
  /\ snd (execute_node numbers_loop (execute_times 3 numbers_loop with_numbers))
     = Ok (Some (OLoop "done"))
  /\ loop_index (context (execute_times 4 numbers_loop with_numbers)) "each"
     = Some (VInt 0).
Proof.
  apply (loop_over_three_items numbers_loop with_numbers).
  - reflexivity.
  - repeat split.
  - reflexivity.
  - intros k Hk. do 4 (destruct k as [ | k ]; [reflexivity | ]). lia.
Defined.

Lemma resolve_exact_reference_witness :
  exists key,
    "{greeting}" = "{" ++ key ++ "}" /\
    PyStr.count_char "{" key = 0%nat /\
    _resolve_val [(VStr "greeting", VList [VInt 1; VBool true])] (VStr "{greeting}") =
      match ctx_find (VStr key) [(VStr "greeting", VList [VInt 1; VBool true])] with
      | Some stored => stored
      | None => VStr "{greeting}"
      end.
Proof.
  apply (resolve_exact_reference [(VStr "greeting", VList [VInt 1; VBool true])] "{greeting}");
    reflexivity.
Defined.

Lemma logic_errors_are_caught_witness :
  snd (execute_node (mk "same" "logic" [("condition", VStr "1 === 1")]) (init dangling_graph))
  = Ok (Some (OLogic true))
  /\ snd (execute_node (mk "big" "logic" [("condition", VStr "x > 10")]) (init dangling_graph))
     = Ok (Some (OLogic false)).
Proof.
  split.
  - apply (proj1 (proj2 (logic_errors_are_caught
                           (mk "same" "logic" [("condition", VStr "1 === 1")])
                           (init dangling_graph) eq_refl))).
    + reflexivity.
    + intros c. now exists c.
  - apply (proj2 (proj2 (logic_errors_are_caught
                           (mk "big" "logic" [("condition", VStr "x > 10")])
                           (init dangling_graph) eq_refl))).
    + reflexivity.
    + reflexivity.
    + intros c Hc. exists c, "name 'x' is not defined".
      unfold py_eval, Reference.runtime, Reference.eval.
      change (PyStr.split " " "x > 10") with ["x"; ">"; "10"]. cbv beta iota.
      unfold Reference.atom at 1.
      change (Reference.parse_int "x") with (@None Z). cbv beta iota.
      change ("x" =? "True")%string with false. change ("x" =? "False")%string with false.
      change (negb ("x" =? "")%string && Reference.is_name "x") with true.
      cbv beta iota. now rewrite Hc.
Defined.



Lemma run_without_api_witness :
  run minimal_input (init variables_only)
  = (fst (init_variables (nodes (init variables_only)) (init variables_only)),
     Ok no_entry_result)
  /\ ctx_mem (VStr "b")
             (context (fst (init_variables (nodes (init variables_only))
                                           (init variables_only)))) = true.
Proof.
  assert (Hno : forall id nd, In (id, nd) (nodes (init variables_only)) ->
                              node_type nd <> "api").
  { intros id nd [H | [H | []]]; injection H as _ <-; discriminate. }
  destruct (run_without_api minimal_input (init variables_only) _ Hno eq_refl)
    as (Hrun & _ & _ & _ & Hvars).
  split; [exact Hrun | ].
  apply (Hvars "v2" (mk "v2" "variable" [("name", VStr "b"); ("value", VStr "{a}")])).
  - right. left. reflexivity.
  - reflexivity.
  - reflexivity.
Defined.

Lemma math_unknown_operator_witness :
  execute_node power_node (init dangling_graph) =
    (append_log "Math: 2.0 ^ 5.0 = 0"
                (with_context [(VStr "total", VInt 0)] (init dangling_graph)),
     Ok None)
  /\ math_stored power_node (init dangling_graph) = Some (VInt 0).
Proof.
  exact (math_unknown_operator power_node (init dangling_graph) 2%float 5%float
           eq_refl eq_refl eq_refl eq_refl).
Defined.

(** C5 (the code departs from the claim). The number check of an
    interface node is [isinstance(val, (int, float))], and a Python
    boolean is an [int]: a field declared "number" whose value is a
    boolean is not collected into the invalid-type list.  With the body
    [{"age": true}] validation passes, while the string "old" in the
    same field is reported as invalid. *)
Theorem interface_accepts_boolean_as_number :
  (forall (r : PyRuntime) name b, @type_check r (VStr "number") name (VBool b) = None)
  /\ execute_node number_field with_boolean_age
     = (append_log "Interface Validation Passed" with_boolean_age, Ok None)
  /\ snd (execute_node number_field with_text_age)
     = Ok (Some (OResponse
         (VDict [("error", VStr "Bad Request");
                 ("message", VStr "Validation Error: Invalid types: age (expected number).");
                 ("details", VDict [("missing", VList []);
                                    ("invalid", VList [VStr "age (expected number)"])])]))).
Proof. repeat split. Qed.

End AtWork.

(* ================================================================== *)
(** * Further properties *)

(** ** The tables [__init__] builds *)

Lemma add_edge_get (src : string) (e : edge)
      (acc : list (string * list (string * option string))) :
  dict_get_default src [] (add_edge acc e)
  = (dict_get_default src [] acc ++ edges_from src [e])%list.
Proof.
  unfold add_edge, dict_get_default, edges_from. rewrite dict_get_set.
  cbn [filter map]. destruct (String.eqb (source e) src) eqn:E.
  - apply String.eqb_eq in E. now subst src.
  - cbn [map]. now rewrite app_nil_r.
Qed.

Lemma fold_add_edge_get (src : string) (es : list edge) :
  forall acc,
    dict_get_default src [] (fold_left add_edge es acc)
    = (dict_get_default src [] acc ++ edges_from src es)%list.
Proof.
  induction es as [ | e es IH ]; intros acc; cbn [fold_left].
  - unfold edges_from. cbn. now rewrite app_nil_r.
  - rewrite IH, add_edge_get, <- app_assoc. f_equal.
    unfold edges_from. cbn [filter]. destruct (String.eqb (source e) src); reflexivity.
Qed.

Lemma fold_add_edge_none (src : string) (es : list edge) :
  forall acc,
    dict_get src (fold_left add_edge es acc) = None
    <-> dict_get src acc = None /\ forall e, In e es -> source e <> src.
Proof.
  induction es as [ | e es IH ]; intros acc; cbn [fold_left].
  - split; [intros H; split; [exact H | intros ? [] ] | intros [H _]; exact H ].
  - rewrite IH. unfold add_edge. rewrite dict_get_set.
    destruct (String.eqb (source e) src) eqn:E.
    + apply String.eqb_eq in E. split; [intros [H _]; discriminate | ].
      intros [_ H]. exfalso. apply (H e); [now left | exact E].
    + apply String.eqb_neq in E. split.
      * intros [H1 H2]. split; [exact H1 | ]. intros e' [<- | He']; auto.
      * intros [H1 H2]. split; [exact H1 | ]. intros e' He'. apply H2. now right.
Qed.

(** X1. The adjacency index lists, under each source id, the targets and
    handles of exactly the edges leaving that source, in the order of the
    edge list; a node without outgoing edge has no entry at all. *)
Theorem adjacency_lists_edges_in_order (g : workflow_data) (src : string) :
  dict_get_default src [] (adjacency (init g)) = edges_from src (wf_edges g)
  /\ (dict_get src (adjacency (init g)) = None
      <-> forall e, In e (wf_edges g) -> source e <> src).
Proof.
  unfold init. cbn [adjacency]. split.
  - now rewrite fold_add_edge_get.
  - rewrite fold_add_edge_none. split; [intros [_ H]; exact H | intros H; now split].
Qed.

Lemma find_last {A} (f : A -> bool) (l : list A) (x : A) :
  find f (l ++ [x]) = match find f l with
                      | Some y => Some y
                      | None => if f x then Some x else None
                      end.
Proof.
  induction l as [ | a l IH ]; cbn [app find]; [reflexivity | ].
  destruct (f a); [reflexivity | exact IH].
Qed.

Lemma fold_nodes_get (id : string) (ns : list node) :
  forall acc,
    dict_get id (fold_left (fun d n => dict_set (node_id n) n d) ns acc)
    = match find (fun n => String.eqb (node_id n) id) (rev ns) with
      | Some n => Some n
      | None => dict_get id acc
      end.
Proof.
  induction ns as [ | n ns IH ]; intros acc; cbn [fold_left rev].
  - reflexivity.
  - rewrite IH, find_last, dict_get_set.
    destruct (find (fun n0 => String.eqb (node_id n0) id) (rev ns)); [reflexivity | ].
    now destruct (String.eqb (node_id n) id).
Qed.

(** X2. The node table maps an id to the last node of the graph that
    carries it: a later node with the same id replaces an earlier one,
    and an id no node carries is absent. *)
Theorem node_table_last_wins (g : workflow_data) (id : string) :
  dict_get id (nodes (init g))
  = find (fun n => String.eqb (node_id n) id) (rev (wf_nodes g)).
Proof.
  unfold init. cbn [nodes]. rewrite fold_nodes_get.
  now destruct (find (fun n => String.eqb (node_id n) id) (rev (wf_nodes g))).
Qed.

(** ** Templates without references *)

Lemma contains_prefix (p s : string) : String.prefix p s = true -> PyStr.contains p s = true.
Proof.
  intros H. destruct s; cbn [PyStr.contains]; now rewrite H.
Qed.

Lemma contains_app_r (p t : string) : PyStr.contains p (t ++ p) = true.
Proof.
  induction t as [ | a t IH ]; cbn [append].
  - apply contains_prefix. induction p as [ | b p IHp ]; cbn; [reflexivity | ].
    destruct (ascii_dec b b); [exact IHp | congruence].
  - cbn [PyStr.contains]. rewrite IH. apply orb_true_r.
Qed.

Lemma is_exact_ref_contains (s : string) :
  is_exact_ref s = true -> PyStr.contains "{" s = true /\ PyStr.contains "}" s = true.
Proof.
  unfold is_exact_ref. intros H.
  apply andb_prop in H. destruct H as [H _]. apply andb_prop in H. destruct H as [Hs He].
  split.
  - now apply contains_prefix.
  - apply endswith_char in He. destruct He as [t ->]. apply contains_app_r.
Qed.

Section Templates.
Context {rt : PyRuntime}.

Lemma interpolate_unbound (c : Ctx) (s : string) :
  (forall k v, In (k, v) c -> PyStr.contains (placeholder k) s = false) ->
  interpolate c s = s.
Proof.
  unfold interpolate. induction c as [ | [k v] c IH ]; intros H; cbn [fold_left fst snd].
  - reflexivity.
  - rewrite (H k v) by now left. apply IH. intros k' v' Hin. apply (H k' v'). now right.
Qed.

(** X3. [_resolve_val] returns unchanged every value that is not a
    string, every string that lacks an opening or a closing brace, and
    every string that is not a single reference and in which no
    [{key}] of the Context occurs. *)
Theorem resolve_leaves_plain_values (c : Ctx) :
  (forall v, is_str v = false -> _resolve_val c v = v)
  /\ (forall s, PyStr.contains "{" s = false \/ PyStr.contains "}" s = false ->
                _resolve_val c (VStr s) = VStr s)
  /\ (forall s, is_exact_ref s = false ->
                (forall k v, In (k, v) c -> PyStr.contains (placeholder k) s = false) ->
                _resolve_val c (VStr s) = VStr s).
Proof.
  repeat split.
  - intros v Hv. destruct v; try reflexivity. discriminate.
  - intros s Hs. unfold _resolve_val.
    destruct (is_exact_ref s) eqn:Href.
    + apply is_exact_ref_contains in Href. destruct Href as [H1 H2].
      destruct Hs as [Hs | Hs]; congruence.
    + destruct Hs as [-> | ->]; [reflexivity | ].
      now rewrite andb_false_r.
  - intros s Href Hun. unfold _resolve_val. rewrite Href.
    destruct (PyStr.contains "{" s && PyStr.contains "}" s); [ | reflexivity ].
    now rewrite interpolate_unbound.
Qed.

End Templates.

(** ** Variable nodes *)

Section Variables.
Context {rt : PyRuntime}.

Lemma execute_variable_named (data : list (string * value)) (self : WorkflowExecutor) :
  truthy (dict_get_default "name" VNone data) = true ->
  execute_variable data self =
    if hashable (dict_get_default "name" VNone data)
    then (append_log ("Set Variable '" ++ py_str (dict_get_default "name" VNone data) ++ "' = "
                      ++ PyStr.take 50 (py_str (variable_value (context self) data)) ++ "...")
                     (with_context (ctx_set (dict_get_default "name" VNone data)
                                            (variable_value (context self) data)
                                            (context self)) self),
          Ok None)
    else (self, Raise (unhashable (dict_get_default "name" VNone data))).
Proof.
  intros Hn. unfold execute_variable, variable_value. rewrite Hn.
  unfold bind, get_context, context_setitem, log, ret. cbv beta iota zeta.
  destruct (hashable (dict_get_default "name" VNone data));
    destruct (dict_get_default "value" VNone data); reflexivity.
Qed.

(** X4. A [variable] node without a usable name (absent, null, empty,
    zero or false) does nothing at all.  With a name it binds the name in
    the Context and adds one log entry, whatever the configured value:
    a failed JSON parse keeps the string.  The only failure is a name
    that cannot be a key (a list or an object), which raises [TypeError]
    before anything is written. *)
Theorem variable_binds_or_skips (data : list (string * value)) (self : WorkflowExecutor) :
  (truthy (dict_get_default "name" VNone data) = false ->
   execute_variable data self = (self, Ok None))
  /\ (truthy (dict_get_default "name" VNone data) = true ->
      hashable (dict_get_default "name" VNone data) = true ->
      snd (execute_variable data self) = Ok None
      /\ ctx_find (dict_get_default "name" VNone data)
                  (context (fst (execute_variable data self)))
         = Some (variable_value (context self) data)
      /\ List.length (execution_log (fst (execute_variable data self)))
         = S (List.length (execution_log self)))
  /\ (truthy (dict_get_default "name" VNone data) = true ->
      hashable (dict_get_default "name" VNone data) = false ->
      execute_variable data self
      = (self, Raise (unhashable (dict_get_default "name" VNone data)))).
Proof.
  repeat split.
  - intros Hn. unfold execute_variable. now rewrite Hn.
  - rewrite (execute_variable_named data self H), H0. reflexivity.
  - rewrite (execute_variable_named data self H), H0. cbn [fst context with_context append_log with_log].
    now apply ctx_find_set_same.
  - rewrite (execute_variable_named data self H), H0.
    cbn [fst execution_log with_context append_log with_log].
    rewrite List.length_app. cbn. lia.
  - intros Hn Hh. now rewrite (execute_variable_named data self Hn), Hh.
Qed.

(** X5. A [variable] node whose value is a single reference [{key}]
    takes over the value bound to [key] with its type: a stored list,
    object, number or boolean is assigned as it is, not as text.  When
    [key] is unbound and the declared type is neither [json] nor [array],
    the template itself is assigned. *)
Theorem variable_reference_keeps_type (data : list (string * value)) (c : Ctx) (s : string) :
  dict_get_default "value" VNone data = VStr s ->
  PyStr.startswith "{" s = true ->
  PyStr.endswith "}" s = true ->
  PyStr.count_char "{" s = 1%nat ->
  exists key,
    s = "{" ++ key ++ "}"
    /\ (forall stored, ctx_find (VStr key) c = Some stored -> is_str stored = false ->
                       variable_value c data = stored)
    /\ (ctx_find (VStr key) c = None ->
        eq_str (dict_get_default "type" (VStr "string") data) "json" = false ->
        eq_str (dict_get_default "type" (VStr "string") data) "array" = false ->
        variable_value c data = VStr s).
Proof.
  intros Hv Hs He Hc.
  assert (Href : is_exact_ref s = true).
  { unfold is_exact_ref. now rewrite Hs, He, Hc. }
  destruct (is_exact_ref_inv s Href) as [key [-> Hk]].
  exists key. split; [reflexivity | ].
  unfold variable_value. rewrite Hv, Href, slice_inner_braces. cbv zeta. split.
  - intros stored Hf Hstr. rewrite Hf. destruct stored; try reflexivity. discriminate.
  - intros Hf Hj Ha. rewrite Hf, Hj, Ha. reflexivity.
Qed.

End Variables.

(** ** Math nodes: every path of the [try] block *)

Section MathPaths.
Context {rt : PyRuntime}.

Lemma execute_math_paths (nd : node) (self : WorkflowExecutor) :
  execute_math (node_data nd) self =
    match math_value (context self) nd with
    | Ok (num_a, num_b, stored) =>
        if hashable (math_result_var nd)
        then (append_log ("Math: " ++ py_str (VFloat num_a) ++ " " ++ py_str (math_op nd)
                          ++ " " ++ py_str (VFloat num_b) ++ " = " ++ py_str stored)
                         (with_context (ctx_set (math_result_var nd) stored (context self))
                                       self),
              Ok None)
        else math_fallback nd self
    | Raise (Exc _ _) => math_fallback nd self
    | Raise (BaseExc cls msg) => (self, Raise (BaseExc cls msg))
    end.
Proof.
  unfold math_value, math_operands, math_fallback, math_op, math_result_var, execute_math.
  unfold bind at 1. unfold get_context at 1. cbv beta iota zeta.
  unfold try_except, bind, lift, ret, context_setitem, log, unhashable.
  destruct (hashable (dict_get_default "resultVar" (VStr "result") (node_data nd)));
    destruct (to_float (_resolve_val (context self)
                          (dict_get_default "valA" VNone (node_data nd))))
      as [a | [cls msg | cls msg]]; cbn [pyres_bind];
    try (destruct (eq_str (dict_get_default "op" (VStr "+") (node_data nd)) "+");
         reflexivity);
    destruct (to_float (_resolve_val (context self)
                          (dict_get_default "valB" VNone (node_data nd))))
      as [b | [cls msg | cls msg]]; cbn [pyres_bind fst snd];
    try (destruct (eq_str (dict_get_default "op" (VStr "+") (node_data nd)) "+");
         reflexivity);
    destruct (math_apply (dict_get_default "op" (VStr "+") (node_data nd)) a b)
      as [res | [cls msg | cls msg]]; cbn [pyres_bind];
    try (destruct (eq_str (dict_get_default "op" (VStr "+") (node_data nd)) "+");
         reflexivity);
    destruct (PyFloat.is_integer a && PyFloat.is_integer b); cbn [pyres_bind];
    try (destruct (eq_str (dict_get_default "op" (VStr "+") (node_data nd)) "+");
         reflexivity);
    destruct (math_clean res) as [stored | [cls msg | cls msg]]; cbn [pyres_bind];
    destruct (eq_str (dict_get_default "op" (VStr "+") (node_data nd)) "+");
    reflexivity.
Qed.

(** Nothing in the [try] block raises anything but an [Exception], as
    long as [float] of a string does not. *)
Lemma math_value_raises_exception (c : Ctx) (nd : node) (e : pyexn) :
  (forall s e', float_of_str s = Raise e' -> is_Exception e' = true) ->
  math_value c nd = Raise e -> is_Exception e = true.
Proof.
  intros Hf. unfold math_value, math_operands.
  assert (Hto : forall v e', to_float v = Raise e' -> is_Exception e' = true).
  { intros v e' H. destruct v as [ | bb | z | f | s | xs | d ]; cbn [to_float] in H;
      try discriminate; try (injection H as <-; reflexivity).
    - unfold PyFloat.of_int in H.
      destruct (binary_normalize prec emax z 0 false); try discriminate.
      now injection H as <-.
    - eauto. }
  destruct (to_float (_resolve_val c (dict_get_default "valA" VNone (node_data nd))))
    as [a | e1] eqn:Ha; cbn [pyres_bind].
  2: { intros H. injection H as <-. eauto. }
  destruct (to_float (_resolve_val c (dict_get_default "valB" VNone (node_data nd))))
    as [b | e1] eqn:Hb; cbn [pyres_bind fst snd].
  2: { intros H. injection H as <-. eauto. }
  destruct (math_apply (math_op nd) a b) as [res | e1] eqn:Hres; cbn [pyres_bind].
  2: { intros H. injection H as <-. unfold math_apply in Hres.
       repeat match type of Hres with
              | (if ?b then _ else _) = _ => destruct b; try discriminate
              end.
       unfold PyFloat.mod_ in Hres.
       destruct (PrimFloat.eqb b 0%float); cbn in Hres.
       - now injection Hres as <-.
       - repeat match type of Hres with
                | context [if ?b then _ else _] => destruct b; cbn in Hres
                end; discriminate. }
  assert (Hint : forall v e', to_int v = Raise e' -> is_Exception e' = true).
  { intros v e' H. destruct v as [ | bb | z | f | s | xs | d ]; cbn [to_int] in H;
      try discriminate; try (injection H as <-; reflexivity).
    unfold PyFloat.to_int in H.
    destruct (Prim2SF f); try discriminate; now injection H as <-. }
  destruct (PyFloat.is_integer a && PyFloat.is_integer b); cbn [pyres_bind];
    [ | discriminate ].
  unfold math_clean.
  destruct (to_int res) as [n | e1] eqn:Hn; cbn [pyres_bind].
  2: { intros H. injection H as <-. eauto. }
  destruct (to_int (if negb (num_eq_int res n) then VInt n else res)) as [n' | e1] eqn:Hn';
    cbn [pyres_bind]; [discriminate | ].
  intros H. injection H as <-. eauto.
Qed.

End MathPaths.

Lemma math_clean_truncates (res : value) (n : Z) :
  to_int res = Ok n -> math_clean res = Ok (VInt n).
Proof.
  intros Hn. unfold math_clean. rewrite Hn. cbn [pyres_bind].
  destruct (num_eq_int res n) eqn:E; cbn [negb].
  - rewrite Hn. cbn [pyres_bind]. now rewrite E.
  - cbn [to_int pyres_bind num_eq_int]. now rewrite Z.eqb_refl.
Qed.

Section MathEdges.
Context {rt : PyRuntime}.

Lemma math_stored_paths (nd : node) (self : WorkflowExecutor) :
  node_type nd = "math" ->
  execute_node nd self =
    match math_value (context self) nd with
    | Ok (num_a, num_b, stored) =>
        if hashable (math_result_var nd)
        then (append_log ("Math: " ++ py_str (VFloat num_a) ++ " " ++ py_str (math_op nd)
                          ++ " " ++ py_str (VFloat num_b) ++ " = " ++ py_str stored)
                         (with_context (ctx_set (math_result_var nd) stored (context self))
                                       self),
              Ok None)
        else math_fallback nd self
    | Raise (Exc _ _) => math_fallback nd self
    | Raise (BaseExc cls msg) => (self, Raise (BaseExc cls msg))
    end.
Proof.
  intros Ht. rewrite (execute_node_math nd Ht). apply execute_math_paths.
Qed.

(** X6. Division by zero is no failure: a math node with the operator
    "/" and a second operand equal to zero stores the integer 0 under its
    [resultVar] and raises nothing. *)
Theorem math_division_by_zero (nd : node) (self : WorkflowExecutor) (num_a num_b : float) :
  node_type nd = "math" ->
  math_operands (context self) nd = Ok (num_a, num_b) ->
  math_op nd = VStr "/" ->
  PrimFloat.eqb num_b 0%float = true ->
  hashable (math_result_var nd) = true ->
  snd (execute_node nd self) = Ok None
  /\ math_stored nd self = Some (VInt 0).
Proof.
  intros Ht Hab Hop Hz Hh. unfold math_stored.
  rewrite (math_stored_paths nd self Ht).
  unfold math_value. rewrite Hab, Hop. cbn [pyres_bind fst snd].
  unfold math_apply. cbn [eq_str String.eqb Ascii.eqb Bool.eqb]. rewrite Hz.
  cbn [pyres_bind].
  replace (if PyFloat.is_integer num_a && PyFloat.is_integer num_b
           then math_clean (VInt 0) else Ok (VInt 0)) with (@Ok value (VInt 0))
    by now destruct (PyFloat.is_integer num_a && PyFloat.is_integer num_b).
  cbn [pyres_bind]. rewrite Hh. split; [reflexivity | ].
  cbn [fst context with_context append_log with_log]. now apply ctx_find_set_same.
Qed.

(** X7. The remainder by zero is handled differently: with the operator
    "%" and a second operand equal to zero the node stores nothing, the
    Context stays as it was, and the log gets a [Math Error] entry; the
    run goes on. *)
Theorem math_modulo_by_zero (nd : node) (self : WorkflowExecutor) (num_a num_b : float) :
  node_type nd = "math" ->
  math_operands (context self) nd = Ok (num_a, num_b) ->
  math_op nd = VStr "%" ->
  PrimFloat.eqb num_b 0%float = true ->
  execute_node nd self =
    (append_log ("Math Error: Could not process "
                 ++ py_str (_resolve_val (context self)
                                         (dict_get_default "valA" VNone (node_data nd)))
                 ++ " % "
                 ++ py_str (_resolve_val (context self)
                                         (dict_get_default "valB" VNone (node_data nd))))
                self,
     Ok None).
Proof.
  intros Ht Hab Hop Hz.
  rewrite (math_stored_paths nd self Ht).
  unfold math_value. rewrite Hab. cbn [pyres_bind fst snd]. rewrite Hop.
  unfold math_apply. cbn [eq_str String.eqb Ascii.eqb Bool.eqb].
  unfold PyFloat.mod_. rewrite Hz. cbn [pyres_bind].
  unfold math_fallback. rewrite Hop. reflexivity.
Qed.

(** X8. When an operand does not coerce to a number, the operator "+"
    falls back to text: the concatenation of the two operands as strings
    is stored.  Any other operator stores nothing and logs a [Math Error]
    entry.  Neither case raises. *)
Theorem math_coercion_failure (nd : node) (self : WorkflowExecutor) (cls msg : string) :
  node_type nd = "math" ->
  math_operands (context self) nd = Raise (Exc cls msg) ->
  (math_op nd = VStr "+" ->
   hashable (math_result_var nd) = true ->
   snd (execute_node nd self) = Ok None
   /\ math_stored nd self
      = Some (VStr (py_str (_resolve_val (context self)
                                         (dict_get_default "valA" VNone (node_data nd)))
                    ++ py_str (_resolve_val (context self)
                                            (dict_get_default "valB" VNone (node_data nd))))))
  /\ (eq_str (math_op nd) "+" = false ->
      snd (execute_node nd self) = Ok None
      /\ context (fst (execute_node nd self)) = context self).
Proof.
  intros Ht Hab. unfold math_stored.
  rewrite (math_stored_paths nd self Ht).
  unfold math_value. rewrite Hab. cbn [pyres_bind]. unfold math_fallback. split.
  - intros Hop Hh. rewrite Hop, Hh. cbn [eq_str String.eqb Ascii.eqb Bool.eqb].
    split; [reflexivity | ].
    cbn [fst context with_context append_log with_log]. now apply ctx_find_set_same.
  - intros Hop. rewrite Hop. split; reflexivity.
Qed.

(** [int] of a value raises nothing but an [Exception]. *)
Lemma to_int_raises (v : value) (e : pyexn) :
  to_int v = Raise e -> exists cls msg, e = Exc cls msg.
Proof.
  destruct v as [ | b | z | f | s | xs | d ]; cbn [to_int]; intros H;
    try discriminate H; try (injection H as <-; eauto).
  unfold PyFloat.to_int in H.
  destruct (Prim2SF f); try discriminate H; injection H as <-; eauto.
Qed.

(** X9. When both operands are whole numbers, a number is never stored
    with a fraction: whenever [int] applies to the computed result (it is
    finite), what is stored is that result truncated towards zero, so a
    fractional quotient loses its fraction (7 / 2 stores 3).  When the
    result is infinite or not a number, [int] raises inside the [try]
    block and the node takes its [except] branch: "+" stores the two
    operands as one text, any other operator stores nothing.  The node
    raises in neither case. *)
Theorem math_whole_operands_truncate (nd : node) (self : WorkflowExecutor)
        (num_a num_b : float) (res : value) :
  node_type nd = "math" ->
  hashable (math_result_var nd) = true ->
  math_operands (context self) nd = Ok (num_a, num_b) ->
  PyFloat.is_integer num_a = true ->
  PyFloat.is_integer num_b = true ->
  math_apply (math_op nd) num_a num_b = Ok res ->
  snd (execute_node nd self) = Ok None
  /\ match to_int res with
     | Ok n => math_stored nd self = Some (VInt n)
     | Raise _ =>
         (eq_str (math_op nd) "+" = true ->
          math_stored nd self
          = Some (VStr (py_str (_resolve_val (context self)
                                             (dict_get_default "valA" VNone (node_data nd)))
                        ++ py_str (_resolve_val (context self)
                                                (dict_get_default "valB" VNone
                                                                  (node_data nd))))))
         /\ (eq_str (math_op nd) "+" = false ->
             context (fst (execute_node nd self)) = context self)
     end.
Proof.
  intros Ht Hh Hab Ha Hb Hres. unfold math_stored.
  rewrite (math_stored_paths nd self Ht).
  unfold math_value. rewrite Hab. cbn [pyres_bind fst snd].
  rewrite Hres, Ha, Hb. cbn [pyres_bind andb].
  destruct (to_int res) as [n | e] eqn:Hn.
  - rewrite (math_clean_truncates res n Hn). cbn [pyres_bind]. rewrite Hh.
    cbn [fst snd context with_context append_log with_log].
    split; [reflexivity | now apply ctx_find_set_same].
  - destruct (to_int_raises res e Hn) as (cls & msg & ->).
    unfold math_clean. rewrite Hn. cbn [pyres_bind].
    unfold math_fallback. rewrite Hh.
    destruct (eq_str (math_op nd) "+");
      cbn [fst snd context with_context append_log with_log].
    + split; [reflexivity | split; [ | discriminate ] ].
      intros _. now apply ctx_find_set_same.
    + split; [reflexivity | split; [discriminate | reflexivity ] ].
Qed.

(** X10. A math node never fails a run: whatever its operands and its
    operator, it returns without outcome and without raising, provided
    its [resultVar] can be a key and [float] of a string raises nothing
    but an [Exception]. *)
Theorem math_never_raises (nd : node) (self : WorkflowExecutor) :
  node_type nd = "math" ->
  hashable (math_result_var nd) = true ->
  (forall s e, float_of_str s = Raise e -> is_Exception e = true) ->
  snd (execute_node nd self) = Ok None.
Proof.
  intros Ht Hh Hf.
  rewrite (math_stored_paths nd self Ht).
  destruct (math_value (context self) nd) as [[[a b] stored] | e] eqn:Hv.
  - now rewrite Hh.
  - apply (math_value_raises_exception _ _ _ Hf) in Hv.
    destruct e as [cls msg | cls msg]; [ | discriminate ].
    unfold math_fallback. rewrite Hh.
    now destruct (eq_str (math_op nd) "+").
Qed.

End MathEdges.

(** ** Nodes that only read the Context *)

Section Readers.
Context {rt : PyRuntime}.

Lemma Keeps_ret {A} (a : A) : KeepsContext (ret a).
Proof. intros s. reflexivity. Qed.

Lemma Keeps_lift {A} (r : pyres A) : KeepsContext (lift r).
Proof. intros s. reflexivity. Qed.

Lemma Keeps_raise {A} (e : pyexn) : KeepsContext (@raise A e).
Proof. intros s. reflexivity. Qed.

Lemma Keeps_get_context : KeepsContext get_context.
Proof. intros s. reflexivity. Qed.

Lemma Keeps_log (line : string) : KeepsContext (log line).
Proof. intros s. reflexivity. Qed.

Lemma Keeps_bind {A B} (m : M A) (k : A -> M B) :
  KeepsContext m -> (forall a, KeepsContext (k a)) -> KeepsContext (bind m k).
Proof.
  intros Hm Hk s. unfold bind. specialize (Hm s).
  destruct (m s) as [s' [a | e]]; cbn [fst] in *; [ | exact Hm ].
  now rewrite Hk.
Qed.

Lemma Keeps_try_except {A} (body : M A) (handler : pyexn -> M A) :
  KeepsContext body -> (forall e, KeepsContext (handler e)) ->
  KeepsContext (try_except body handler).
Proof.
  intros Hb Hh s. unfold try_except. specialize (Hb s).
  destruct (body s) as [s' [a | [cls msg | cls msg]]]; cbn [fst] in *; try exact Hb.
  now rewrite Hh.
Qed.

Ltac keeps_step :=
  match goal with
  | |- KeepsContext (bind _ _) => apply Keeps_bind; [ | intros ? ]
  | |- KeepsContext (try_except _ _) => apply Keeps_try_except; [ | intros ? ]
  | |- KeepsContext (if ?b then _ else _) => destruct b
  | |- KeepsContext (match ?x with _ => _ end) => destruct x
  | |- KeepsContext (let (_, _) := ?x in _) => destruct x
  | |- KeepsContext _ =>
      solve [ apply Keeps_ret | apply Keeps_lift | apply Keeps_raise
            | apply Keeps_get_context | apply Keeps_log ]
  end.

Lemma Keeps_execute_interface data : KeepsContext (execute_interface data).
Proof. unfold execute_interface. repeat keeps_step. Qed.

Lemma Keeps_execute_function data : KeepsContext (execute_function data).
Proof. unfold execute_function. repeat keeps_step. Qed.

Lemma Keeps_execute_response data : KeepsContext (execute_response data).
Proof. unfold execute_response. repeat keeps_step. Qed.

(** X11. Only [variable], [logic], [math], [data_op] and [loop] nodes
    can change the Context.  An [api], [interface], [function] or
    [response] node, and a node of any unknown type, leaves every
    variable as it was, also when it raises. *)
Theorem readers_keep_context (nd : node) (self : WorkflowExecutor) :
  writes_context (node_type nd) = false ->
  context (fst (execute_node nd self)) = context self.
Proof.
  unfold writes_context. cbn [existsb]. intros H.
  repeat (apply orb_false_elim in H; destruct H as [? H]).
  unfold execute_node.
  repeat match goal with
         | E : String.eqb (node_type nd) ?t = false |- _ => rewrite E; clear E
         end.
  repeat match goal with
         | |- context [if ?b then _ else _] => destruct b
         end;
    first [ reflexivity
          | apply Keeps_execute_interface
          | apply Keeps_execute_function
          | apply Keeps_execute_response ].
Qed.

End Readers.

(** ** Response nodes *)

Section Responses.
Context {rt : PyRuntime}.

(** X12. A [response] node is terminal: whenever it returns, it returns
    a response outcome.  With a [responseType] other than "variable" it
    raises no [Exception]: when the substitution or the parse fails, the
    payload is the object [{"raw": body, "error": "JSON parse error"}]
    with the configured body as it was written, and the failure is
    logged. *)
Theorem response_is_terminal (data : list (string * value)) (self : WorkflowExecutor) :
  (forall r, snd (execute_response data self) = Ok r ->
             exists payload, r = Some (OResponse payload))
  /\ (eq_str (dict_get_default "responseType" (VStr "json") data) "variable" = false ->
      (forall e, snd (execute_response data self) = Raise e -> is_Exception e = false)
      /\ (forall cls msg,
             pyres_bind (substitute_body (context self)
                                         (dict_get_default "body" (VStr "{}") data)) loads
             = Raise (Exc cls msg) ->
             execute_response data self =
               (append_log ("Error parsing response body: " ++ msg) self,
                Ok (Some (OResponse
                            (VDict [("raw", dict_get_default "body" (VStr "{}") data);
                                    ("error", VStr "JSON parse error")])))))).
Proof.
  unfold execute_response, try_except, bind, get_context, lift, ret, log.
  cbv beta iota.
  destruct (eq_str (dict_get_default "responseType" (VStr "json") data) "variable").
  - split; [ | discriminate ].
    intros r.
    destruct (ctx_get (dict_get_default "body" (VStr "{}") data) (context self))
      as [val | e]; [ | discriminate ].
    destruct (dict_get_default "body" (VStr "{}") data) as [ | | | | var_name | | ];
      try (cbn [snd]; intros H; injection H as <-; eexists; reflexivity).
    destruct (negb (truthy val) && PyStr.startswith "{" var_name
              && PyStr.endswith "}" var_name).
    + destruct (ctx_get (VStr (PyStr.strip "{}" var_name)) (context self)) as [val' | e];
        [ | discriminate ].
      cbn [snd]. intros H. injection H as <-. eexists. reflexivity.
    + cbn [snd]. intros H. injection H as <-. eexists. reflexivity.
  - destruct (substitute_body (context self) (dict_get_default "body" (VStr "{}") data))
      as [final_body | [cls msg | cls msg]]; cbn [pyres_bind snd fst].
    + destruct (loads final_body) as [parsed | [cls msg | cls msg]]; cbn [snd fst].
      * split; [intros r H; injection H as <-; eexists; reflexivity | intros _ ].
        split; [discriminate | discriminate].
      * split; [intros r H; injection H as <-; eexists; reflexivity | intros _ ].
        split; [discriminate | ].
        intros cls' msg' H. injection H as _ <-. reflexivity.
      * split; [discriminate | intros _ ].
        split; [intros e H; injection H as <-; reflexivity | discriminate].
    + split; [intros r H; injection H as <-; eexists; reflexivity | intros _ ].
      split; [discriminate | ].
      intros cls' msg' H. injection H as _ <-. reflexivity.
    + split; [discriminate | intros _ ].
      split; [intros e H; injection H as <-; reflexivity | discriminate].
Qed.

(** X13. With [responseType] "variable" the payload is the value bound
    to the configured name, as it is stored: a list stays a list, a
    number a number.  The Context and the log are left alone. *)
Theorem response_variable_is_typed (data : list (string * value)) (self : WorkflowExecutor)
        (name : string) (stored : value) :
  eq_str (dict_get_default "responseType" (VStr "json") data) "variable" = true ->
  dict_get_default "body" (VStr "{}") data = VStr name ->
  ctx_find (VStr name) (context self) = Some stored ->
  truthy stored = true ->
  execute_response data self = (self, Ok (Some (OResponse stored))).
Proof.
  intros Ht Hb Hf Hv. unfold execute_response.
  unfold bind, get_context, lift, ret. cbv beta iota.
  rewrite Ht, Hb. unfold ctx_get. cbn [hashable is_list is_dict orb negb].
  rewrite Hf, Hv. reflexivity.
Qed.

End Responses.

(** ** Data aggregation nodes *)

Section DataOp.
Context {rt : PyRuntime}.

Lemma execute_node_data_op (nd : node) :
  node_type nd = "data_op" -> execute_node nd = execute_data_op (node_data nd).
Proof. intros H. unfold execute_node. now rewrite H. Qed.

(** Without numbers every aggregate but [count] is the integer 0. *)
Lemma aggregate_no_numbers (op : value) (items : list value) :
  aggregate op items [] =
    Ok (VInt (if eq_str op "count" then Z.of_nat (List.length items) else 0)).
Proof.
  unfold aggregate.
  destruct (eq_str op "count"); [reflexivity | ].
  destruct (eq_str op "sum"); [reflexivity | ].
  destruct (eq_str op "avg"); [reflexivity | ].
  destruct (eq_str op "min"); [reflexivity | ].
  destruct (eq_str op "max"); reflexivity.
Qed.

(** The run of the node once its collection is a list and the aggregate
    is an integer. *)
Lemma execute_data_op_int (nd : node) (self : WorkflowExecutor) (xs : list value) (n : Z) :
  data_op_collection (context self) (node_data nd) = VList xs ->
  aggregate (data_op_op nd) xs (extract_numbers xs) = Ok (VInt n) ->
  hashable (data_op_result_var nd) = true ->
  execute_data_op (node_data nd) self =
    (append_log ("Data Op: " ++ py_str (data_op_op nd) ++ "(len="
                 ++ PyStr.of_Z (Z.of_nat (List.length xs)) ++ ") = " ++ py_str (VInt n))
       (with_context (ctx_set (data_op_result_var nd) (VInt n) (context self)) self),
     Ok None).
Proof.
  intros Hc Ha Hh. unfold execute_data_op.
  fold (data_op_op nd). fold (data_op_result_var nd).
  unfold bind at 1. unfold get_context at 1. cbv beta iota.
  change (match _resolve_val (context self)
                  (dict_get_default "collection" (VStr "") (node_data nd)) with
          | VStr s =>
              match ctx_find (_resolve_val (context self)
                      (dict_get_default "collection" (VStr "") (node_data nd)))
                      (context self) with
              | Some v => v
              | None =>
                  if String.eqb s "body"
                  then match ctx_find (VStr "body") (context self) with
                       | Some v => v | None => VList [] end
                  else _resolve_val (context self)
                         (dict_get_default "collection" (VStr "") (node_data nd))
              end
          | _ => _resolve_val (context self)
                   (dict_get_default "collection" (VStr "") (node_data nd))
          end) with (data_op_collection (context self) (node_data nd)).
  rewrite Hc. unfold bind, ret, lift, log, context_setitem. cbv beta iota.
  rewrite Ha. cbn [clean_int]. cbv beta iota. cbn [context with_context].
  rewrite Hh. reflexivity.
Qed.

(** The run of the node on anything that is no list. *)
Lemma execute_data_op_non_list (nd : node) (self : WorkflowExecutor) :
  is_list (data_op_collection (context self) (node_data nd)) = false ->
  hashable (data_op_result_var nd) = true ->
  execute_data_op (node_data nd) self =
    let s1 := append_log ("DataNode Error: Input is not a list. Value: "
                          ++ PyStr.take 20
                               (py_str (data_op_collection (context self) (node_data nd))))
                         self in
    (append_log ("Data Op: " ++ py_str (data_op_op nd) ++ "(len=" ++ PyStr.of_Z 0
                 ++ ") = " ++ py_str (VInt 0))
       (with_context (ctx_set (data_op_result_var nd) (VInt 0) (context s1)) s1),
     Ok None).
Proof.
  intros Hc Hh. unfold execute_data_op.
  fold (data_op_op nd). fold (data_op_result_var nd).
  unfold bind at 1. unfold get_context at 1. cbv beta iota.
  change (match _resolve_val (context self)
                  (dict_get_default "collection" (VStr "") (node_data nd)) with
          | VStr s =>
              match ctx_find (_resolve_val (context self)
                      (dict_get_default "collection" (VStr "") (node_data nd)))
                      (context self) with
              | Some v => v
              | None =>
                  if String.eqb s "body"
                  then match ctx_find (VStr "body") (context self) with
                       | Some v => v | None => VList [] end
                  else _resolve_val (context self)
                         (dict_get_default "collection" (VStr "") (node_data nd))
              end
          | _ => _resolve_val (context self)
                   (dict_get_default "collection" (VStr "") (node_data nd))
          end) with (data_op_collection (context self) (node_data nd)).
  assert (Ha : aggregate (data_op_op nd) [] (extract_numbers []) = Ok (VInt 0)).
  { cbn [extract_numbers]. rewrite aggregate_no_numbers.
    now destruct (eq_str (data_op_op nd) "count"). }
  destruct (data_op_collection (context self) (node_data nd)); try discriminate Hc;
    unfold bind, ret, lift, log, context_setitem; cbv beta iota;
    rewrite Ha; cbn [clean_int]; cbv beta iota; cbn [context with_context append_log with_log];
    rewrite Hh; reflexivity.
Qed.

(** X14. A [data_op] node whose collection is no list, after both
    lookups, does not fail: it logs "DataNode Error", aggregates the
    empty list, and so stores the integer 0 in its result variable
    whatever the operation is, [count] included. *)
Theorem data_op_non_list_stores_zero (nd : node) (self : WorkflowExecutor) :
  node_type nd = "data_op" ->
  is_list (data_op_collection (context self) (node_data nd)) = false ->
  hashable (data_op_result_var nd) = true ->
  snd (execute_node nd self) = Ok None
  /\ data_op_stored nd self = Some (VInt 0)
  /\ In ("DataNode Error: Input is not a list. Value: "
         ++ PyStr.take 20 (py_str (data_op_collection (context self) (node_data nd))))
        (execution_log (fst (execute_node nd self))).
Proof.
  intros Ht Hc Hh. unfold data_op_stored.
  rewrite (execute_node_data_op nd Ht), (execute_data_op_non_list nd self Hc Hh).
  cbv zeta. cbn [fst snd append_log with_log with_context context execution_log].
  split; [reflexivity | split].
  - now apply ctx_find_set_same.
  - apply in_or_app. left. apply in_or_app. right. now left.
Qed.

(** X15. On a list, [count] stores the number of items, whether they
    are numbers or not; every other operation works on the items that
    convert to [float] and stores the integer 0 when there is none. *)
Theorem data_op_counts_every_item (nd : node) (self : WorkflowExecutor) (xs : list value) :
  node_type nd = "data_op" ->
  data_op_collection (context self) (node_data nd) = VList xs ->
  hashable (data_op_result_var nd) = true ->
  (eq_str (data_op_op nd) "count" = true ->
   snd (execute_node nd self) = Ok None
   /\ data_op_stored nd self = Some (VInt (Z.of_nat (List.length xs))))
  /\ (eq_str (data_op_op nd) "count" = false ->
      extract_numbers xs = [] ->
      snd (execute_node nd self) = Ok None
      /\ data_op_stored nd self = Some (VInt 0)).
Proof.
  intros Ht Hc Hh. unfold data_op_stored. rewrite (execute_node_data_op nd Ht). split.
  - intros Hop.
    rewrite (execute_data_op_int nd self xs (Z.of_nat (List.length xs)) Hc); [ | | exact Hh ].
    + cbn [fst snd append_log with_log with_context context].
      split; [reflexivity | now apply ctx_find_set_same].
    + unfold aggregate. now rewrite Hop.
  - intros Hop Hn.
    rewrite (execute_data_op_int nd self xs 0 Hc); [ | | exact Hh ].
    + cbn [fst snd append_log with_log with_context context].
      split; [reflexivity | now apply ctx_find_set_same].
    + rewrite Hn, aggregate_no_numbers. now rewrite Hop.
Qed.

End DataOp.

(** ** Interface nodes *)

Section Interfaces.
Context {rt : PyRuntime}.

(** The list of missing names only grows along the fields. *)
Lemma validate_fields_keeps_missing (body : value) (fields : list value) :
  forall missing invalid missing' invalid' name,
    validate_fields body fields missing invalid = Ok (missing', invalid') ->
    In name missing -> In name missing'.
Proof.
  induction fields as [ | field rest IH ]; intros missing invalid missing' invalid' name.
  - cbn [validate_fields]. intros H. now injection H as <- _.
  - cbn [validate_fields].
    destruct field as [ | | | | | | fd ]; try discriminate.
    destruct (negb (truthy (dict_get_default "name" VNone fd))); [ apply IH | ].
    destruct (if truthy (dict_get_default "required" (VBool false) fd)
              then pyres_bind (contains_op (dict_get_default "name" VNone fd) body)
                              (fun b => Ok (negb b))
              else Ok false) as [[ | ] | e]; cbn [pyres_bind]; [ | | discriminate ].
    + intros H Hin. apply (IH _ _ _ _ _ H). apply in_or_app. now left.
    + destruct (contains_op (dict_get_default "name" VNone fd) body) as [[ | ] | e];
        cbn [pyres_bind]; [ | apply IH | discriminate ].
      destruct (getitem body (dict_get_default "name" VNone fd)) as [val | e];
        cbn [pyres_bind]; [ | discriminate ].
      destruct (type_check _ _ val); apply IH.
Qed.

(** A required field the body lacks is reported as missing. *)
Lemma validate_fields_reports (body : value) (fields : list value)
      (fd : list (string * value)) :
  In (VDict fd) fields ->
  truthy (dict_get_default "name" VNone fd) = true ->
  truthy (dict_get_default "required" (VBool false) fd) = true ->
  contains_op (dict_get_default "name" VNone fd) body = Ok false ->
  forall missing invalid missing' invalid',
    validate_fields body fields missing invalid = Ok (missing', invalid') ->
    In (dict_get_default "name" VNone fd) missing'.
Proof.
  intros Hin Hname Hreq Habs.
  induction fields as [ | field rest IH ]; intros missing invalid missing' invalid';
    [ destruct Hin | ].
  destruct Hin as [-> | Hin].
  - cbn [validate_fields]. rewrite Hname, Hreq, Habs. cbn [negb pyres_bind].
    intros H. apply (validate_fields_keeps_missing _ _ _ _ _ _ _ H).
    apply in_or_app. right. now left.
  - specialize (IH Hin). cbn [validate_fields].
    destruct field as [ | | | | | | fd' ]; try discriminate.
    destruct (negb (truthy (dict_get_default "name" VNone fd'))); [ apply IH | ].
    destruct (if truthy (dict_get_default "required" (VBool false) fd')
              then pyres_bind (contains_op (dict_get_default "name" VNone fd') body)
                              (fun b => Ok (negb b))
              else Ok false) as [[ | ] | e]; cbn [pyres_bind]; [ apply IH | | discriminate ].
    destruct (contains_op (dict_get_default "name" VNone fd') body) as [[ | ] | e];
      cbn [pyres_bind]; [ | apply IH | discriminate ].
    destruct (getitem body (dict_get_default "name" VNone fd')) as [val | e];
      cbn [pyres_bind]; [ | discriminate ].
    destruct (type_check _ _ val); apply IH.
Qed.

(** X16. An [interface] node with a required, named field that the
    request body lacks never lets the request pass: whatever the other
    fields are, when the node returns it returns the terminal
    "Bad Request" response, and the field is among the missing ones it
    lists. *)
Theorem interface_rejects_missing_field (data : list (string * value))
        (self : WorkflowExecutor) (fields : list value) (fd : list (string * value)) :
  iterate (dict_get_default "fields" (VList []) data) = Ok fields ->
  In (VDict fd) fields ->
  truthy (dict_get_default "name" VNone fd) = true ->
  truthy (dict_get_default "required" (VBool false) fd) = true ->
  contains_op (dict_get_default "name" VNone fd)
              (match ctx_find (VStr "body") (context self) with
               | Some v => v
               | None => VDict []
               end) = Ok false ->
  forall r, snd (execute_interface data self) = Ok r ->
    exists message missing invalid,
      In (dict_get_default "name" VNone fd) missing
      /\ r = Some (OResponse
                     (VDict [("error", VStr "Bad Request");
                             ("message", VStr message);
                             ("details", VDict [("missing", VList missing);
                                                ("invalid", VList invalid)])])).
Proof.
  intros Hf Hin Hname Hreq Habs r.
  unfold execute_interface, bind, get_context, lift, ret, log. cbv beta iota.
  rewrite Hf.
  pose proof (validate_fields_reports _ fields fd Hin Hname Hreq Habs [] []) as Hrep.
  destruct (validate_fields _ fields [] []) as [[missing invalid] | e]; [ | discriminate ].
  specialize (Hrep missing invalid eq_refl).
  destruct missing as [ | m ms ]; [ destruct Hrep | ].
  destruct invalid as [ | entry entries ];
    (destruct (validation_message (m :: ms) _) as [msg | e]; [ | discriminate ]);
    cbn [snd]; intros H; injection H as <-;
    eexists; eexists; eexists; (split; [exact Hrep | reflexivity]).
Qed.

End Interfaces.

(** ** Loop nodes over any list *)

Section Loops.
Context {rt : PyRuntime}.

(** After [k] executions over a list of at least [k] items the index of
    the node is [k]. *)
Lemma loop_reaches_index (nd : node) (self : WorkflowExecutor) (items : list value) :
  node_type nd = "loop" ->
  names_variable (loop_variable nd) ->
  at_index (context self) (node_id nd) 0 ->
  (forall k, (k <= List.length items)%nat ->
     loop_collection (context (execute_times k nd self)) (loop_source nd) = VList items) ->
  forall k, (k <= List.length items)%nat ->
    at_index (context (execute_times k nd self)) (node_id nd) k.
Proof.
  intros Ht Hv H0 Hcoll k. induction k as [ | k IH ]; intros Hk; [exact H0 | ].
  cbn [execute_times].
  destruct (nth_error items k) as [item | ] eqn:E.
  - apply (loop_step_do nd (execute_times k nd self) items k item Ht Hv);
      [ apply Hcoll; lia | apply IH; lia | exact E ].
  - apply nth_error_None in E. lia.
Qed.

(** X17. A loop node walks through any list it is given.  Started
    with no iteration state (or with index 0) on a collection that
    resolves to the same list [items] at each execution, its execution
    number [k] yields loop("do") and binds the loop variable to item [k],
    for every position [k] of the list, in order; the execution after the
    last item yields loop("done") and puts the index back to 0. *)
Theorem loop_visits_every_item (nd : node) (self : WorkflowExecutor) (items : list value) :
  node_type nd = "loop" ->
  names_variable (loop_variable nd) ->
  at_index (context self) (node_id nd) 0 ->
  (forall k, (k <= List.length items)%nat ->
     loop_collection (context (execute_times k nd self)) (loop_source nd) = VList items) ->
  (forall k item,
      nth_error items k = Some item ->
      snd (execute_node nd (execute_times k nd self)) = Ok (Some (OLoop "do"))
      /\ ctx_find (loop_variable nd) (context (execute_times (S k) nd self)) = Some item)
  /\ snd (execute_node nd (execute_times (List.length items) nd self))
     = Ok (Some (OLoop "done"))
  /\ loop_index (context (execute_times (S (List.length items)) nd self)) (node_id nd)
     = Some (VInt 0).
Proof.
  intros Ht Hv H0 Hcoll.
  pose proof (loop_reaches_index nd self items Ht Hv H0 Hcoll) as Hat.
  split.
  - intros k item Hn.
    assert (Hk : (k < List.length items)%nat).
    { apply nth_error_Some. now rewrite Hn. }
    destruct (loop_step_do nd (execute_times k nd self) items k item Ht Hv
                (Hcoll k ltac:(lia)) (Hat k ltac:(lia)) Hn) as (Hdo & Hbind & _).
    split; [exact Hdo | exact Hbind].
  - apply (loop_step_done nd (execute_times (List.length items) nd self) items
             (List.length items) Ht (Hcoll _ (Nat.le_refl _)) (Hat _ (Nat.le_refl _))).
    apply Nat.le_refl.
Qed.

(** X18. A loop node whose collection is no list, after both lookups,
    does not fail and does not iterate: it logs "Loop Error", takes the
    empty list instead and yields loop("done") at once, whatever its
    index was, and its index is 0 afterwards; its variable is not
    bound. *)
Theorem loop_non_list_is_done (nd : node) (self : WorkflowExecutor) (k : nat) :
  node_type nd = "loop" ->
  is_list (loop_collection (context self) (loop_source nd)) = false ->
  at_index (context self) (node_id nd) k ->
  snd (execute_node nd self) = Ok (Some (OLoop "done"))
  /\ loop_index (context (fst (execute_node nd self))) (node_id nd) = Some (VInt 0)
  /\ (forall name,
         key_eqb name (VStr "_loop_states") = false ->
         ctx_find name (context (fst (execute_node nd self)))
         = ctx_find name (context self))
  /\ In ("Loop Error: Collection '" ++ py_str (loop_source nd) ++ "' resolved to <class '"
         ++ type_name (loop_collection (context self) (loop_source nd))
         ++ "'>, expected list. Defaulting to empty.")
        (execution_log (fst (execute_node nd self))).
Proof.
  intros Ht Hcoll Hat.
  assert (Hlt : lt_int (VInt (Z.of_nat k)) (Z.of_nat (@List.length value [])) = Ok false).
  { simpl. f_equal. apply Z.ltb_ge. lia. }
  set (line := "Loop Error: Collection '" ++ py_str (loop_source nd)
               ++ "' resolved to <class '"
               ++ type_name (loop_collection (context self) (loop_source nd))
               ++ "'>, expected list. Defaulting to empty.").
  assert (exists ls st,
             execute_loop nd self =
               (with_context
                  (ctx_set (VStr "_loop_states")
                           (VDict (dict_set (node_id nd)
                                            (VDict (dict_set "index" (VInt 0) st)) ls))
                           (match ctx_find (VStr "_loop_states") (context self) with
                            | Some _ => context self
                            | None => ctx_set (VStr "_loop_states") (VDict []) (context self)
                            end))
                  (append_log ("Loop " ++ node_id nd ++ ": Done")
                     (match ctx_find (VStr "_loop_states") (context self) with
                      | Some _ => append_log line self
                      | None =>
                          with_context
                            (ctx_set (VStr "_loop_states") (VDict []) (context self))
                            (append_log line self)
                      end)),
                Ok (Some (OLoop "done"))))
    as (ls & st & Hrun).
  { unfold at_index in Hat. subst line.
    unfold execute_loop. fold (loop_source nd). fold (loop_variable nd).
    unfold bind at 1. unfold get_context at 1. cbv beta iota.
    destruct (loop_collection (context self) (loop_source nd)); try discriminate Hcoll;
      unfold bind, get_context, ret, lift, log, raise, context_setitem, store_index;
      cbv beta iota;
      (destruct (ctx_find (VStr "_loop_states") (context self))
         as [[ | | | | | | ls] | ] eqn:Hls; try contradiction;
       [ unfold dict_get_default;
         destruct (dict_get (node_id nd) ls) as [[ | | | | | | st] | ] eqn:Hst;
         try contradiction;
         [ unfold read_index; rewrite Hat; cbv beta iota; rewrite Hlt;
           do 2 eexists; reflexivity
         | subst k; unfold read_index; cbn [dict_get String.eqb Ascii.eqb Bool.eqb];
           change (Z.of_nat 0) with 0 in Hlt; rewrite Hlt;
           do 2 eexists; reflexivity ]
       | subst k; unfold read_index;
         cbn [hashable is_list is_dict orb negb dict_get_default dict_get
              String.eqb Ascii.eqb Bool.eqb];
         change (Z.of_nat 0) with 0 in Hlt; rewrite Hlt;
         do 2 eexists; reflexivity ]). }
  rewrite (execute_node_loop nd Ht), Hrun.
  cbn [fst snd context with_context execution_log with_log append_log].
  split; [reflexivity | split; [ | split ] ].
  - unfold loop_index. rewrite ctx_find_set_same by reflexivity.
    now rewrite !dict_get_set_same.
  - intros name Hname.
    rewrite ctx_find_set_str by exact Hname.
    destruct (ctx_find (VStr "_loop_states") (context self)); [reflexivity | ].
    now rewrite ctx_find_set_str by exact Hname.
  - destruct (ctx_find (VStr "_loop_states") (context self));
      cbn [execution_log with_context with_log append_log];
      apply in_or_app; left; apply in_or_app; right; now left.
Qed.

End Loops.

(** ** Routing *)

(** The targets a node hands to the next wave, read off the edge list of
    the graph: the edges that leave the node and pass the routing rule,
    in the order of the list. *)
Lemma downstream_of_graph (g : workflow_data) (id type : string) (res : option outcome) :
  downstream (init g) id type res =
    map target (filter (fun e => String.eqb (source e) id
                                 && routed type res (sourceHandle e)) (wf_edges g)).
Proof.
  unfold downstream, init. cbn [adjacency].
  rewrite fold_add_edge_get. unfold dict_get_default at 1. cbn [dict_get app].
  unfold edges_from.
  induction (wf_edges g) as [ | e es IH ]; [reflexivity | ].
  cbn [filter]. destruct (String.eqb (source e) id); cbn [andb map filter snd].
  - destruct (routed type res (sourceHandle e)); cbn [map fst]; now rewrite IH.
  - exact IH.
Qed.

(** X19. Which edges a node passes the traversal on to.  After a
    [logic] node that answered [b], exactly the edges that leave it with
    the handle "true" (for [b = true]) or "false"; after a [loop] node
    that answered "do" or "done", exactly the edges with that handle; an
    edge without a handle is never followed from these two.  After a
    node of any other type every edge that leaves it is followed,
    whatever its handle and whatever the node returned. *)
Theorem routing_follows_handles (g : workflow_data) (id tgt : string) :
  (forall b,
      In tgt (downstream (init g) id "logic" (Some (OLogic b)))
      <-> exists e, In e (wf_edges g) /\ source e = id /\ target e = tgt
                    /\ sourceHandle e = Some (if b then "true" else "false"))
  /\ (forall r,
         r = "do" \/ r = "done" ->
         In tgt (downstream (init g) id "loop" (Some (OLoop r)))
         <-> exists e, In e (wf_edges g) /\ source e = id /\ target e = tgt
                       /\ sourceHandle e = Some r)
  /\ (forall type res,
         type <> "logic" -> type <> "loop" ->
         In tgt (downstream (init g) id type res)
         <-> exists e, In e (wf_edges g) /\ source e = id /\ target e = tgt).
Proof.
  assert (Hin : forall type res,
             In tgt (downstream (init g) id type res)
             <-> exists e, In e (wf_edges g) /\ source e = id /\ target e = tgt
                           /\ routed type res (sourceHandle e) = true).
  { intros type res. rewrite downstream_of_graph, in_map_iff. split.
    - intros [e [Ht He]]. apply filter_In in He. destruct He as [He Hb].
      apply andb_prop in Hb. destruct Hb as [Hs Hr]. apply String.eqb_eq in Hs.
      exists e. auto.
    - intros [e (He & Hs & Ht & Hr)]. exists e. split; [exact Ht | ].
      apply filter_In. split; [exact He | ].
      apply andb_true_intro. split; [now apply String.eqb_eq | exact Hr]. }
  assert (Hh : forall h s, handle_is h s = true <-> h = Some s).
  { intros [h | ] s; cbn [handle_is].
    - rewrite String.eqb_eq. split; [now intros -> | now intros [= ->]].
    - split; discriminate. }
  split; [ | split ].
  - intros b. rewrite Hin. unfold routed. cbn [String.eqb Ascii.eqb Bool.eqb].
    split; intros [e (He & Hs & Ht & Hr)]; exists e; repeat split; try assumption;
      destruct b; now apply Hh.
  - intros r Hr0. rewrite Hin. unfold routed. cbn [String.eqb Ascii.eqb Bool.eqb].
    split; intros [e (He & Hs & Ht & Hr)]; exists e; repeat split; try assumption.
    + destruct Hr0 as [-> | ->]; cbn [String.eqb Ascii.eqb Bool.eqb andb orb] in Hr;
        [ rewrite orb_false_r in Hr | ]; now apply Hh.
    + apply Hh in Hr.
      destruct Hr0 as [-> | ->]; cbn [String.eqb Ascii.eqb Bool.eqb andb orb];
        [ rewrite orb_false_r | ]; exact Hr.
  - intros type res H1 H2. rewrite Hin. unfold routed.
    apply String.eqb_neq in H1, H2. rewrite H1, H2.
    split; intros [e H]; exists e; intuition.
Qed.

(** ** The request in the Context *)

Section SeedContext.
Context {rt : PyRuntime}.

(** X20. What [run] puts into the Context before the traversal.  The
    whole input is bound to [request].  [body] is bound to the request
    body only when that is an object, [query] and [params] only when
    they are non-empty; otherwise a variable of that name keeps the value
    it had, so a [variable] node named [body] survives a request whose
    body is a list.  No other variable is touched, and nothing is
    logged. *)
Theorem seed_context_aliases (input_data : list (string * value)) (s : WorkflowExecutor) :
  snd (seed_context input_data s) = Ok tt
  /\ execution_log (fst (seed_context input_data s)) = execution_log s
  /\ ctx_find (VStr "request") (context (fst (seed_context input_data s)))
     = Some (VDict input_data)
  /\ ctx_find (VStr "body") (context (fst (seed_context input_data s)))
     = (if is_dict (dict_get_default "body" VNone input_data)
        then Some (dict_get_default "body" VNone input_data)
        else ctx_find (VStr "body") (context s))
  /\ ctx_find (VStr "query") (context (fst (seed_context input_data s)))
     = (if truthy (dict_get_default "query" VNone input_data)
        then Some (dict_get_default "query" VNone input_data)
        else ctx_find (VStr "query") (context s))
  /\ ctx_find (VStr "params") (context (fst (seed_context input_data s)))
     = (if truthy (dict_get_default "params" VNone input_data)
        then Some (dict_get_default "params" VNone input_data)
        else ctx_find (VStr "params") (context s))
  /\ (forall name,
         key_eqb name (VStr "request") = false ->
         key_eqb name (VStr "body") = false ->
         key_eqb name (VStr "query") = false ->
         key_eqb name (VStr "params") = false ->
         ctx_find name (context (fst (seed_context input_data s)))
         = ctx_find name (context s)).
Proof.
  unfold seed_context, bind, context_setitem, ret.
  cbn [hashable is_list is_dict orb negb].
  destruct (is_dict (dict_get_default "body" VNone input_data));
    destruct (truthy (dict_get_default "query" VNone input_data));
    destruct (truthy (dict_get_default "params" VNone input_data));
    cbn [fst snd context with_context execution_log];
    (split; [reflexivity | split; [reflexivity | ] ]);
    repeat split;
    try (intros name H1 H2 H3 H4);
    repeat first [ rewrite ctx_find_set_same by reflexivity
                 | rewrite ctx_find_set_str by (assumption || reflexivity) ];
    reflexivity.
Qed.

End SeedContext.

(** ** The wave limit *)

Section WaveLimit.
Context {rt : PyRuntime}.

(** A set holding one element, as a list. *)
Lemma set_to_list_single (id : string) (xs : list string) :
  xs <> [] -> (forall x, In x xs -> x = id) -> set_to_list xs = [id].
Proof.
  intros Hne Hall.
  pose proof (set_to_list_NoDup xs) as Hnd.
  pose proof (set_to_list_In xs) as Hin.
  assert (Hid : In id (set_to_list xs)).
  { apply Hin. destruct xs as [ | x xs' ]; [now elim Hne | ].
    left. apply Hall. now left. }
  assert (Honly : forall x, In x (set_to_list xs) -> x = id).
  { intros x Hx. apply Hall. now apply Hin. }
  destruct (set_to_list xs) as [ | a [ | b l ] ]; [destruct Hid | | ].
  - f_equal. apply Honly. now left.
  - exfalso. apply NoDup_cons_iff in Hnd. destruct Hnd as [Hnd _]. apply Hnd.
    rewrite (Honly a) by now left. rewrite (Honly b) by (right; now left). now left.
Qed.

(** One wave on an [api] node. *)
Lemma run_wave_api (nd : node) (self : WorkflowExecutor) :
  dict_get (node_id nd) (nodes self) = Some nd ->
  node_type nd = "api" ->
  run_wave [node_id nd] [] self =
    (append_log (executing_line nd) self,
     Ok (Continue (map fst (dict_get_default (node_id nd) [] (adjacency self))))).
Proof.
  intros Hn Ht. cbn [run_wave]. unfold bind at 1. unfold get_self at 1. cbv beta iota.
  rewrite Hn. unfold bind at 1. unfold log at 1. cbv beta iota.
  fold (executing_line nd). set (s1 := append_log (executing_line nd) self).
  unfold guarded_execute, try_except, execute_node. rewrite Ht.
  cbn [String.eqb Ascii.eqb Bool.eqb]. unfold bind, ret. cbv beta iota.
  unfold downstream, routed. cbn [String.eqb Ascii.eqb Bool.eqb app].
  do 3 f_equal.
  induction (dict_get_default (node_id nd) [] (adjacency self)) as [ | e es IH ];
    [reflexivity | ].
  cbn [filter map]. now rewrite IH.
Qed.

Lemma after_waves_step (n : nat) (nd : node) (self : WorkflowExecutor) :
  after_waves n nd (append_log (executing_line nd) self) = after_waves (S n) nd self.
Proof.
  unfold after_waves, append_log, with_log. cbn [nodes edges adjacency context execution_log].
  now rewrite <- app_assoc.
Qed.

(** A cycle through an [api] node is cut by the budget of waves. *)
Lemma while_loop_cycle (nd : node) (n : nat) :
  node_type nd = "api" ->
  forall self,
    dict_get (node_id nd) (nodes self) = Some nd ->
    dict_get_default (node_id nd) [] (adjacency self) <> [] ->
    (forall t h, In (t, h) (dict_get_default (node_id nd) [] (adjacency self)) ->
                 t = node_id nd) ->
    while_loop n [node_id nd] self =
      (after_waves n nd self, Ok (n, completed_result (after_waves n nd self))).
Proof.
  intros Ht. induction n as [ | n IH ]; intros self Hn Hne Hall.
  - cbn [while_loop]. unfold bind, get_self, ret, after_waves. cbn [repeat].
    rewrite app_nil_r. now destruct self.
  - cbn [while_loop]. unfold bind at 1. rewrite (run_wave_api nd self Hn Ht).
    cbv beta iota.
    rewrite (set_to_list_single (node_id nd)).
    + unfold bind at 1.
      rewrite (IH (append_log (executing_line nd) self)); [ | exact Hn | exact Hne | exact Hall ].
      unfold ret. cbn [fst snd]. now rewrite after_waves_step.
    + destruct (dict_get_default (node_id nd) [] (adjacency self)); [now elim Hne | discriminate].
    + intros x Hx. apply in_map_iff in Hx. destruct Hx as [[t h] [<- Hx]].
      apply (Hall t h Hx).
Qed.

(** Seeding the Context logs nothing. *)
Lemma seed_context_silent (input_data : list (string * value)) (s : WorkflowExecutor) :
  execution_log (fst (seed_context input_data s)) = execution_log s.
Proof.
  unfold seed_context, bind, context_setitem, ret.
  cbn [hashable is_list is_dict orb negb].
  destruct (is_dict (dict_get_default "body" VNone input_data));
    destruct (truthy (dict_get_default "query" VNone input_data));
    destruct (truthy (dict_get_default "params" VNone input_data));
    reflexivity.
Qed.

(** Step 1 of [run] on a graph without [variable] nodes. *)
Lemma init_variables_none (ns : list (string * node)) (self : WorkflowExecutor) :
  (forall kv, In kv ns -> node_type (snd kv) <> "variable") ->
  init_variables ns self = (self, Ok tt).
Proof.
  induction ns as [ | [id nd] ns IH ]; intros H; [reflexivity | ].
  cbn [init_variables].
  assert (E : String.eqb (node_type nd) "variable" = false).
  { apply String.eqb_neq. apply (H (id, nd)). now left. }
  rewrite E. unfold bind at 1. unfold ret at 1. cbv beta iota.
  apply IH. intros kv Hkv. apply H. now right.
Qed.

(** The entry point [run] picks on a graph with unique ids and one [api]
    node. *)
Lemma find_api_is (g : workflow_data) (start : node) :
  unique_ids g -> exactly_one_api g ->
  In start (wf_nodes g) -> node_type start = "api" ->
  find_api (nodes (init g)) = Some start
  /\ dict_get (node_id start) (nodes (init g)) = Some start.
Proof.
  intros Hu Hone Hin Ht. unfold init. cbn [nodes].
  rewrite (init_nodes_unique (wf_nodes g) []) by exact Hu. cbn [app].
  unfold unique_ids in Hu. unfold exactly_one_api in Hone. unfold find_api.
  split.
  - clear Hu. induction (wf_nodes g) as [ | n ns IH ]; [destruct Hin | ].
    cbn [map find snd]. cbn [filter] in Hone. unfold is_api at 1 in Hone.
    destruct (String.eqb (node_type n) "api") eqn:E.
    + cbn [option_map snd]. f_equal.
      destruct Hin as [-> | Hin]; [reflexivity | ].
      exfalso. cbn [List.length] in Hone.
      assert (Hs : In start (filter is_api ns)).
      { apply filter_In. split; [exact Hin | ]. unfold is_api. now rewrite Ht. }
      destruct (filter is_api ns); [destruct Hs | discriminate].
    + destruct Hin as [-> | Hin]; [ rewrite Ht in E; discriminate | ].
      now apply IH.
  - clear Hone. induction (wf_nodes g) as [ | n ns IH ]; [destruct Hin | ].
    cbn [map dict_get]. cbn [map] in Hu. apply NoDup_cons_iff in Hu. destruct Hu as [Hn Hu].
    destruct Hin as [-> | Hin].
    + now rewrite String.eqb_refl.
    + destruct (String.eqb (node_id n) (node_id start)) eqn:E.
      * apply String.eqb_eq in E. exfalso. apply Hn. rewrite E. now apply in_map.
      * now apply IH.
Qed.

(** X21. The limit of 1000 waves is what ends a cycle.  On a graph with
    unique ids, no [variable] node and one [api] node whose outgoing
    edges (at least one) all lead back to it, [run] executes that node in
    each of exactly 1000 waves and then returns the completion result,
    status "success" without a response: the log holds the start line and
    1000 "Executing Node" lines. *)
Theorem cycle_ends_at_wave_limit (g : workflow_data) (input_data : list (string * value))
        (start : node) :
  unique_ids g ->
  exactly_one_api g ->
  In start (wf_nodes g) ->
  node_type start = "api" ->
  (forall nd, In nd (wf_nodes g) -> node_type nd <> "variable") ->
  (exists e, In e (wf_edges g) /\ source e = node_id start) ->
  (forall e, In e (wf_edges g) -> source e = node_id start -> target e = node_id start) ->
  exists s',
    run_counted input_data (init g) = (s', Ok (1000%nat, completed_result s'))
    /\ execution_log s' =
         started_line start :: repeat (executing_line start) 1000.
Proof.
  intros Hu Hone Hin Ht Hvar [e0 [He0 Hs0]] Hself.
  destruct (find_api_is g start Hu Hone Hin Ht) as [Hfind Hget].
  unfold run_counted. unfold bind at 1. unfold get_self at 1. cbv beta iota.
  unfold bind at 1.
  rewrite init_variables_none.
  2:{ intros [id nd] Hkv. cbn [snd]. apply Hvar.
      unfold init in Hkv. cbn [nodes] in Hkv.
      rewrite (init_nodes_unique (wf_nodes g) []) in Hkv by exact Hu. cbn [app] in Hkv.
      apply in_map_iff in Hkv. destruct Hkv as [n [Heq Hn]]. now injection Heq as _ <-. }
  rewrite Hfind. unfold bind at 1. unfold log at 1. cbv beta iota.
  set (s2 := append_log _ (init g)).
  unfold bind at 1.
  destruct (seed_context_returns input_data s2) as [s3 Hseed].
  pose proof (Stable_seed_context input_data s2) as Hs3.
  pose proof (seed_context_silent input_data s2) as Hlog.
  rewrite Hseed in *. cbn [fst] in Hs3, Hlog.
  destruct Hs3 as [(HN3 & _ & HA3) _]. cbn in HN3, HA3.
  assert (Hadj : dict_get_default (node_id start) [] (adjacency s3)
                 = edges_from (node_id start) (wf_edges g)).
  { rewrite HA3. now rewrite fold_add_edge_get. }
  rewrite (while_loop_cycle start max_waves Ht s3).
  - eexists. split; [reflexivity | ].
    unfold after_waves, max_waves. cbn [execution_log with_log]. rewrite Hlog.
    subst s2. reflexivity.
  - now rewrite HN3.
  - rewrite Hadj. unfold edges_from.
    assert (Hi : In (target e0, sourceHandle e0)
                    (map (fun e => (target e, sourceHandle e))
                         (filter (fun e => String.eqb (source e) (node_id start))
                                 (wf_edges g)))).
    { apply in_map_iff. exists e0. split; [reflexivity | ].
      apply filter_In. split; [exact He0 | now apply String.eqb_eq]. }
    intros Hnil. now rewrite Hnil in Hi.
  - intros t h Hth. rewrite Hadj in Hth. unfold edges_from in Hth.
    apply in_map_iff in Hth. destruct Hth as [e [Heq He]]. injection Heq as <- _.
    apply filter_In in He. destruct He as [He Hs]. apply String.eqb_eq in Hs.
    now apply Hself.
Qed.

End WaveLimit.

(** ** Braces around the name of a response variable *)

Lemma rev_snoc (c : ascii) (s : string) :
  PyStr.rev (s ++ String c "") = String c (PyStr.rev s).
Proof.
  induction s as [ | a s IH ]; [reflexivity | ].
  cbn [PyStr.rev append]. now rewrite IH.
Qed.

(** Stripping a character of the set off the right end. *)
Lemma rstrip_snoc (chars : string) (c : ascii) (s : string) :
  PyStr.mem_char c chars = true ->
  PyStr.rstrip chars (s ++ String c "") = PyStr.rstrip chars s.
Proof.
  intros H. unfold PyStr.rstrip. rewrite rev_snoc. cbn [PyStr.lstrip]. now rewrite H.
Qed.

Lemma lstrip_snoc (chars : string) (c : ascii) (s : string) :
  PyStr.mem_char c chars = true ->
  PyStr.lstrip chars (s ++ String c "") =
    match PyStr.lstrip chars s with
    | EmptyString => EmptyString
    | t => t ++ String c ""
    end.
Proof.
  intros H. induction s as [ | a s IH ]; cbn [append PyStr.lstrip].
  - now rewrite H.
  - destruct (PyStr.mem_char a chars); [exact IH | reflexivity].
Qed.

(** [("{" + key + "}").strip("{}")] is [key.strip("{}")]. *)
Lemma strip_braces (key : string) :
  PyStr.strip "{}" ("{" ++ key ++ "}") = PyStr.strip "{}" key.
Proof.
  unfold PyStr.strip.
  change (PyStr.lstrip "{}" ("{" ++ key ++ "}")) with (PyStr.lstrip "{}" (key ++ "}")).
  rewrite lstrip_snoc by reflexivity.
  destruct (PyStr.lstrip "{}" key) as [ | a t ]; [reflexivity | ].
  now apply rstrip_snoc.
Qed.

Lemma substring_last (c : ascii) (s : string) :
  substring (String.length s) 1 (s ++ String c "") = String c "".
Proof.
  induction s as [ | a s IH ]; [reflexivity | exact IH].
Qed.

Lemma endswith_snoc (c : ascii) (s : string) :
  PyStr.endswith (String c "") (s ++ String c "") = true.
Proof.
  unfold PyStr.endswith. rewrite length_app. cbn [String.length].
  replace (String.length s + 1 - 1)%nat with (String.length s) by lia.
  rewrite substring_last, String.eqb_refl.
  replace (1 <=? String.length s + 1)%nat with true; [reflexivity | ].
  symmetry. apply Nat.leb_le. lia.
Qed.

Section ResponseBraces.
Context {rt : PyRuntime}.

(** X22. A [response] node of type "variable" accepts the name of its
    variable written in braces.  When [{key}] itself names nothing in the
    Context (or something falsy) and [key] neither begins nor ends with a
    brace, the payload is the value bound to [key], with its type, and
    [None] when [key] is not bound either. *)
Theorem response_variable_in_braces (data : list (string * value))
        (self : WorkflowExecutor) (key : string) :
  eq_str (dict_get_default "responseType" (VStr "json") data) "variable" = true ->
  dict_get_default "body" (VStr "{}") data = VStr ("{" ++ key ++ "}") ->
  PyStr.strip "{}" key = key ->
  match ctx_find (VStr ("{" ++ key ++ "}")) (context self) with
  | Some v => truthy v = false
  | None => True
  end ->
  execute_response data self =
    (self, Ok (Some (OResponse (match ctx_find (VStr key) (context self) with
                                | Some v => v
                                | None => VNone
                                end)))).
Proof.
  intros Ht Hb Hk Hf. unfold execute_response.
  unfold bind, get_context, lift, ret. cbv beta iota.
  rewrite Ht, Hb. unfold ctx_get. cbn [hashable is_list is_dict orb negb].
  assert (Hfalsy : truthy (match ctx_find (VStr ("{" ++ key ++ "}")) (context self) with
                           | Some v => v
                           | None => VNone
                           end) = false).
  { destruct (ctx_find (VStr ("{" ++ key ++ "}")) (context self)); [exact Hf | reflexivity]. }
  rewrite Hfalsy. cbn [negb andb].
  assert (Hs : PyStr.startswith "{" ("{" ++ key ++ "}") = true).
  { unfold PyStr.startswith. cbn [append String.prefix].
    destruct (ascii_dec "{" "{") as [ _ | Hne ]; [ | now elim Hne].
    now destruct (key ++ "}"). }
  assert (He : PyStr.endswith "}" ("{" ++ key ++ "}") = true).
  { change ("{" ++ key ++ "}") with ((String "{" key) ++ "}"). apply endswith_snoc. }
  rewrite Hs, He. cbn [andb].
  rewrite strip_braces, Hk. reflexivity.
Qed.

End ResponseBraces.

(** ** Paths into the request body *)







Section BodyPaths.
Context {rt : PyRuntime}.

Lemma resolve_without_brace (c : Ctx) (s : string) :
  PyStr.contains "{" s = false -> _resolve_val c (VStr s) = VStr s.
Proof.
  intros H. unfold _resolve_val.
  destruct (is_exact_ref s) eqn:Href.
  - apply is_exact_ref_contains in Href. destruct Href as [H1 _]. congruence.
  - now rewrite H.
Qed.


(** X24. A [data_op] node does not follow such paths.  Its collection
    written as [body.<field>] is looked up as one variable name; unless
    a variable of exactly that name exists, the node aggregates nothing
    and stores the integer 0, whatever the request body holds. *)
Theorem data_op_ignores_body_paths (nd : node) (self : WorkflowExecutor) (field : string) :
  node_type nd = "data_op" ->
  dict_get_default "collection" (VStr "") (node_data nd) = VStr ("body." ++ field) ->
  PyStr.contains "{" field = false ->
  ctx_find (VStr ("body." ++ field)) (context self) = None ->
  hashable (data_op_result_var nd) = true ->
  snd (execute_node nd self) = Ok None
  /\ data_op_stored nd self = Some (VInt 0).
Proof.
  intros Ht Hsrc Hbrace Hfree Hh.
  assert (Hc : data_op_collection (context self) (node_data nd) = VStr ("body." ++ field)).
  { unfold data_op_collection. rewrite Hsrc.
    rewrite resolve_without_brace.
    - rewrite Hfree. reflexivity.
    - cbn [append PyStr.contains String.prefix].
      repeat match goal with
             | |- context [ascii_dec ?a ?b] =>
                 destruct (ascii_dec a b) as [ Heq | _ ]; [ discriminate Heq | ]
             end.
      exact Hbrace. }
  unfold data_op_stored.
  rewrite (execute_node_data_op nd Ht), (execute_data_op_non_list nd self);
    [ | now rewrite Hc | exact Hh ].
  cbv zeta. cbn [fst snd append_log with_log with_context context].
  split; [reflexivity | now apply ctx_find_set_same].
Qed.

End BodyPaths.

(** ** The HTTP handler *)

Section Handler.
Context {rt : PyRuntime}.

Lemma set_to_list_nil : set_to_list [] = [].
Proof.
  pose proof (set_to_list_In []) as H.
  destruct (set_to_list []) as [ | x xs ]; [reflexivity | ].
  destruct (proj1 (H x) (or_introl eq_refl)).
Qed.

(** X25. The service as it is shipped answers every request alike: the
    embedded workflow has an entry point and nothing behind it, so the
    run completes without a response and the handler returns [None],
    never the status 500, whatever the method, path, parameters, headers
    and body of the request are, a body that is no JSON included. *)
Theorem handle_request_answers_null (request : Request) :
  handle_request request = Ok (Returned VNone).
Proof.
  unfold handle_request, handle_request_on, run, run_counted.
  unfold bind at 1. unfold bind at 1. unfold get_self at 1. cbv beta iota.
  unfold bind at 1.
  cbn [init WORKFLOW_DATA wf_nodes wf_edges fold_left dict_set nodes node_id
       init_variables node_type String.eqb Ascii.eqb Bool.eqb find_api find snd
       option_map node_data].
  unfold bind at 1. unfold ret at 1. cbv beta iota.
  unfold ret at 1.
  cbn [find_api find snd node_type String.eqb Ascii.eqb Bool.eqb option_map].
  unfold bind at 1. unfold log at 1. cbv beta iota.
  set (s2 := append_log _ _).
  unfold bind at 1.
  destruct (seed_context_returns (input_data_of request) s2) as [s3 Hseed].
  pose proof (Stable_seed_context (input_data_of request) s2) as Hs3.
  rewrite Hseed in *. cbn [fst] in Hs3.
  destruct Hs3 as [(HN3 & _ & HA3) _]. cbn in HN3, HA3.
  unfold max_waves. cbn [while_loop node_id].
  unfold bind at 1.
  rewrite (run_wave_api {| node_id := "api-1768636097809";
                           node_type := "api";
                           node_data := [("label", VStr "New api")] |} s3);
    [ | rewrite HN3; reflexivity | reflexivity ].
  rewrite HA3. cbn [node_id dict_get_default dict_get map].
  rewrite set_to_list_nil.
  unfold bind, get_self, ret. cbn [fst snd completed_result res_status res_response].
  reflexivity.
Qed.

(** X26. What a client of the handler gets, on any workflow, in terms
    of what the run does.  The node that yields a response decides the
    reply: its payload is returned (status 200), be it a [response] node
    or an [interface] node that rejected the request.  A node that raises
    an [Exception] in the traversal, and a workflow without an [api]
    node, give the status 500 with the result of the run as content.  A
    run that completes without a response gives [None].  The handler
    raises exactly what leaves [run].  Conversely a reply with status 500
    comes from nothing else, and the content of any other reply is [None]
    or the payload of a node. *)
Theorem handler_replies (workflow : workflow_data) (request : Request) :
  (forall k id s3 nd s4 payload,
      about_to_execute (input_data_of request) (init workflow) k id s3 ->
      dict_get id (nodes (init workflow)) = Some nd ->
      execute_node nd
        (append_log ("Executing Node: " ++ node_type nd ++ " (" ++ id ++ ")") s3)
      = (s4, Ok (Some (OResponse payload))) ->
      handle_request_on workflow request = Ok (Returned payload))
  /\ (forall k id s3 nd s4 cls msg,
         about_to_execute (input_data_of request) (init workflow) k id s3 ->
         dict_get id (nodes (init workflow)) = Some nd ->
         execute_node nd
           (append_log ("Executing Node: " ++ node_type nd ++ " (" ++ id ++ ")") s3)
         = (s4, Raise (Exc cls msg)) ->
         handle_request_on workflow request
         = Ok (JSONResponse 500
                 (error_result
                    (append_log ("Error executing node " ++ id ++ ": " ++ msg) s4) msg)))
  /\ (forall s1,
         find_api (nodes (init workflow)) = None ->
         init_variables (nodes (init workflow)) (init workflow) = (s1, Ok tt) ->
         handle_request_on workflow request = Ok (JSONResponse 500 no_entry_result))
  /\ (forall start s1 k s2 wave,
         find_api (nodes (init workflow)) = Some start ->
         init_variables (nodes (init workflow)) (init workflow) = (s1, Ok tt) ->
         reaches (entry_state (input_data_of request) start s1) [node_id start] k s2 wave ->
         (k <= 1000)%nat ->
         wave = [] \/ k = 1000%nat ->
         handle_request_on workflow request = Ok (Returned VNone))
  /\ (forall e,
         handle_request_on workflow request = Raise e
         <-> snd (run (input_data_of request) (init workflow)) = Raise e)
  /\ match handle_request_on workflow request with
     | Ok (Returned content) =>
         content = VNone
         \/ exists id nd s s',
              dict_get id (nodes (init workflow)) = Some nd
              /\ execute_node nd s = (s', Ok (Some (OResponse content)))
     | Ok (JSONResponse status_code content) =>
         status_code = 500
         /\ (content = no_entry_result
             \/ exists id nd s e,
                  dict_get id (nodes (init workflow)) = Some nd
                  /\ snd (execute_node nd s) = Raise e
                  /\ is_Exception e = true
                  /\ res_status content = Some "error"
                  /\ res_error content = Some (exn_str e))
     | Raise e => True
     end.
Proof.
  split; [ | split; [ | split; [ | split; [ | split ] ] ] ].
  - intros k id s3 nd s4 payload Hat Hd Hex. unfold handle_request_on.
    now rewrite (run_of_counted _ _ _ _ _
                   (run_counted_response _ _ k id s3 nd s4 payload Hat Hd Hex)).
  - intros k id s3 nd s4 cls msg Hat Hd Hex. unfold handle_request_on.
    now rewrite (run_of_counted _ _ _ _ _
                   (run_counted_error _ _ k id s3 nd s4 cls msg Hat Hd Hex)).
  - intros s1 Hfind Hinit. unfold handle_request_on, run, run_counted, bind, get_self.
    cbv beta iota. now rewrite Hinit, Hfind.
  - intros start s1 k s2 wave Hfind Hinit Hreach Hk Hend. unfold handle_request_on.
    now rewrite (run_of_counted _ _ _ _ _
                   (run_counted_completes _ _ start s1 k s2 wave Hfind Hinit Hreach Hk Hend)).
  - intros e. unfold handle_request_on.
    destruct (run (input_data_of request) (init workflow)) as [s' [r | e']]; cbn [snd].
    + destruct (match res_status r with
                | Some s => String.eqb s "success"
                | None => false
                end); split; discriminate.
    + split; intros H; injection H as <-; reflexivity.
  - unfold handle_request_on.
    pose proof (run_cases (input_data_of request) (init workflow)) as H.
    destruct (run (input_data_of request) (init workflow)) as [s' [r | e]]; cbn [snd];
      [ | exact I ].
    destruct H as [-> | H].
    + cbn [no_entry_result res_status]. split; [reflexivity | now left].
    + destruct H as [id nd s payload Hd Hex | id nd s e Hd Hex He | ].
      * cbn [response_result res_status res_response String.eqb Ascii.eqb Bool.eqb].
        right. now exists id, nd, s, s'.
      * cbn [error_result res_status String.eqb Ascii.eqb Bool.eqb].
        split; [reflexivity | right ].
        exists id, nd, s, e. repeat split; assumption.
      * cbn [completed_result res_status res_response String.eqb Ascii.eqb Bool.eqb].
        now left.
Qed.

End Handler.

(* ================================================================== *)
(** * The further properties at work

    The theorems of the last part at concrete nodes and graphs, under
    the reference interpreter. *)

Section FurtherAtWork.

Import Examples.
#[local] Existing Instance Reference.runtime.

Lemma variable_reference_keeps_type_witness :
  exists key,
    "{xs}" = "{" ++ key ++ "}"
    /\ (forall stored,
           ctx_find (VStr key) [(VStr "xs", VList [VInt 1; VInt 2])] = Some stored ->
           is_str stored = false ->
           variable_value [(VStr "xs", VList [VInt 1; VInt 2])] copy_data = stored)
    /\ (ctx_find (VStr key) [(VStr "xs", VList [VInt 1; VInt 2])] = None ->
        eq_str (dict_get_default "type" (VStr "string") copy_data) "json" = false ->
        eq_str (dict_get_default "type" (VStr "string") copy_data) "array" = false ->
        variable_value [(VStr "xs", VList [VInt 1; VInt 2])] copy_data = VStr "{xs}").
Proof.
  apply (variable_reference_keeps_type copy_data [(VStr "xs", VList [VInt 1; VInt 2])] "{xs}");
    reflexivity.
Defined.

Lemma math_division_by_zero_witness :
  snd (execute_node divide_node (init dangling_graph)) = Ok None
  /\ math_stored divide_node (init dangling_graph) = Some (VInt 0).
Proof.
  apply (math_division_by_zero divide_node (init dangling_graph) 7%float 0%float);
    reflexivity.
Defined.

Lemma math_modulo_by_zero_witness :
  execute_node modulo_node (init dangling_graph) =
    (append_log "Math Error: Could not process 7 % 0" (init dangling_graph), Ok None).
Proof.
  apply (math_modulo_by_zero modulo_node (init dangling_graph) 7%float 0%float);
    reflexivity.
Defined.

Lemma math_coercion_failure_witness :
  snd (execute_node words_node (init dangling_graph)) = Ok None
  /\ math_stored words_node (init dangling_graph) = Some (VStr "abcdef").
Proof.
  refine (proj1 (math_coercion_failure words_node (init dangling_graph) "ValueError"
                   "could not convert string to float: 'abc'" _ _) _ _);
    vm_compute; reflexivity.
Defined.

Lemma math_whole_operands_truncate_witness :
  snd (execute_node half_node (init dangling_graph)) = Ok None
  /\ math_stored half_node (init dangling_graph) = Some (VInt 3).
Proof.
  exact (math_whole_operands_truncate half_node (init dangling_graph)
           7%float 2%float (VFloat 3.5%float) eq_refl eq_refl eq_refl eq_refl eq_refl eq_refl).
Defined.

(** Whole operands, a result beyond the floats: a text is stored. *)
Lemma math_whole_operands_overflow :
  math_operands [] huge_node = Ok (SF2Prim (S754_finite false 1 1023),
                                   SF2Prim (S754_finite false 1 1023))
  /\ snd (execute_node huge_node (init dangling_graph)) = Ok None
  /\ option_map is_str (math_stored huge_node (init dangling_graph)) = Some true.
Proof. repeat split; vm_compute; reflexivity. Qed.

(** The reference [float] of a string raises nothing but an
    [Exception]. *)
Lemma reference_float_raises (s : string) (e : pyexn) :
  float_of_str s = Raise e -> is_Exception e = true.
Proof.
  unfold float_of_str, Reference.runtime, Reference.float_parse.
  destruct (Reference.parse_int s) as [z | ].
  - unfold PyFloat.of_int.
    destruct (binary_normalize prec emax z 0 false); intros H;
      first [ discriminate H | injection H as <-; reflexivity ].
  - intros H. injection H as <-. reflexivity.
Qed.

Lemma math_never_raises_witness :
  snd (execute_node words_node (init dangling_graph)) = Ok None.
Proof.
  apply (math_never_raises words_node (init dangling_graph));
    [reflexivity | reflexivity | exact reference_float_raises].
Defined.

Lemma readers_keep_context_witness :
  context (fst (execute_node function_node with_numbers)) = context with_numbers.
Proof.
  apply (readers_keep_context function_node with_numbers). reflexivity.
Defined.

Lemma response_variable_is_typed_witness :
  execute_response list_response with_numbers =
    (with_numbers, Ok (Some (OResponse (VList [VInt 1; VInt 2; VInt 3])))).
Proof.
  apply (response_variable_is_typed list_response with_numbers "xs"); reflexivity.
Defined.

Lemma data_op_non_list_stores_zero_witness :
  snd (execute_node count_nothing (init dangling_graph)) = Ok None
  /\ data_op_stored count_nothing (init dangling_graph) = Some (VInt 0)
  /\ In "DataNode Error: Input is not a list. Value: nothing"
        (execution_log (fst (execute_node count_nothing (init dangling_graph)))).
Proof.
  apply (data_op_non_list_stores_zero count_nothing (init dangling_graph)); reflexivity.
Defined.

Lemma data_op_counts_every_item_witness :
  snd (execute_node count_numbers with_numbers) = Ok None
  /\ data_op_stored count_numbers with_numbers = Some (VInt 3).
Proof.
  refine (proj1 (data_op_counts_every_item count_numbers with_numbers
                   [VInt 1; VInt 2; VInt 3] _ _ _) _);
    reflexivity.
Defined.

Lemma interface_rejects_missing_field_witness :
  exists message missing invalid,
    In (VStr "age") missing
    /\ Some (OResponse
               (VDict [("error", VStr "Bad Request");
                       ("message", VStr "Validation Error: Missing fields: age.");
                       ("details", VDict [("missing", VList [VStr "age"]);
                                          ("invalid", VList [])])]))
       = Some (OResponse
                 (VDict [("error", VStr "Bad Request");
                         ("message", VStr message);
                         ("details", VDict [("missing", VList missing);
                                            ("invalid", VList invalid)])])).
Proof.
  apply (interface_rejects_missing_field (node_data number_field) with_name_only
           [VDict age_field] age_field);
    try reflexivity.
  now left.
Defined.

Lemma loop_visits_every_item_witness :
  (forall k item,
      nth_error [VInt 1; VInt 2; VInt 3] k = Some item ->
      snd (execute_node numbers_loop (execute_times k numbers_loop with_numbers))
      = Ok (Some (OLoop "do"))
      /\ ctx_find (VStr "item") (context (execute_times (S k) numbers_loop with_numbers))
         = Some item)
  /\ snd (execute_node numbers_loop (execute_times 3 numbers_loop with_numbers))
     = Ok (Some (OLoop "done"))
  /\ loop_index (context (execute_times 4 numbers_loop with_numbers)) "each"
     = Some (VInt 0).
Proof.
  apply (loop_visits_every_item numbers_loop with_numbers [VInt 1; VInt 2; VInt 3]).
  - reflexivity.
  - repeat split.
  - reflexivity.
  - intros k Hk. do 4 (destruct k as [ | k ]; [reflexivity | ]). simpl in Hk. lia.
Defined.

Lemma loop_non_list_is_done_witness :
  snd (execute_node loop_over_nothing with_numbers) = Ok (Some (OLoop "done"))
  /\ loop_index (context (fst (execute_node loop_over_nothing with_numbers))) "each"
     = Some (VInt 0)
  /\ (forall name,
         key_eqb name (VStr "_loop_states") = false ->
         ctx_find name (context (fst (execute_node loop_over_nothing with_numbers)))
         = ctx_find name (context with_numbers))
  /\ In ("Loop Error: Collection 'nothing' resolved to <class 'str'>, "
         ++ "expected list. Defaulting to empty.")
        (execution_log (fst (execute_node loop_over_nothing with_numbers))).
Proof.
  apply (loop_non_list_is_done loop_over_nothing with_numbers 0); reflexivity.
Defined.

Lemma cycle_ends_at_wave_limit_witness :
  exists s',
    run_counted minimal_input (init cycle_graph) = (s', Ok (1000%nat, completed_result s'))
    /\ execution_log s' = started_line api_node :: repeat (executing_line api_node) 1000.
Proof.
  apply (cycle_ends_at_wave_limit cycle_graph minimal_input api_node).
  - repeat constructor. intros [].
  - reflexivity.
  - now left.
  - reflexivity.
  - intros nd [<- | []]. discriminate.
  - exists (arrow "api-1" "api-1" None). split; [now left | reflexivity].
  - intros e [<- | []] _. reflexivity.
Defined.

Lemma response_variable_in_braces_witness :
  execute_response braced_response with_numbers =
    (with_numbers, Ok (Some (OResponse (VList [VInt 1; VInt 2; VInt 3])))).
Proof.
  apply (response_variable_in_braces braced_response with_numbers "xs");
    first [reflexivity | exact I].
Defined.


(** The same path under a [data_op] node: nothing is summed. *)
Lemma data_op_ignores_body_paths_witness :
  snd (execute_node sum_items with_items) = Ok None
  /\ data_op_stored sum_items with_items = Some (VInt 0).
Proof.
  apply (data_op_ignores_body_paths sum_items with_items "items"); reflexivity.
Defined.

End FurtherAtWork.
